(** * iSCAT file conversions: a shallow embedding of [iSCAT_file_conversions.py]

    The Python module converts microscopy movies between image files, TDMS
    containers (flattened data plus two dimension properties) and HDF5-style
    [.mp] containers.  The functions [tiff_to_mp], [convert_images_to_tdms],
    [tdms_to_images], [read_tdms_properties], [load_images] and [png_to_mp]
    are embedded below as state-and-exception computations over an
    explicit world (file system, console output, console input); the
    library calls they make ([numpy],
    [re], [os], [imageio], [tifffile], [pims], [nptdms], [h5py], [PIL]) are
    embedded as small models, one module per library. *)

From Stdlib Require Import ZArith QArith List String Ascii Lia Permutation.
From Stdlib Require Import Sorting.Sorted DecimalString DecimalPos DecimalZ OrdersEx.
From Stdlib Require Import Floats.SpecFloat.
From stdpp Require Import gmap strings.

Local Open Scope Z_scope.

(** ** Exceptions and results *)

(** The Python exception classes that the embedded code can raise. *)
Inductive exn : Type :=
  | UnboundLocalError
  | ValueError
  | ZeroDivisionError
  | IndexError
  | KeyError
  | TypeError
  | FileNotFoundError
  | FileExistsError
  | NotADirectoryError
  | OSError
  | EOFError.

Inductive result (A : Type) : Type :=
  | Ok (a : A)
  | Raise (e : exn).
Arguments Ok {A} a.
Arguments Raise {A} e.

Definition rbind {A B : Type} (r : result A) (k : A -> result B) : result B :=
  match r with
  | Ok a => k a
  | Raise e => Raise e
  end.

(** [len] of a Python sequence is a Python integer. *)
Definition len {A : Type} (l : list A) : Z := Z.of_nat (length l).

(** ** float32 and pixel values *)

(** IEEE binary32, through the Standard Library's specification of floating
    point numbers at precision 24 and maximal exponent 128. *)
Module float32.

Definition prec : Z := 24.
Definition emax : Z := 128.

(** Conversion of an integer, rounding to nearest, ties to even. *)
Definition of_int (z : Z) : spec_float := binary_normalize prec emax z 0 false.

(** The rational number a finite float denotes; [None] for NaN and the
    infinities. *)
Definition to_Q (f : spec_float) : option Q :=
  match f with
  | S754_zero _ => Some (inject_Z 0)
  | S754_finite s m e =>
      let sm := cond_Zopp s (Zpos m) in
      Some (match e with
            | Z0 => inject_Z sm
            | Zpos k => inject_Z (sm * Zpos (Pos.pow 2 k))
            | Zneg k => Qmake sm (Pos.pow 2 k)
            end)
  | _ => None
  end.

End float32.

(** A pixel as an image codec delivers it: an integer sample (uint8, uint16,
    uint32, int32 pages) or a float32 sample. *)
Inductive pixel : Type :=
  | PInt (z : Z)
  | PF32 (f : spec_float).

(** numpy's element-wise [==]: IEEE equality between floats (NaN equals
    nothing), equality of the numbers denoted between an integer and a
    float. *)
Definition pixel_eqb (p q : pixel) : bool :=
  match p, q with
  | PInt a, PInt b => a =? b
  | PF32 f, PF32 g => SFeqb f g
  | PF32 f, PInt z | PInt z, PF32 f =>
      match float32.to_Q f with
      | Some x => Qeq_bool x (inject_Z z)
      | None => false
      end
  end.

(** The cast to float32 of one element. *)
Definition cast_float32 (p : pixel) : pixel :=
  match p with
  | PInt z => PF32 (float32.of_int z)
  | PF32 f => PF32 f
  end.

(** An integer that survives the cast to float32 unchanged. *)
Definition float32_exact (z : Z) : bool :=
  pixel_eqb (cast_float32 (PInt z)) (PInt z).

(** ** Python builtins *)

Module py.

(** [str(i)] for an integer: decimal digits, a leading [-] when negative. *)
Definition str (z : Z) : string := NilZero.string_of_int (Z.to_int z).

Fixpoint zeros (n : nat) : string :=
  match n with
  | O => EmptyString
  | S n' => String "0" (zeros n')
  end.

(** [s.zfill(width)]: zeros on the left up to [width]; a sign stays first. *)
Definition zfill (width : nat) (s : string) : string :=
  let pad := zeros (width - String.length s) in
  match s with
  | String c r =>
      if (Ascii.eqb c "+" || Ascii.eqb c "-")%bool
      then String c (pad +:+ r)
      else pad +:+ s
  | EmptyString => pad
  end.

(** [sorted] on a list of strings: ascending code-point order.  The order
    is total and equal strings are indistinguishable, so insertion sort
    returns the list Python's sort returns. *)
Fixpoint insert_sorted (x : string) (l : list string) : list string :=
  match l with
  | [] => [x]
  | y :: l' => if String.leb x y then x :: l else y :: insert_sorted x l'
  end.

Fixpoint sorted (l : list string) : list string :=
  match l with
  | [] => []
  | x :: l' => insert_sorted x (sorted l')
  end.

(** Python floats are modelled as the rationals they denote.  The module
    stores floats as metadata, converts two array dimensions to float and
    back, and truncates the quotient of an array length by a frame size;
    on integers below 2^53, as array lengths and dimensions are, Python's
    doubles give the same integers. *)
Inductive value : Type :=
  | VFloat (q : Q)
  | VInt (z : Z)
  | VStr (s : string).

(** [float(i)] *)
Definition float (z : Z) : Q := inject_Z z.

(** [int(x)] of a float: truncation toward zero. *)
Definition int_of_float (q : Q) : Z := Z.quot (Qnum q) (Zpos (Qden q)).

Definition is_digit (c : ascii) : bool :=
  let n := nat_of_ascii c in (Nat.leb 48 n && Nat.leb n 57)%bool.

Fixpoint all_digits (s : string) : bool :=
  match s with
  | EmptyString => true
  | String c r => (is_digit c && all_digits r)%bool
  end.

Fixpoint digits_value (acc : Z) (s : string) : Z :=
  match s with
  | EmptyString => acc
  | String c r => digits_value (10 * acc + (Z.of_nat (nat_of_ascii c) - 48)) r
  end.

(** [int(x)]: truncation for a float, identity on an integer; a string
    must be a decimal numeral with an optional sign (the other spellings
    Python accepts are not modelled and are rejected as it rejects
    non-numerals). *)
Definition int (v : value) : result Z :=
  match v with
  | VFloat q => Ok (int_of_float q)
  | VInt z => Ok z
  | VStr s =>
      let '(neg, body) :=
        match s with
        | String c r =>
            if Ascii.eqb c "-" then (true, r)
            else if Ascii.eqb c "+" then (false, r) else (false, s)
        | EmptyString => (false, s)
        end in
      if (all_digits body && negb (String.eqb body ""))%bool
      then Ok (if neg then - digits_value 0 body else digits_value 0 body)
      else Raise ValueError
  end.

(** [a / b] on integers: true division. *)
Definition truediv (a b : Z) : result Q :=
  if b =? 0 then Raise ZeroDivisionError else Ok (Qdiv (inject_Z a) (inject_Z b)).

End py.

(** ** Regular expressions and globbing *)

Module re.

(** Characters that are regular-expression operators; [.] is handled
    separately. *)
Definition is_meta (c : ascii) : bool :=
  existsb (Ascii.eqb c)
    ["\"; "^"; "$"; "*"; "+"; "?"; "{"; "}"; "["; "]"; "|"; "("; ")"]%char.

(** The patterns the model covers: literal characters and [.]. File
    extensions such as [.tif], [.tiff], [.png] are of this form. *)
Fixpoint plain (pat : string) : bool :=
  match pat with
  | EmptyString => true
  | String c r => (negb (is_meta c) && plain r)%bool
  end.

(** [.] matches any character but a newline; another character matches
    itself. *)
Definition match_char (p c : ascii) : bool :=
  if Ascii.eqb p "." then negb (Ascii.eqb c "010") else Ascii.eqb p c.

(** The pattern matches at the start of the string. *)
Fixpoint match_here (pat s : string) : bool :=
  match pat, s with
  | EmptyString, _ => true
  | String _ _, EmptyString => false
  | String p pat', String c s' => (match_char p c && match_here pat' s')%bool
  end.

(** [re.search(pat, s)] as a truth value: the pattern matches at some
    position. *)
Fixpoint search (pat s : string) : bool :=
  (match_here pat s ||
   match s with
   | EmptyString => false
   | String _ s' => search pat s'
   end)%bool.

End re.

(** Globbing, as [glob.glob] does it for the patterns [core + '*' + ext]
    that the module builds, when [core] and [ext] hold no glob operator. *)
Module glob.

Definition is_meta (c : ascii) : bool :=
  existsb (Ascii.eqb c) ["*"; "?"; "["]%char.

Fixpoint plain (pat : string) : bool :=
  match pat with
  | EmptyString => true
  | String c r => (negb (is_meta c) && plain r)%bool
  end.

Fixpoint is_suffix (suf s : string) : bool :=
  (String.eqb suf s ||
   match s with
   | EmptyString => false
   | String _ s' => is_suffix suf s'
   end)%bool.

Fixpoint drop (n : nat) (s : string) : string :=
  match n, s with
  | S n', String _ s' => drop n' s'
  | _, _ => s
  end.

Definition hidden (s : string) : bool :=
  match s with
  | String c _ => Ascii.eqb c "."
  | EmptyString => false
  end.

(** A name matches [core*ext] when it starts with [core] and what follows
    ends with [ext]; a name that starts with a dot needs a pattern that
    does. *)
Definition matches (core ext name : string) : bool :=
  (String.prefix core name
   && is_suffix ext (drop (String.length core) name)
   && (negb (hidden name) || hidden core))%bool.

End glob.

(** Natural ordering of file names, as [tifffile.natural_sorted] and
    [pims.utils.sort.natural_keys] compute it: the name is split at its runs
    of digits, the runs compare as numbers and the text between them as
    strings. *)
Module natural.

Definition digit (c : ascii) : Z := Z.of_nat (nat_of_ascii c) - 48.

(** The key [re.split('(\d+)', s)] with its digit runs converted: text,
    number, text, ..., text.  [txt] is the text read since the last run,
    [num] the value of the run being read. *)
Fixpoint split_key (txt : string) (num : option Z) (s : string) : list (string + Z) :=
  match s with
  | EmptyString =>
      match num with
      | None => [inl txt]
      | Some n => [inr n; inl EmptyString]
      end
  | String c r =>
      if py.is_digit c then
        match num with
        | None => inl txt :: split_key EmptyString (Some (digit c)) r
        | Some n => split_key EmptyString (Some (10 * n + digit c)) r
        end
      else
        match num with
        | None => split_key (txt +:+ String c EmptyString) None r
        | Some n => inr n :: split_key (String c EmptyString) None r
        end
  end.

Definition key (s : string) : list (string + Z) := split_key EmptyString None s.

(** Python's ordering of lists, on keys; text and numbers alternate from
    the first position on, so the mixed cases do not arise between keys. *)
Fixpoint key_compare (k1 k2 : list (string + Z)) : comparison :=
  match k1, k2 with
  | [], [] => Eq
  | [], _ :: _ => Lt
  | _ :: _, [] => Gt
  | a :: k1', b :: k2' =>
      let c :=
        match a, b with
        | inl s, inl t => String.compare s t
        | inr m, inr n => Z.compare m n
        | inl _, inr _ => Lt
        | inr _, inl _ => Gt
        end in
      match c with
      | Eq => key_compare k1' k2'
      | _ => c
      end
  end.

Definition leb (s t : string) : bool :=
  match key_compare (key s) (key t) with
  | Gt => false
  | _ => true
  end.

(** A stable sort by key: names with equal keys keep their order. *)
Fixpoint insert_sorted (x : string) (l : list string) : list string :=
  match l with
  | [] => [x]
  | y :: l' => if leb x y then x :: l else y :: insert_sorted x l'
  end.

Fixpoint sorted (l : list string) : list string :=
  match l with
  | [] => []
  | x :: l' => insert_sorted x (sorted l')
  end.

End natural.

(** ** numpy arrays *)

(** An array: its shape and its elements in row-major (C) order. *)
Record ndarray : Type := { shape : list Z; data : list pixel }.

Module numpy.

Definition prod (dims : list Z) : Z := fold_right Z.mul 1 dims.

Definition same_shape (a b : ndarray) : bool := bool_decide (shape a = shape b).

(** Stacking a list of arrays along a new first axis, each element passed
    through [cast].  An empty list gives an empty one-dimensional array;
    arrays of different shapes cannot be stacked and raise [ValueError]. *)
Definition stack (cast : pixel -> pixel) (l : list ndarray) : result ndarray :=
  match l with
  | [] => Ok {| shape := [0]; data := [] |}
  | a :: _ =>
      if forallb (same_shape a) l
      then Ok {| shape := len l :: shape a;
                 data := concat (map (fun b => map cast (data b)) l) |}
      else Raise ValueError
  end.

(** [a.astype(numpy.float32)] *)
Definition astype_float32 (a : ndarray) : ndarray :=
  {| shape := shape a; data := map cast_float32 (data a) |}.

(** [numpy.array(images, dtype = numpy.float32)] *)
Definition array_float32 (l : list ndarray) : result ndarray := stack cast_float32 l.

(** [numpy.asarray(images)] *)
Definition asarray (l : list ndarray) : result ndarray := stack (fun p => p) l.

(** The new shape of a reshape.  A negative entry stands for the one
    dimension to infer; the sizes must agree. *)
Definition fix_unknown_dimension (newshape : list Z) (size : Z) : result (list Z) :=
  let known := List.filter (fun d => 0 <=? d) newshape in
  let unknown := (length newshape - length known)%nat in
  match unknown with
  | O => if prod known =? size then Ok newshape else Raise ValueError
  | S O =>
      let s_known := prod known in
      if ((s_known =? 0) || negb (size mod s_known =? 0))%bool
      then Raise ValueError
      else Ok (map (fun d => if 0 <=? d then d else size / s_known) newshape)
  | _ => Raise ValueError
  end.

(** [numpy.reshape(a, newshape)]: same elements, same order, new shape. *)
Definition reshape (a : ndarray) (newshape : list Z) : result ndarray :=
  rbind (fix_unknown_dimension newshape (len (data a)))
        (fun s => Ok {| shape := s; data := data a |}).

(** [n] consecutive pieces of [k] elements each. *)
Fixpoint chunks (n k : nat) (l : list pixel) : list (list pixel) :=
  match n with
  | O => []
  | S n' => firstn k l :: chunks n' k (skipn k l)
  end.

(** Iterating over an array, and indexing it with an integer, go along
    its first axis; a zero-dimensional array has none. *)
Definition subarrays (a : ndarray) : result (list ndarray) :=
  match shape a with
  | [] => Raise TypeError
  | n :: rest =>
      Ok (map (fun d => {| shape := rest; data := d |})
              (chunks (Z.to_nat n) (Z.to_nat (prod rest)) (data a)))
  end.

(** [a[0]] *)
Definition first (a : ndarray) : result ndarray :=
  match shape a with
  | [] => Raise IndexError
  | _ :: _ =>
      match subarrays a with
      | Ok (x :: _) => Ok x
      | Ok [] => Raise IndexError
      | Raise e => Raise e
      end
  end.

(** [a.shape[i]] *)
Definition shape_at (a : ndarray) (i : nat) : result Z :=
  match shape a !! i with
  | Some d => Ok d
  | None => Raise IndexError
  end.

(** [numpy.array_equal(a, b)]: same shape and equal elements. *)
Definition array_equal (a b : ndarray) : bool :=
  (bool_decide (shape a = shape b)
   && bool_decide (length (data a) = length (data b))
   && forallb (fun pq => pixel_eqb (fst pq) (snd pq)) (combine (data a) (data b)))%bool.

End numpy.

(** ** Files and the world *)

(** The properties of a TDMS object: a dictionary from names to scalars. *)
Abbreviation properties := (gmap string py.value).

(** A TDMS channel: its flattened data and its properties. *)
Record channel : Type := { ch_data : list pixel; ch_properties : properties }.

(** The content of a TDMS file: root properties, group names, channels by
    group and channel name. *)
Record tdms : Type := {
  tdms_properties : properties;
  tdms_groups : list string;
  tdms_channels : gmap (string * string) channel
}.

Inductive file : Type :=
  | ImageFile (pages : list ndarray)      (* TIFF or PNG: its pages in order *)
  | TdmsFile (t : tdms)
  | H5File (datasets : gmap string ndarray)
  | OtherFile.

(** What [print] sends to the console: text, and the representation of a
    float or of a property dictionary where the code prints one. *)
Inductive atom : Type :=
  | Text (s : string)
  | FloatRepr (q : Q)
  | PropsRepr (p : properties).

(** The file system, the console output and the console input.

    A directory of image files lists its entries in the order the file
    system enumerates them, which is arbitrary; the path
    [dir + '/' + name] of an entry is kept as the directory and the name.
    Container files (TDMS, HDF5) and stack files are addressed by their
    whole path.  The two maps stand for disjoint places: a world models a
    file system whose container files lie outside its image directories. *)
Record world : Type := {
  files : gmap string file;
  dirs : gmap string (list (string * file));
  stdout : list (list atom);
  stdin : list string
}.

Definition with_files (w : world) (fs : gmap string file) : world :=
  {| files := fs; dirs := dirs w; stdout := stdout w; stdin := stdin w |}.

Definition with_dirs (w : world) (ds : gmap string (list (string * file))) : world :=
  {| files := files w; dirs := ds; stdout := stdout w; stdin := stdin w |}.

Definition with_stdout (w : world) (out : list (list atom)) : world :=
  {| files := files w; dirs := dirs w; stdout := out; stdin := stdin w |}.

Definition with_stdin (w : world) (inp : list string) : world :=
  {| files := files w; dirs := dirs w; stdout := stdout w; stdin := inp |}.

(** ** Computations: state and exceptions *)

(** A call runs in a world and either returns or raises; what it did to the
    world before raising stays done. *)
Definition M (A : Type) : Type := world -> result A * world.

Definition ret {A : Type} (a : A) : M A := fun w => (Ok a, w).

Definition raise {A : Type} (e : exn) : M A := fun w => (Raise e, w).

Definition bind {A B : Type} (c : M A) (k : A -> M B) : M B :=
  fun w =>
    match c w with
    | (Ok a, w') => k a w'
    | (Raise e, w') => (Raise e, w')
    end.

Definition lift {A : Type} (r : result A) : M A := fun w => (r, w).

Notation "'let*' x ':=' c 'in' k" := (bind c (fun x => k))
  (at level 10, x name, c at level 100, k at level 200).
Notation "'let*' ' pat ':=' c 'in' k" :=
  (bind c (fun x => match x with pat => k end))
  (at level 10, pat pattern, c at level 100, k at level 200).

Fixpoint for_each {A B : Type} (f : A -> M B) (l : list A) : M (list B) :=
  match l with
  | [] => ret []
  | x :: l' => let* y := f x in let* ys := for_each f l' in ret (y :: ys)
  end.

(** [for i, x in enumerate(l): body], counting from [i]. *)
Fixpoint for_enumerate {A : Type} (body : Z -> A -> M unit) (i : Z) (l : list A) : M unit :=
  match l with
  | [] => ret tt
  | x :: l' => let* _ := body i x in for_enumerate body (i + 1) l'
  end.

Definition print (l : list atom) : M unit :=
  fun w => (Ok tt, with_stdout w (stdout w ++ [l])).

(** [input(prompt)]: shows the prompt and takes the next line typed at the
    console; [EOFError] when the console has nothing more to give. *)
Definition input (prompt : string) : M string :=
  fun w =>
    let w' := with_stdout w (stdout w ++ [[Text prompt]]) in
    match stdin w with
    | [] => (Raise EOFError, w')
    | l :: rest => (Ok l, with_stdin w' rest)
    end.

(** The entry of a directory listing under a name. *)
Fixpoint entry (name : string) (l : list (string * file)) : option file :=
  match l with
  | [] => None
  | (n, f) :: l' => if String.eqb n name then Some f else entry name l'
  end.

(** Writing an entry: in place when the name exists, a new entry after the
    others when it does not. *)
Fixpoint write_entry (name : string) (f : file) (l : list (string * file))
  : list (string * file) :=
  match l with
  | [] => [(name, f)]
  | (n, g) :: l' =>
      if String.eqb n name then (n, f) :: l' else (n, g) :: write_entry name f l'
  end.

Module os.

Definition listdir (d : string) : M (list string) :=
  fun w =>
    match dirs w !! d with
    | Some l => (Ok (map fst l), w)
    | None =>
        match files w !! d with
        | Some _ => (Raise NotADirectoryError, w)
        | None => (Raise FileNotFoundError, w)
        end
    end.

Definition path_isdir (d : string) : M bool :=
  fun w => (Ok (bool_decide (is_Some (dirs w !! d))), w).

Definition mkdir (d : string) : M unit :=
  fun w =>
    match dirs w !! d, files w !! d with
    | None, None => (Ok tt, with_dirs w (<[d := []]> (dirs w)))
    | _, _ => (Raise FileExistsError, w)
    end.

End os.

(** Reading the file [name] of the directory [d] as some type of file. *)
Definition open_entry (d name : string) : M file :=
  fun w =>
    match dirs w !! d with
    | Some l =>
        match entry name l with
        | Some f => (Ok f, w)
        | None => (Raise FileNotFoundError, w)
        end
    | None => (Raise FileNotFoundError, w)
    end.

Definition open_file (path : string) : M file :=
  fun w =>
    match files w !! path with
    | Some f => (Ok f, w)
    | None => (Raise FileNotFoundError, w)
    end.

Module imageio.

(** [imageio.imread(path)]: the first image of the file. *)
Definition imread (d name : string) : M ndarray :=
  let* f := open_entry d name in
  match f with
  | ImageFile (page :: _) => ret page
  | _ => raise ValueError
  end.

End imageio.

Module PIL.

(** [Image.fromarray(j).save(dir / name)]: a one-page image file. *)
Definition save (j : ndarray) (d name : string) : M unit :=
  fun w =>
    match dirs w !! d with
    | Some l => (Ok tt, with_dirs w (<[d := write_entry name (ImageFile [j]) l]> (dirs w)))
    | None => (Raise FileNotFoundError, w)
    end.

End PIL.

Module tifffile.

(** The pages of the first series: those shaped as the first page. *)
Definition series0 (pages : list ndarray) : list ndarray :=
  match pages with
  | [] => []
  | p :: _ => List.filter (numpy.same_shape p) pages
  end.

(** Pages as one array: a single page keeps its shape, several pages are
    stacked. *)
Definition pages_asarray (pages : list ndarray) : result ndarray :=
  match pages with
  | [] => Raise ValueError
  | [p] => Ok p
  | _ => numpy.asarray pages
  end.

(** [TiffFile(path)]: the pages of the file. *)
Definition TiffFile (path : string) : M (list ndarray) :=
  let* f := open_file path in
  match f with
  | ImageFile pages => ret pages
  | _ => raise ValueError
  end.

(** [_file.asarray(key = slice(start, stop))]: the selected pages of the
    file. *)
Definition asarray_slice (pages : list ndarray) (start stop : Z) : result ndarray :=
  pages_asarray (firstn (Z.to_nat stop - Z.to_nat start) (skipn (Z.to_nat start) pages)).

(** [imread] of one file of a sequence: its first series. *)
Definition imread (d name : string) : M ndarray :=
  let* f := open_entry d name in
  match f with
  | ImageFile pages => lift (pages_asarray (series0 pages))
  | _ => raise ValueError
  end.

(** [TiffSequence(dir / (core + '*' + ext))]: the matching files of the
    directory in natural order; there must be one at least. *)
Definition TiffSequence (d core ext : string) : M (list string) :=
  let* names := os.listdir d in
  let found := natural.sorted (List.filter (glob.matches core ext) names) in
  match found with
  | [] => raise ValueError
  | _ => ret found
  end.

(** [image_sequence.asarray()]: the files' arrays stacked along a new
    first axis. *)
Definition sequence_asarray (d : string) (found : list string) : M ndarray :=
  let* ims := for_each (imread d) found in
  lift (numpy.asarray ims).

End tifffile.

Module pims.

(** [pims.ImageSequence(dir / (core + '*' + ext))]: the matching files in
    natural order, one frame per file; [OSError] when none matches. *)
Definition ImageSequence (d core ext : string) : M (list ndarray) :=
  let* names := os.listdir d in
  let found := natural.sorted (List.filter (glob.matches core ext) names) in
  match found with
  | [] => raise OSError
  | _ => for_each (imageio.imread d) found
  end.

End pims.

Module h5py.

(** [with h5py.File(path, "w") as f: f.create_dataset(name, data = a)] *)
Definition write_dataset (path name : string) (a : ndarray) : M unit :=
  fun w =>
    match dirs w !! path with
    | Some _ => (Raise OSError, w)
    | None => (Ok tt, with_files w (<[path := H5File {[ name := a ]}]> (files w)))
    end.

End h5py.

Module nptdms.

(** [nptdms.TdmsFile.open(path)] and [nptdms.TdmsFile(path)] *)
Definition TdmsFile_read (path : string) : M tdms :=
  let* f := open_file path in
  match f with
  | TdmsFile t => ret t
  | _ => raise ValueError
  end.

(** [f.channel_data(group, channel)] *)
Definition channel_data (t : tdms) (g c : string) : result ndarray :=
  match tdms_channels t !! (g, c) with
  | Some ch => Ok {| shape := [len (ch_data ch)]; data := ch_data ch |}
  | None => Raise KeyError
  end.

(** [f.object(group, channel).properties] *)
Definition object_properties (t : tdms) (g c : string) : result properties :=
  match tdms_channels t !! (g, c) with
  | Some ch => Ok (ch_properties ch)
  | None => Raise KeyError
  end.

(** [attributes[key]] *)
Definition getitem (p : properties) (key : string) : result py.value :=
  match p !! key with
  | Some v => Ok v
  | None => Raise KeyError
  end.

(** The objects handed to the writer. *)
Record RootObject : Type := { root_properties : properties }.
Record GroupObject : Type := { group_name : string }.
Record ChannelObject : Type := {
  co_group : string;
  co_channel : string;
  co_data : ndarray;
  co_properties : properties
}.

(** [with TdmsWriter(path) as w: body; w.write_segment([root, group,
    channel])]: the file is created when the writer is entered and holds
    the segment when it is left. *)
Definition TdmsWriter_enter (path : string) : M unit :=
  fun w =>
    match dirs w !! path with
    | Some _ => (Raise OSError, w)
    | None =>
        (Ok tt,
         with_files w
           (<[path := TdmsFile {| tdms_properties := ∅; tdms_groups := [];
                                  tdms_channels := ∅ |}]> (files w)))
    end.

Definition write_segment (path : string) (r : RootObject) (g : GroupObject)
    (c : ChannelObject) : M unit :=
  fun w =>
    (Ok tt,
     with_files w
       (<[path := TdmsFile
            {| tdms_properties := root_properties r;
               tdms_groups := [group_name g];
               tdms_channels :=
                 {[ (co_group c, co_channel c) :=
                      {| ch_data := data (co_data c);
                         ch_properties := co_properties c |} ]} |}]> (files w))).

End nptdms.

(** ** The conversion functions *)

(** The value a loop variable holds after the loop: that of the last
    round, if there was one. *)
Fixpoint last_bound {A : Type} (l : list A) : option A :=
  match l with
  | [] => None
  | [x] => Some x
  | _ :: l' => last_bound l'
  end.

(** [tiff_to_mp(tiff_location, mp_file, single_stack, filename_core)] *)
Definition tiff_to_mp (tiff_location mp_file : string) (single_stack : bool)
    (filename_core : option string) : M ndarray :=
  let* data :=
    if single_stack then
      let numberAboveTotalFrames := 100000 in
      let* _file := tifffile.TiffFile tiff_location in
      lift (tifffile.asarray_slice _file 0 numberAboveTotalFrames)
    else
      match filename_core with
      | None => raise TypeError
      | Some core =>
          let* image_sequence := tifffile.TiffSequence tiff_location core ".tif" in
          let* data := tifffile.sequence_asarray tiff_location image_sequence in
          lift (numpy.first data)
      end in
  let* _ := h5py.write_dataset mp_file "frame" data in
  ret data.

(** The dictionary of properties given to the channel (line 205). *)
Definition channel_properties
    (effective_frame_rate exposure_time bin_frame_size : py.value) (xlength : Q)
    (z af_radius : py.value) (ylength : Q) : properties :=
  <["Effective frame rate" := effective_frame_rate]>
  (<["Exposure Time" := exposure_time]>
  (<["Bin frame size" := bin_frame_size]>
  (<["Image size" := py.VFloat xlength]>
  (<["Z position (um)" := z]>
  (<["Autofocus radius" := af_radius]>
  (<["Image size 2" := py.VFloat ylength]> ∅)))))).

(** Lines 171 to 180 of [convert_images_to_tdms]: the names of the image
    files, sorted, and the images read from them in that order. *)
Definition read_image_files (imagepath image_file_extension : string)
  : M (list string * list ndarray) :=
  let* listing := os.listdir imagepath in
  let filenames := List.filter (re.search image_file_extension) listing in
  let filenames := py.sorted filenames in
  let number_of_frames := len filenames in
  let* _ := print [Text ("There are " +:+ py.str number_of_frames +:+ " frames.")] in
  let* images := for_each (fun i => imageio.imread imagepath i) filenames in
  ret (filenames, images).

(** [convert_images_to_tdms(imagepath, tdms_template_file,
    effective_frame_rate, exposure_time, bin_frame_size, z, af_radius,
    image_file_extension, target_file)] *)
Definition convert_images_to_tdms (imagepath tdms_template_file : string)
    (effective_frame_rate exposure_time bin_frame_size z af_radius : py.value)
    (image_file_extension target_file : string)
  : M (nptdms.ChannelObject * ndarray * ndarray) :=
  let* '(filenames, images) := read_image_files imagepath image_file_extension in
  let number_of_frames := len filenames in
  let image := last_bound images in
  let* images := lift (numpy.array_float32 images) in
  let* image := match image with
                | Some im => ret im
                | None => raise UnboundLocalError
                end in
  let* d0 := lift (numpy.shape_at image 0) in
  let xlength := py.float d0 in
  let* d1 := lift (numpy.shape_at image 1) in
  let ylength := py.float d1 in
  let* _ := print [Text "Each image is "; FloatRepr xlength; Text " by ";
                   FloatRepr ylength; Text " pixels."] in
  let* data := lift (numpy.reshape images [d0 * d1 * number_of_frames]) in
  let* tdms_template := nptdms.TdmsFile_read tdms_template_file in
  let root_object :=
    {| nptdms.root_properties := tdms_properties tdms_template |} in
  let* _ := print [Text "The properties of the template file: "] in
  let* _ := print [PropsRepr (tdms_properties tdms_template)] in
  let group_object := {| nptdms.group_name := "img" |} in
  let channel_object :=
    {| nptdms.co_group := "img";
       nptdms.co_channel := "cam1";
       nptdms.co_data := data;
       nptdms.co_properties :=
         channel_properties effective_frame_rate exposure_time bin_frame_size
           xlength z af_radius ylength |} in
  let* _ := nptdms.TdmsWriter_enter target_file in
  let* _ := print [Text target_file] in
  let* _ := nptdms.write_segment target_file root_object group_object channel_object in
  ret (channel_object, data, images).

(** Lines 241 to 253 of [tdms_to_images]: the channel [img/cam1] of the
    file, folded into frames with the two dimensions its properties
    declare. *)
Definition read_tdms_images (tdms_filename : string) : M ndarray :=
  let* f := nptdms.TdmsFile_read tdms_filename in
  let* data_raw := lift (nptdms.channel_data f "img" "cam1") in
  let* attributes := lift (nptdms.object_properties f "img" "cam1") in
  let* size1 := lift (nptdms.getitem attributes "Image size") in
  let* ylength := lift (py.int size1) in
  let* size2 := lift (nptdms.getitem attributes "Image size 2") in
  let* xlength := lift (py.int size2) in
  let* quotient := lift (py.truediv (len (data data_raw)) (ylength * xlength)) in
  let number_of_frames := py.int_of_float quotient in
  let* _ := print [Text ("I found " +:+ py.str number_of_frames +:+ " frames.")] in
  lift (numpy.reshape data_raw [number_of_frames; ylength; xlength]).

(** The name of the file of frame [i]. *)
Definition k_file_tag (i : Z) (image_file_extension : string) : string :=
  "frame" +:+ py.zfill 5 (py.str i) +:+ image_file_extension.

(** The question asked at the console (line 258). *)
Definition overwrite_prompt : string :=
  "This directory is already occupied. Do you wish to rewrite its contents? Type y if yes.".

(** Lines 256 to 272 of [tdms_to_images]: the frames written one file
    each, after asking at the console when the directory holds something. *)
Definition save_images (data : ndarray) (destination image_file_extension : string)
  : M unit :=
  let* isdir := os.path_isdir destination in
  let* answer :=
    if isdir then
      let* content := os.listdir destination in
      if negb (len content =? 0)
      then input overwrite_prompt
      else ret "y"%string
    else
      let* _ := os.mkdir destination in
      ret "y"%string in
  if String.eqb answer "y" then
    let* frames := lift (numpy.subarrays data) in
    for_enumerate
      (fun i j => PIL.save j destination (k_file_tag i image_file_extension))
      0 frames
  else
    print [Text ("The contents of " +:+ destination +:+ " were not overwritten.")].

(** [tdms_to_images(tdms_filename, destination, save, image_file_extension)] *)
Definition tdms_to_images (tdms_filename destination : string) (save : bool)
    (image_file_extension : string) : M ndarray :=
  let* data := read_tdms_images tdms_filename in
  let* _ := if save then save_images data destination image_file_extension
            else ret tt in
  ret data.

(** [load_images(image_location, filename_core, extension)] *)
Definition load_images (image_location filename_core extension : string)
  : M (list ndarray) :=
  pims.ImageSequence image_location filename_core extension.

(** [png_to_mp(image_location, mp_location, extension)] *)
Definition png_to_mp (image_location mp_location extension : string) : M ndarray :=
  let* images := load_images image_location "frame" extension in
  let* image_array := lift (numpy.asarray images) in
  let* _ := h5py.write_dataset mp_location "frame" image_array in
  ret image_array.

(** ** [read_tdms_properties] *)

(** The function builds a dictionary whose values are Python objects: the
    list of groups, and the list [channels], which it goes on appending
    to after it has stored it.  The list is therefore kept in a store, by
    reference, and the dictionary holds the reference.

    What [tdms_file.groups()] and [tdms_file.group_channels(i)] return,
    and what [str(i)] is for a group, differs between the versions of
    npTDMS; the function only passes these values on, and the embedding
    takes the three operations as parameters: [G] is the type of what
    stands for a group, [C] of what stands for a channel. *)
Section ReadProperties.

Variables G C : Type.
Variable groups_of : tdms -> list G.
Variable group_channels : tdms -> G -> result (list C).
Variable group_str : G -> string.

(** A value of the dictionary: the list of groups, or the reference of a
    list in the store. *)
Inductive dict_value : Type :=
  | DGroups (groups : list G)
  | DRef (r : nat).

(** [l.append(x)] on the list at [r] of the store, which keeps the lists
    of channel lists by reference. *)
Definition list_append (r : nat) (x : list C) (st : gmap nat (list (list C)))
  : gmap nat (list (list C)) :=
  match st !! r with
  | Some l => <[r := l ++ [x]]> st
  | None => st
  end.

(** Lines 305 to 307: the loop over the groups. *)
Fixpoint read_groups (tdms_file : tdms) (channels : nat) (groups : list G)
    (properties_dict : gmap string dict_value) (st : gmap nat (list (list C)))
  : result (gmap string dict_value * gmap nat (list (list C))) :=
  match groups with
  | [] => Ok (properties_dict, st)
  | i :: rest =>
      rbind (group_channels tdms_file i) (fun cs =>
        let st := list_append channels cs st in
        let properties_dict := <[group_str i := DRef channels]> properties_dict in
        read_groups tdms_file channels rest properties_dict st)
  end.

(** [read_tdms_properties(filename)]: the properties of the file, the
    dictionary, and the store its references point into.  [channels = []]
    makes a new list, here at the reference 0 of a store that holds no
    other. *)
Definition read_tdms_properties (filename : string)
  : M (properties * gmap string dict_value * gmap nat (list (list C))) :=
  let properties_dict : gmap string dict_value := ∅ in
  let* tdms_file := nptdms.TdmsFile_read filename in
  let properties := tdms_properties tdms_file in
  let groups := groups_of tdms_file in
  let properties_dict := <["groups"%string := DGroups groups]> properties_dict in
  let channels := 0%nat in
  let st : gmap nat (list (list C)) := {[ channels := [] ]} in
  let* '(properties_dict, st) :=
    lift (read_groups tdms_file channels groups properties_dict st) in
  ret (properties, properties_dict, st).

End ReadProperties.

Arguments DGroups {G} groups.
Arguments DRef {G} r.

(** ** Vocabulary of the statements *)

(** *** Order of strings and names of frames *)

(** The order [sorted] puts strings in, and its strict part. *)
Definition sle (a b : string) : Prop := String.leb a b = true.
Definition slt (a b : string) : Prop := String.ltb a b = true.

(** The index of a frame as it appears in the name of its file. *)
Definition padded (i : Z) : string := py.zfill 5 (py.str i).

(** [P] holds of the [n] integers from [i] on. *)
Fixpoint all_from (n : nat) (i : Z) (P : Z -> bool) : bool :=
  match n with
  | O => true
  | S n' => (P i && all_from n' (i + 1) P)%bool
  end.

(** The padded numeral of [i] has five characters and comes before the
    padded numeral of [i + 1]. *)
Definition step_ok (i : Z) : bool :=
  (String.ltb (padded i) (padded (i + 1))
   && Nat.eqb (String.length (padded i)) 5)%bool.

(** [enumerate(l)], counting from [i]. *)
Fixpoint enumerate {A : Type} (i : Z) (l : list A) : list (Z * A) :=
  match l with
  | [] => []
  | x :: l' => (i, x) :: enumerate (i + 1) l'
  end.

(** The listing of a directory after the frames, counted from [i], are
    saved over it in order. *)
Definition exported (ext : string) (frames : list ndarray) (i : Z)
    (content : list (string * file)) : list (string * file) :=
  fold_left
    (fun l ij => write_entry (k_file_tag (fst ij) ext) (ImageFile [snd ij]) l)
    (enumerate i frames) content.

(** One file per frame, named by index. *)
Definition frame_files (ext : string) (frames : list ndarray) (i : Z)
  : list (string * file) :=
  map (fun ij => (k_file_tag (fst ij) ext, ImageFile [snd ij])) (enumerate i frames).

(** A directory that does not exist yet, or exists and is empty. *)
Definition fresh_directory (w : world) (d : string) : Prop :=
  (dirs w !! d = None /\ files w !! d = None) \/ dirs w !! d = Some [].

(** *** Frames and their flattening *)

(** The elements of the frames one frame after the other, each frame in
    its own (row-major) order, each element passed through [cast]. *)
Definition flat (cast : pixel -> pixel) (frames : list ndarray) : list pixel :=
  concat (map (fun b => map cast (data b)) frames).

(** A frame of [H] rows and [W] columns with its [H * W] pixels. *)
Definition frame_of (H W : Z) (b : ndarray) : bool :=
  (bool_decide (shape b = [H; W]) && (len (data b) =? H * W))%bool.

(** Every pixel of the frame is a number that float32 holds: it equals its
    cast. *)
Definition float32_frame (b : ndarray) : bool :=
  forallb (fun p => pixel_eqb (cast_float32 p) p) (data b).

(** Pages of one shape, each with the elements its shape counts. *)
Definition uniform_pages (s : list Z) (pages : list ndarray) : bool :=
  forallb (fun p => bool_decide (shape p = s) && (len (data p) =? numpy.prod s))%bool pages.

(** The files of the directory that match the extension, taken in the
    order of their sorted names, are image files whose first images are
    the given frames.  The extension is a pattern of the modelled kind. *)
Definition holds_frames (w : world) (imagepath ext : string) (frames : list ndarray)
  : Prop :=
  re.plain ext = true /\
  exists l,
    dirs w !! imagepath = Some l /\
    Forall2 (fun n f => exists rest, entry n l = Some (ImageFile (f :: rest)))
            (py.sorted (List.filter (re.search ext) (map fst l))) frames.

(** *** What [convert_images_to_tdms] produces *)

(** The flattened data, the stacked images and the channel it returns for
    frames of [h] rows and [w] columns, the file it writes and the lines
    it prints. *)
Definition converted_data (frames : list ndarray) (h w : Z) : ndarray :=
  {| shape := [h * w * len frames]; data := flat cast_float32 frames |}.

Definition converted_images (frames : list ndarray) (h w : Z) : ndarray :=
  {| shape := [len frames; h; w]; data := flat cast_float32 frames |}.

Definition converted_channel (frames : list ndarray) (h w : Z)
    (efr et bfs z af : py.value) : nptdms.ChannelObject :=
  {| nptdms.co_group := "img";
     nptdms.co_channel := "cam1";
     nptdms.co_data := converted_data frames h w;
     nptdms.co_properties :=
       channel_properties efr et bfs (py.float h) z af (py.float w) |}.

Definition converted_file (template : tdms) (frames : list ndarray) (h w : Z)
    (efr et bfs z af : py.value) : file :=
  TdmsFile
    {| tdms_properties := tdms_properties template;
       tdms_groups := ["img"%string];
       tdms_channels :=
         {[ ("img"%string, "cam1"%string) :=
              {| ch_data := flat cast_float32 frames;
                 ch_properties :=
                   channel_properties efr et bfs (py.float h) z af (py.float w) |} ]} |}.

Definition converted_output (template : tdms) (frames : list ndarray) (h w : Z)
    (target_file : string) : list (list atom) :=
  [ [Text ("There are " +:+ py.str (len frames) +:+ " frames.")];
    [Text "Each image is "; FloatRepr (py.float h); Text " by ";
     FloatRepr (py.float w); Text " pixels."];
    [Text "The properties of the template file: "];
    [PropsRepr (tdms_properties template)];
    [Text target_file] ].

(** *** What [tdms_to_images] reads *)

(** The file at [path] is a TDMS file whose channel [img/cam1] holds the
    data [raw] and declares, in its properties [Image size] and
    [Image size 2], the frame dimensions [H] and [W]. *)
Definition declares (w : world) (path : string) (raw : list pixel) (H W : Z) : Prop :=
  exists t ch v1 v2,
    files w !! path = Some (TdmsFile t) /\
    tdms_channels t !! ("img"%string, "cam1"%string) = Some ch /\
    ch_data ch = raw /\
    ch_properties ch !! "Image size"%string = Some v1 /\ py.int v1 = Ok H /\
    ch_properties ch !! "Image size 2"%string = Some v2 /\ py.int v2 = Ok W.

(** The line it prints once it has counted the frames. *)
Definition found_frames (n : Z) : list atom :=
  [Text ("I found " +:+ py.str n +:+ " frames.")].

(** Flattening a directory of frames into a TDMS file and unflattening the
    file again: the frames [tdms_to_images] hands back.  With
    [save = False] the destination and the extension play no part. *)
Definition round_trip (imagepath template_file : string)
    (efr et bfs z af : py.value) (ext target : string) : M (list ndarray) :=
  let* _ := convert_images_to_tdms imagepath template_file efr et bfs z af ext target in
  let* arr := tdms_to_images target "" false "" in
  lift (numpy.subarrays arr).

(** *** Numbered names *)

(** [s] is a decimal numeral of [i]: digits only, one at least, whose value
    is [i]; zeros may lead. *)
Definition numeral (i : Z) (s : string) : Prop :=
  py.all_digits s = true /\ s <> EmptyString /\ py.digits_value 0 s = i.

(** A text without digits, and a text that does not start with one. *)
Fixpoint no_digit (s : string) : bool :=
  match s with
  | EmptyString => true
  | String c r => (negb (py.is_digit c) && no_digit r)%bool
  end.

Definition text_first (s : string) : bool :=
  match s with
  | EmptyString => true
  | String c _ => negb (py.is_digit c)
  end.

(** The name of the file of frame [i] when the index is not padded. *)
Definition plain_file_tag (i : Z) (ext : string) : string :=
  "frame" +:+ py.str i +:+ ext.

(** One file per frame, named by a function of the index. *)
Definition numbered_files (name : Z -> string) (frames : list ndarray) (i : Z)
  : list (string * file) :=
  map (fun ij => (name (fst ij), ImageFile [snd ij])) (enumerate i frames).

(** The key of a name after its number, when text follows the number. *)
Definition tail_key (ext : string) : list (string + Z) :=
  match ext with
  | EmptyString => [inl EmptyString]
  | String c r => natural.split_key (String c EmptyString) None r
  end.

(** [a] and [b] are the names of two indices, the first at most the
    second. *)
Definition in_index_order (name : Z -> string) (a b : string) : Prop :=
  exists i j, 0 <= i <= j /\ a = name i /\ b = name j.

(** The frames a flat list folds into: [N] frames of [H] rows and [W]
    columns, cut off the list one after the other. *)
Definition folded (raw : list pixel) (N H W : Z) : list ndarray :=
  map (fun d => {| shape := [H; W]; data := d |})
      (numpy.chunks (Z.to_nat N) (Z.to_nat (numpy.prod [H; W])) raw).

(** Unflattening a TDMS file into a directory of frames and flattening
    the directory again. *)
Definition export_and_convert (tdms_filename destination ext template_file : string)
    (efr et bfs z af : py.value) (ext' target : string)
  : M (nptdms.ChannelObject * ndarray * ndarray) :=
  let* _ := tdms_to_images tdms_filename destination true ext in
  convert_images_to_tdms destination template_file efr et bfs z af ext' target.


(** *** What a call leaves alone *)

(** Relations between the world a call runs in and the world it leaves. *)
Definition unchanged (w w' : world) : Prop := w' = w.
Definition same_files (w w' : world) : Prop := files w' = files w.
Definition same_dirs (w w' : world) : Prop := dirs w' = dirs w.
Definition same_stdin (w w' : world) : Prop := stdin w' = stdin w.

(** Every file but the one at [p], and every directory but [d], is as it
    was. *)
Definition same_files_but (p : string) (w w' : world) : Prop :=
  forall p', p' <> p -> files w' !! p' = files w !! p'.
Definition same_dirs_but (d : string) (w w' : world) : Prop :=
  forall d', d' <> d -> dirs w' !! d' = dirs w !! d'.

(** The call relates the world it runs in to the world it leaves, whether
    it returns or raises. *)
Definition preserves {A : Type} (R : world -> world -> Prop) (c : M A) : Prop :=
  forall w, R w (snd (c w)).

(** When the call raises, it has left the world so related. *)
Definition fails_within {A : Type} (R : world -> world -> Prop) (c : M A) : Prop :=
  forall w e w', c w = (Raise e, w') -> R w w'.

(** ** Worlds used as concrete inputs *)

(** An integer-valued frame of [h] rows and [w] columns. *)
Definition gray (h w : Z) (values : list Z) : ndarray :=
  {| shape := [h; w]; data := map PInt values |}.

Definition frame_a : ndarray := gray 2 3 [1; 2; 3; 4; 5; 6].
Definition frame_b : ndarray := gray 2 3 [7; 8; 9; 10; 11; 12].
Definition frame_c : ndarray := gray 3 2 [1; 2; 3; 4; 5; 6].

Definition template_tdms : tdms :=
  {| tdms_properties := {[ "name"%string := py.VStr "take1" ]};
     tdms_groups := ["img"%string];
     tdms_channels := ∅ |}.

(** A template file and a directory [movie] with the given listing. *)
Definition world_of (listing : list (string * file)) : world :=
  {| files := {[ "template.tdms"%string := TdmsFile template_tdms ]};
     dirs := {[ "movie"%string := listing ]};
     stdout := [];
     stdin := [] |}.

(** Two frames of one shape, enumerated out of order, and a text file. *)
Definition movie_world : world :=
  world_of [("b.tif"%string, ImageFile [frame_b]);
            ("a.tif"%string, ImageFile [frame_a]);
            ("notes.txt"%string, OtherFile)].

(** One frame of one pixel whose value, 2^24 + 1, float32 does not hold,
    and the frame that comes back for it. *)
Definition big_frame : ndarray := gray 1 1 [16777217].
Definition big_frame_back : ndarray :=
  {| shape := [1; 1]; data := [PF32 (float32.of_int 16777216)] |}.
Definition big_world : world := world_of [("a.tif"%string, ImageFile [big_frame])].

(** Two frames of different shapes. *)
Definition ragged_world : world :=
  world_of [("a.tif"%string, ImageFile [frame_a]);
            ("c.tif"%string, ImageFile [frame_c])].

(** No image file at all. *)
Definition empty_world : world := world_of [("notes.txt"%string, OtherFile)].

(** A TDMS file that declares frames of 2 by 3 pixels and holds seven
    values. *)
Definition short_tdms : tdms :=
  {| tdms_properties := ∅;
     tdms_groups := ["img"%string];
     tdms_channels :=
       {[ ("img"%string, "cam1"%string) :=
            {| ch_data := map PInt [1; 2; 3; 4; 5; 6; 7];
               ch_properties :=
                 <["Image size"%string := py.VFloat (py.float 2)]>
                 (<["Image size 2"%string := py.VFloat (py.float 3)]> ∅) |} ]} |}.

Definition short_world : world :=
  {| files := {[ "short.tdms"%string := TdmsFile short_tdms ]};
     dirs := ∅; stdout := []; stdin := [] |}.

(** A TDMS file of two frames of 2 by 3 pixels. *)
Definition full_tdms : tdms :=
  {| tdms_properties := ∅;
     tdms_groups := ["img"%string];
     tdms_channels :=
       {[ ("img"%string, "cam1"%string) :=
            {| ch_data := map PInt [1; 2; 3; 4; 5; 6; 7; 8; 9; 10; 11; 12];
               ch_properties :=
                 <["Image size"%string := py.VFloat (py.float 2)]>
                 (<["Image size 2"%string := py.VFloat (py.float 3)]> ∅) |} ]} |}.

(** The file alone: the destination directory does not exist. *)
Definition export_world : world :=
  {| files := {[ "full.tdms"%string := TdmsFile full_tdms ]};
     dirs := ∅; stdout := []; stdin := [] |}.

(** The destination directory holds a file, and a line waits at the
    console. *)
Definition occupied_world (line : string) : world :=
  {| files := {[ "full.tdms"%string := TdmsFile full_tdms ]};
     dirs := {[ "frames"%string := [("old.txt"%string, OtherFile)] ]};
     stdout := []; stdin := [line] |}.

(** A stack file of 100001 pages of one pixel. *)
Definition one_pixel : ndarray := gray 1 1 [0].
Definition long_stack : list ndarray := repeat one_pixel (Z.to_nat 100001).
Definition stack_world : world :=
  {| files := {[ "stack.tif"%string := ImageFile long_stack ]};
     dirs := ∅; stdout := []; stdin := [] |}.

(** Three solid frames, as TIFF files and as PNG files. *)
Definition solid (v : Z) : ndarray := gray 2 2 [v; v; v; v].
Definition solid_world : world :=
  {| files := ∅;
     dirs := {[ "tifs"%string :=
                  [("frame2.tif"%string, ImageFile [solid 255]);
                   ("frame0.tif"%string, ImageFile [solid 0]);
                   ("frame1.tif"%string, ImageFile [solid 128])];
                "pngs"%string :=
                  [("frame2.png"%string, ImageFile [solid 255]);
                   ("frame0.png"%string, ImageFile [solid 0]);
                   ("frame1.png"%string, ImageFile [solid 128])] ]};
     stdout := []; stdin := [] |}.

(** The calls of the examples, with the default metadata of the module. *)
Definition convert_example (target : string) : M (nptdms.ChannelObject * ndarray * ndarray) :=
  convert_images_to_tdms "movie" "template.tdms"
    (py.VFloat (201 # 2)) (py.VFloat (201 # 2)) (py.VInt 4) (py.VFloat (3 # 2))
    (py.VInt 300) ".tif" target.

Definition round_trip_example : M (list ndarray) :=
  round_trip "movie" "template.tdms"
    (py.VFloat (201 # 2)) (py.VFloat (201 # 2)) (py.VInt 4) (py.VFloat (3 # 2))
    (py.VInt 300) ".tif" "event00.tdms".

(** A file of two groups, and what its parts are taken to be in the
    examples: a group is its name, and the channels of a group are the
    names of its channels. *)
Definition two_groups_tdms : tdms :=
  {| tdms_properties := {[ "name"%string := py.VStr "take1" ]};
     tdms_groups := ["img"; "log"]%string;
     tdms_channels := ∅ |}.

Definition named_channels (t : tdms) (g : string) : result (list string) :=
  if String.eqb g "img" then Ok ["cam1"%string]
  else if String.eqb g "log" then Ok ["t"; "z"]%string
  else Raise KeyError.

Definition groups_world : world :=
  {| files := {[ "take1.tdms"%string := TdmsFile two_groups_tdms ]};
     dirs := ∅; stdout := []; stdin := [] |}.

(** A colour frame: [h] rows, [w] columns, three samples a pixel. *)
Definition rgb (h w : Z) (values : list Z) : ndarray :=
  {| shape := [h; w; 3]; data := map PInt values |}.

Definition colour_world : world :=
  world_of [("a.tif"%string, ImageFile [rgb 1 2 [1; 2; 3; 4; 5; 6]])].

(** A directory where a text file carries the extension in its name. *)
Definition stray_world : world :=
  world_of [("a.tif"%string, ImageFile [frame_a]);
            ("a.tif.txt"%string, OtherFile)].

(** A directory that holds one stack file of two pages. *)
Definition stack_directory_world : world :=
  world_of [("stack.tif"%string, ImageFile [frame_a; frame_b])].

(** A TDMS file whose channel lacks the second dimension. *)
Definition unsized_tdms : tdms :=
  {| tdms_properties := ∅;
     tdms_groups := ["img"%string];
     tdms_channels :=
       {[ ("img"%string, "cam1"%string) :=
            {| ch_data := map PInt [1; 2; 3; 4; 5; 6];
               ch_properties := {[ "Image size"%string := py.VFloat (py.float 2) ]} |} ]} |}.

Definition unsized_world : world :=
  {| files := {[ "unsized.tdms"%string := TdmsFile unsized_tdms ]};
     dirs := ∅; stdout := []; stdin := [] |}.

(** A TDMS file that declares frames of 2 by 3 pixels and holds none. *)
Definition empty_tdms : tdms :=
  {| tdms_properties := ∅;
     tdms_groups := ["img"%string];
     tdms_channels :=
       {[ ("img"%string, "cam1"%string) :=
            {| ch_data := [];
               ch_properties :=
                 <["Image size"%string := py.VFloat (py.float 2)]>
                 (<["Image size 2"%string := py.VFloat (py.float 3)]> ∅) |} ]} |}.

Definition empty_movie_world : world :=
  {| files := {[ "empty.tdms"%string := TdmsFile empty_tdms;
                 "template.tdms"%string := TdmsFile template_tdms ]};
     dirs := ∅; stdout := []; stdin := [] |}.

(** The destination holds the three frames of an earlier export, and [y]
    waits at the console. *)
Definition stale_world : world :=
  {| files := {[ "full.tdms"%string := TdmsFile full_tdms ]};
     dirs := {[ "frames"%string := frame_files ".tiff" [frame_c; frame_c; frame_c] 0 ]};
     stdout := []; stdin := ["y"%string] |}.

(** A TDMS file of two frames of 2 by 3 float32 values, with a template
    and no directory yet. *)
Definition float_values : list pixel :=
  map (fun v => PF32 (float32.of_int v)) [1; 2; 3; 4; 5; 6; 7; 8; 9; 10; 11; 12].

Definition float_tdms : tdms :=
  {| tdms_properties := ∅;
     tdms_groups := ["img"%string];
     tdms_channels :=
       {[ ("img"%string, "cam1"%string) :=
            {| ch_data := float_values;
               ch_properties :=
                 <["Image size"%string := py.VFloat (py.float 2)]>
                 (<["Image size 2"%string := py.VFloat (py.float 3)]> ∅) |} ]} |}.

Definition pipeline_world : world :=
  {| files := {[ "float.tdms"%string := TdmsFile float_tdms;
                 "template.tdms"%string := TdmsFile template_tdms ]};
     dirs := ∅; stdout := []; stdin := [] |}.

(** Two exported frames, and two frames under unpadded names, enumerated
    last first. *)
Definition reloaded_world : world :=
  world_of (rev (frame_files ".tiff" [frame_a; frame_b] 0)).

Definition unpadded_world : world :=
  world_of (rev (numbered_files (fun i => plain_file_tag i ".png") [frame_a; frame_b] 0)).

(** A stack file of two pages. *)
Definition pair_world : world :=
  {| files := {[ "pair.tif"%string := ImageFile [frame_a; frame_b] ]};
     dirs := ∅; stdout := []; stdin := [] |}.

Arguments k_file_tag : simpl never.

(** * The models at work *)

Section Examples.

Example k_file_tag_42 : k_file_tag 42 ".tiff" = "frame00042.tiff"%string.
Proof. reflexivity. Qed.

(** From 100000 on the index takes six characters. *)
Example k_file_tag_100000 : k_file_tag 100000 ".tiff" = "frame100000.tiff"%string.
Proof. reflexivity. Qed.

(** ... and the names no longer sort by index. *)
Example k_file_tag_100000_before_99999 :
  String.ltb (k_file_tag 100000 ".tiff") (k_file_tag 99999 ".tiff") = true.
Proof. reflexivity. Qed.

Example sorted_names :
  py.sorted ["frame00010.tiff"; "frame00002.tiff"; "frame00001.tiff"]%string
  = ["frame00001.tiff"; "frame00002.tiff"; "frame00010.tiff"]%string.
Proof. reflexivity. Qed.

(** The extension is searched as a pattern, anywhere in the name. *)
Example search_extension :
  re.search ".tif" "frame00010.tiff" = true /\
  re.search ".tif" "motif.txt" = true /\
  re.search ".tif" "frame00010.png" = false.
Proof. repeat split. Qed.

Example natural_order :
  natural.sorted ["f10"; "f2"; "f1"]%string = ["f1"; "f2"; "f10"]%string /\
  py.sorted ["f10"; "f2"; "f1"]%string = ["f1"; "f10"; "f2"]%string.
Proof. split; reflexivity. Qed.

Example reshape_infers :
  numpy.reshape (gray 2 3 [1; 2; 3; 4; 5; 6]) [-1; 2]
  = Ok {| shape := [3; 2]; data := map PInt [1; 2; 3; 4; 5; 6] |}.
Proof. reflexivity. Qed.

Example reshape_refuses :
  numpy.reshape (gray 2 3 [1; 2; 3; 4; 5; 6]) [4; 2] = Raise ValueError.
Proof. reflexivity. Qed.

(** 2^24 + 1 lies halfway between two floats and rounds to the even one. *)
Example float32_rounds :
  float32.of_int 16777217 = float32.of_int 16777216 /\
  float32.of_int 16777219 = float32.of_int 16777220.
Proof. split; reflexivity. Qed.

Example int_truncates :
  py.int (py.VFloat (7 # 2)) = Ok 3 /\ py.int (py.VFloat (-7 # 2)) = Ok (-3) /\
  py.int (py.VStr "-12") = Ok (-12) /\ py.int (py.VStr "12a") = Raise ValueError.
Proof. repeat split. Qed.

End Examples.

(** * Properties of the float32 cast *)

Section Float32.

Lemma digits2_pos_iter_xO (k m : positive) :
  digits2_pos (Pos.iter xO m k) = (digits2_pos m + k)%positive.
Proof.
  induction k as [|k IH] using Pos.peano_ind.
  - simpl. lia.
  - rewrite Pos.iter_succ. simpl. rewrite IH. lia.
Qed.

Lemma iter_xO_mul (k m : positive) :
  Pos.iter xO m k = (m * Pos.pow 2 k)%positive.
Proof.
  induction k as [|k IH] using Pos.peano_ind.
  - simpl. lia.
  - rewrite Pos.iter_succ, IH, Pos.pow_succ_r. lia.
Qed.

Lemma digits2_pos_lower (m : positive) :
  2 ^ (Zpos (digits2_pos m) - 1) <= Zpos m.
Proof.
  induction m as [m IH|m IH|]; simpl digits2_pos.
  - rewrite Pos2Z.inj_succ.
    replace (Z.succ (Zpos (digits2_pos m)) - 1) with (Z.succ (Zpos (digits2_pos m) - 1)) by lia.
    rewrite Z.pow_succ_r by lia. lia.
  - rewrite Pos2Z.inj_succ.
    replace (Z.succ (Zpos (digits2_pos m)) - 1) with (Z.succ (Zpos (digits2_pos m) - 1)) by lia.
    rewrite Z.pow_succ_r by lia. lia.
  - simpl. lia.
Qed.

Lemma digits2_pos_small (m : positive) :
  Zpos m < 2 ^ 24 -> Zpos (digits2_pos m) <= 24.
Proof.
  intros Hm.
  destruct (Z_le_gt_dec (Zpos (digits2_pos m)) 24) as [|Hgt]; [assumption|].
  pose proof (digits2_pos_lower m) as Hlow.
  assert (2 ^ 24 <= 2 ^ (Zpos (digits2_pos m) - 1)) by (apply Z.pow_le_mono_r; lia).
  lia.
Qed.

(** Rounding a mantissa of at most 24 bits only shifts it. *)
Lemma binary_round_small (s : bool) (m : positive) :
  Zpos (digits2_pos m) <= 24 ->
  binary_round float32.prec float32.emax s m 0 =
    match 24 - Zpos (digits2_pos m) with
    | Zpos k => S754_finite s (Pos.iter xO m k) (Zneg k)
    | _ => S754_finite s m 0
    end.
Proof.
  intros Hd.
  unfold binary_round, float32.prec, float32.emax.
  set (d := Zpos (digits2_pos m)) in *.
  assert (Hf : fexp 24 128 (d + 0) = d - 24) by (unfold fexp, emin; lia).
  rewrite Hf. unfold shl_align.
  destruct (24 - d) as [|k|k] eqn:Hk; try lia.
  - assert (d - 24 - 0 = 0) as -> by lia.
    unfold binary_round_aux, shr_fexp. cbn [Zdigits2]. fold d.
    assert (fexp 24 128 (d + 0) - 0 = 0) as -> by (unfold fexp, emin; lia).
    cbn. fold d.
    assert (fexp 24 128 (d + 0) - 0 = 0) as -> by (unfold fexp, emin; lia).
    reflexivity.
  - assert (d - 24 - 0 = Zneg k) as -> by lia.
    unfold binary_round_aux, shr_fexp. cbn [Zdigits2].
    rewrite digits2_pos_iter_xO.
    assert (fexp 24 128 (Zpos (digits2_pos m + k) + (d - 24)) - (d - 24) = 0) as ->
      by (unfold fexp, emin; fold d; lia).
    cbn [shr shr_record_of_loc shr_m loc_of_shr_record round_nearest_even Zdigits2].
    rewrite digits2_pos_iter_xO.
    assert (fexp 24 128 (Zpos (digits2_pos m + k) + (d - 24)) - (d - 24) = 0) as ->
      by (unfold fexp, emin; fold d; lia).
    cbn [shr shr_m].
    assert ((d - 24 <=? 128 - 24) = true) as -> by lia.
    f_equal. lia.
Qed.

Lemma float32_exact_pos (s : bool) (m : positive) :
  Zpos m < 2 ^ 24 ->
  float32.to_Q (binary_round float32.prec float32.emax s m 0)
  = Some (match 24 - Zpos (digits2_pos m) with
          | Zpos k => Qmake (cond_Zopp s (Zpos (m * Pos.pow 2 k))) (Pos.pow 2 k)
          | _ => inject_Z (cond_Zopp s (Zpos m))
          end).
Proof.
  intros Hm. rewrite binary_round_small by (apply digits2_pos_small; assumption).
  destruct (24 - Zpos (digits2_pos m)) as [|k|k]; cbn [float32.to_Q]; try reflexivity.
  rewrite iter_xO_mul. reflexivity.
Qed.

(** Every integer of magnitude below 2^24 is a float32. *)
Lemma float32_exact_below (z : Z) :
  Z.abs z < 2 ^ 24 -> float32_exact z = true.
Proof.
  intros Hz. unfold float32_exact, cast_float32, pixel_eqb, float32.of_int.
  destruct z as [|m|m]; [reflexivity| |].
  - cbn [binary_normalize]. rewrite float32_exact_pos by (simpl in Hz; lia).
    destruct (24 - Zpos (digits2_pos m)) as [|k|k]; unfold Qeq_bool;
      cbn [Qnum Qden inject_Z cond_Zopp]; apply Z.eqb_eq; lia.
  - cbn [binary_normalize]. rewrite float32_exact_pos by (simpl in Hz; lia).
    destruct (24 - Zpos (digits2_pos m)) as [|k|k]; unfold Qeq_bool;
      cbn [Qnum Qden inject_Z cond_Zopp]; apply Z.eqb_eq; lia.
Qed.

Lemma float32_exact_upto (z : Z) :
  Z.abs z <= 2 ^ 24 -> float32_exact z = true.
Proof.
  intros Hz.
  destruct (Z.eq_dec (Z.abs z) (2 ^ 24)) as [He|Hne].
  - assert (z = 16777216 \/ z = -16777216) as [-> | ->] by lia; vm_compute; reflexivity.
  - apply float32_exact_below. lia.
Qed.

End Float32.

(** * The order of strings *)

Section StringOrder.

Lemma compare_as_OT (a b : string) : String.compare a b = String_as_OT.compare a b.
Proof.
  revert b. induction a as [|c a IH]; intros [|d b]; simpl; reflexivity.
Qed.

Lemma slt_compare (a b : string) : slt a b <-> String.compare a b = Lt.
Proof. unfold slt, String.ltb. destruct (String.compare a b); split; congruence. Qed.

Lemma slt_trans (a b c : string) : slt a b -> slt b c -> slt a c.
Proof.
  rewrite !slt_compare, !compare_as_OT. intros Hab Hbc.
  exact (StrictOrder_Transitive (R := String_as_OT.lt) a b c Hab Hbc).
Qed.

Lemma slt_irrefl (a : string) : ~ slt a a.
Proof.
  rewrite slt_compare, compare_as_OT. intros H.
  exact (StrictOrder_Irreflexive (R := String_as_OT.lt) a H).
Qed.

Lemma sle_cases (a b : string) : sle a b <-> a = b \/ slt a b.
Proof.
  unfold sle, slt, String.leb, String.ltb.
  destruct (String.compare a b) eqn:E.
  - apply String.compare_eq_iff in E. subst. split; auto.
  - split; auto.
  - split; [discriminate|]. intros [->|H]; [|discriminate].
    pose proof (String.compare_antisym b b) as H. rewrite E in H. discriminate.
Qed.

Lemma sle_refl (a : string) : sle a a.
Proof. apply sle_cases. now left. Qed.

Lemma sle_trans (a b c : string) : sle a b -> sle b c -> sle a c.
Proof.
  rewrite !sle_cases. intros [->|Hab] [->|Hbc]; auto.
  right. eapply slt_trans; eassumption.
Qed.

Lemma slt_sle (a b : string) : slt a b -> sle a b.
Proof. intros H. apply sle_cases. now right. Qed.

Lemma not_sle_sle (a b : string) : String.leb a b = false -> sle b a.
Proof.
  intros H. destruct (String.leb_total a b) as [E|E]; [congruence|exact E].
Qed.

End StringOrder.

(** * Sorting *)

Section Sorting.

Lemma insert_sorted_perm (x : string) (l : list string) :
  Permutation (py.insert_sorted x l) (x :: l).
Proof.
  induction l as [|y l IH]; simpl; [reflexivity|].
  destruct (String.leb x y); [reflexivity|].
  rewrite IH. apply perm_swap.
Qed.

Lemma sorted_perm (l : list string) : Permutation (py.sorted l) l.
Proof.
  induction l as [|x l IH]; simpl; [reflexivity|].
  rewrite insert_sorted_perm. now constructor.
Qed.

Lemma insert_sorted_sorted (x : string) (l : list string) :
  StronglySorted sle l -> StronglySorted sle (py.insert_sorted x l).
Proof.
  induction 1 as [|y l Hl IH Hy]; simpl.
  - repeat constructor.
  - destruct (String.leb x y) eqn:E.
    + constructor; [now constructor|].
      constructor; [exact E|].
      eapply List.Forall_impl; [|exact Hy]. intros z Hz. eapply sle_trans; eassumption.
    + constructor; [exact IH|].
      eapply Permutation_Forall; [symmetry; apply insert_sorted_perm|].
      constructor; [now apply not_sle_sle|exact Hy].
Qed.

Lemma sorted_sorted (l : list string) : StronglySorted sle (py.sorted l).
Proof.
  induction l as [|x l IH]; simpl; [constructor|].
  now apply insert_sorted_sorted.
Qed.

Lemma sorted_unique (l1 l2 : list string) :
  StronglySorted sle l1 -> StronglySorted sle l2 -> Permutation l1 l2 -> l1 = l2.
Proof.
  intros H1. revert l2. induction H1 as [|a l1 Hl1 IH Ha]; intros l2 H2 HP.
  - apply Permutation_nil in HP. now subst.
  - destruct H2 as [|b l2 Hl2 Hb].
    + symmetry in HP. apply Permutation_nil in HP. discriminate.
    + assert (a = b) as ->.
      { assert (Hin1 : In a (b :: l2)) by (eapply Permutation_in; [exact HP|now left]).
        assert (Hin2 : In b (a :: l1)) by (eapply Permutation_in; [symmetry; exact HP|now left]).
        destruct Hin1 as [->|Hin1]; [reflexivity|].
        destruct Hin2 as [->|Hin2]; [reflexivity|].
        rewrite List.Forall_forall in Ha, Hb.
        apply String.leb_antisym; [apply Ha, Hin2|apply Hb, Hin1]. }
      f_equal. apply IH; [exact Hl2|]. eapply Permutation_cons_inv; exact HP.
Qed.

(** Sorting any arrangement of an ascending list gives the list back. *)
Lemma sorted_of_perm (l asc : list string) :
  StronglySorted sle asc -> Permutation l asc -> py.sorted l = asc.
Proof.
  intros Hs HP. apply sorted_unique; [apply sorted_sorted|exact Hs|].
  rewrite sorted_perm. exact HP.
Qed.

End Sorting.

(** * File names of exported frames *)

Section FrameNames.

Lemma all_from_spec (P : Z -> bool) (n : nat) (i k : Z) :
  all_from n i P = true -> i <= k < i + Z.of_nat n -> P k = true.
Proof.
  revert i. induction n as [|n IH]; intros i H Hk; [lia|].
  simpl in H. apply andb_prop in H as [Hi Hrest].
  destruct (Z.eq_dec k i) as [->|Hne]; [exact Hi|].
  apply (IH (i + 1)); [exact Hrest|lia].
Qed.

(** Checked on every index: the padded numeral of [i] has five
    characters and comes before that of [i + 1]. *)
Lemma padded_table : all_from (Z.to_nat 99999) 0 step_ok = true.
Proof. vm_compute. reflexivity. Qed.

Lemma padded_step (i : Z) :
  0 <= i < 99999 ->
  slt (padded i) (padded (i + 1)) /\ String.length (padded i) = 5%nat.
Proof.
  intros Hi.
  pose proof (all_from_spec step_ok (Z.to_nat 99999) 0 i padded_table) as H.
  rewrite Z2Nat.id in H by lia. specialize (H ltac:(lia)).
  unfold step_ok in H. apply andb_prop in H as [H1 H2].
  split; [exact H1|now apply Nat.eqb_eq].
Qed.

Lemma padded_length (i : Z) : 0 <= i < 100000 -> String.length (padded i) = 5%nat.
Proof.
  intros Hi. destruct (Z.eq_dec i 99999) as [->|Hne]; [reflexivity|].
  apply padded_step. lia.
Qed.

Lemma padded_lt (i j : Z) : 0 <= i -> i < j -> j < 100000 -> slt (padded i) (padded j).
Proof.
  intros Hi Hij Hj.
  assert (Hgen : forall n : nat, i + 1 + Z.of_nat n < 100000 ->
                                 slt (padded i) (padded (i + 1 + Z.of_nat n))).
  { induction n as [|n IH]; intros Hn.
    - replace (i + 1 + Z.of_nat 0) with (i + 1) by lia. apply padded_step. lia.
    - eapply slt_trans; [apply IH; lia|].
      replace (i + 1 + Z.of_nat (S n)) with (i + 1 + Z.of_nat n + 1) by lia.
      apply padded_step. lia. }
  specialize (Hgen (Z.to_nat (j - i - 1))).
  replace (i + 1 + Z.of_nat (Z.to_nat (j - i - 1))) with j in Hgen by lia.
  apply Hgen. exact Hj.
Qed.

Lemma compare_app_lt (s t e e' : string) :
  String.length s = String.length t ->
  String.compare s t = Lt -> String.compare (s +:+ e) (t +:+ e') = Lt.
Proof.
  revert t. induction s as [|c s IH]; intros [|d t] Hlen Hlt; simpl in *; try discriminate.
  destruct (Ascii.compare c d); try discriminate; [|reflexivity].
  apply IH; [congruence|exact Hlt].
Qed.

Lemma k_file_tag_lt (ext : string) (i j : Z) :
  0 <= i -> i < j -> j < 100000 -> slt (k_file_tag i ext) (k_file_tag j ext).
Proof.
  intros Hi Hij Hj. apply slt_compare. unfold k_file_tag.
  change (String.compare (padded i +:+ ext) (padded j +:+ ext) = Lt).
  apply compare_app_lt.
  - rewrite !padded_length by lia. reflexivity.
  - apply slt_compare. now apply padded_lt.
Qed.

Lemma k_file_tag_inj (ext : string) (i j : Z) :
  0 <= i < 100000 -> 0 <= j < 100000 -> k_file_tag i ext = k_file_tag j ext -> i = j.
Proof.
  intros Hi Hj E.
  destruct (Z.lt_trichotomy i j) as [H|[H|H]]; [|exact H|].
  - exfalso. apply (slt_irrefl (k_file_tag j ext)).
    rewrite <- E at 1. apply k_file_tag_lt; lia.
  - exfalso. apply (slt_irrefl (k_file_tag j ext)).
    rewrite <- E at 2. apply k_file_tag_lt; lia.
Qed.

Lemma enumerate_length {A : Type} (l : list A) (i : Z) :
  length (enumerate i l) = length l.
Proof. revert i. induction l as [|x l IH]; intros i; simpl; [|rewrite IH]; reflexivity. Qed.

Lemma enumerate_In {A : Type} (l : list A) (i k : Z) (x : A) :
  In (k, x) (enumerate i l) -> i <= k < i + len l.
Proof.
  revert i. induction l as [|y l IH]; intros i; simpl; [tauto|].
  unfold len in *. simpl length. intros [E|H].
  - inversion E. lia.
  - apply IH in H. lia.
Qed.

(** The names of at most 100000 frames ascend with the index. *)
Lemma frame_files_sorted (ext : string) (frames : list ndarray) (i : Z) :
  0 <= i -> i + len frames <= 100000 ->
  StronglySorted slt (map fst (frame_files ext frames i)).
Proof.
  revert i. induction frames as [|f frames IH]; intros i Hi Hn; simpl; [constructor|].
  unfold len in *. simpl length in Hn.
  constructor; [apply IH; lia|].
  apply List.Forall_forall. intros n Hin.
  apply in_map_iff in Hin as [[n' g] [<- Hin]].
  apply in_map_iff in Hin as [[k x] [E Hin]]. inversion E; subst. simpl.
  apply enumerate_In in Hin. unfold len in Hin. apply k_file_tag_lt; lia.
Qed.

End FrameNames.

(** * Directory listings *)

Section Listings.

Lemma entry_app (n : string) (l1 l2 : list (string * file)) :
  entry n (l1 ++ l2) = match entry n l1 with Some f => Some f | None => entry n l2 end.
Proof.
  induction l1 as [|[m g] l1 IH]; simpl; [reflexivity|].
  destruct (String.eqb m n); [reflexivity|exact IH].
Qed.

Lemma write_entry_fresh (n : string) (f : file) (l : list (string * file)) :
  entry n l = None -> write_entry n f l = l ++ [(n, f)].
Proof.
  induction l as [|[m g] l IH]; simpl; [reflexivity|].
  destruct (String.eqb m n); [discriminate|]. intros H. now rewrite IH.
Qed.

Lemma entry_In (n : string) (f : file) (l : list (string * file)) :
  List.NoDup (map fst l) -> In (n, f) l -> entry n l = Some f.
Proof.
  induction l as [|[m g] l IH]; simpl; [tauto|].
  intros Hnd [E|Hin].
  - inversion E; subst. now rewrite String.eqb_refl.
  - inversion Hnd as [|? ? Hm Hl]; subst.
    destruct (String.eqb m n) eqn:Emn.
    + apply String.eqb_eq in Emn. subst. exfalso. apply Hm.
      apply in_map_iff. now exists (n, f).
    + now apply IH.
Qed.

Lemma slt_sorted_NoDup (l : list string) : StronglySorted slt l -> List.NoDup l.
Proof.
  induction 1 as [|a l Hl IH Ha]; constructor; [|exact IH].
  intros Hin. rewrite List.Forall_forall in Ha. exact (slt_irrefl a (Ha a Hin)).
Qed.

Lemma slt_sorted_sle (l : list string) : StronglySorted slt l -> StronglySorted sle l.
Proof.
  induction 1 as [|a l Hl IH Ha]; constructor; [exact IH|].
  eapply List.Forall_impl; [|exact Ha]. intros b. apply slt_sle.
Qed.

Lemma exported_cons (ext : string) (f : ndarray) (frames : list ndarray) (i : Z)
    (content : list (string * file)) :
  exported ext (f :: frames) i content
  = exported ext frames (i + 1) (write_entry (k_file_tag i ext) (ImageFile [f]) content).
Proof. reflexivity. Qed.

(** Into a directory that holds none of the names, the frames are added
    one file each, in order. *)
Lemma exported_fresh (ext : string) (frames : list ndarray) (i : Z)
    (content : list (string * file)) :
  0 <= i -> i + len frames <= 100000 ->
  (forall k, i <= k < i + len frames -> entry (k_file_tag k ext) content = None) ->
  exported ext frames i content = content ++ frame_files ext frames i.
Proof.
  revert i content. induction frames as [|f frames IH]; intros i content Hi Hn Hfresh.
  - unfold exported, frame_files. simpl. now rewrite app_nil_r.
  - unfold len in *. simpl length in *. rewrite exported_cons.
    rewrite write_entry_fresh by (apply Hfresh; lia).
    rewrite IH; [|lia|unfold len; lia|].
    + unfold frame_files. simpl. now rewrite <- app_assoc.
    + intros k Hk. rewrite entry_app, Hfresh by (unfold len in Hk; lia).
      cbn [entry]. destruct (String.eqb (k_file_tag i ext) (k_file_tag k ext)) eqn:E; [|reflexivity].
      apply String.eqb_eq, k_file_tag_inj in E; unfold len in Hk; lia.
Qed.

Lemma frame_files_entry (ext : string) (frames : list ndarray) (i : Z)
    (l : list (string * file)) :
  0 <= i -> i + len frames <= 100000 ->
  Permutation (frame_files ext frames i) l ->
  Forall2 (fun n f => exists rest, entry n l = Some (ImageFile (f :: rest)))
          (map fst (frame_files ext frames i)) frames.
Proof.
  intros Hi Hn HP.
  assert (Hnd : List.NoDup (map fst l)).
  { eapply Permutation_NoDup; [apply Permutation_map; exact HP|].
    apply slt_sorted_NoDup, frame_files_sorted; assumption. }
  assert (Hall : forall n f, In (n, ImageFile [f]) (frame_files ext frames i) ->
                             entry n l = Some (ImageFile [f])).
  { intros n f Hin. apply entry_In; [exact Hnd|].
    eapply Permutation_in; [exact HP|exact Hin]. }
  clear HP Hnd Hi Hn. revert i Hall.
  induction frames as [|f frames IH]; intros i Hall; simpl; constructor.
  - exists []. apply Hall. now left.
  - apply IH. intros n g Hin. apply Hall. now right.
Qed.

End Listings.

(** * Running the computations *)

Section Running.

Lemma bind_Ok {A B : Type} (c : M A) (k : A -> M B) (w w' : world) (a : A) :
  c w = (Ok a, w') -> bind c k w = k a w'.
Proof. intros H. unfold bind. now rewrite H. Qed.

Lemma bind_Raise {A B : Type} (c : M A) (k : A -> M B) (w w' : world) (e : exn) :
  c w = (Raise e, w') -> bind c k w = (Raise e, w').
Proof. intros H. unfold bind. now rewrite H. Qed.

Lemma bind_lift {A B : Type} (a : A) (k : A -> M B) (w : world) :
  bind (lift (Ok a)) k w = k a w.
Proof. reflexivity. Qed.

Lemma with_dirs_same (w : world) : with_dirs w (dirs w) = w.
Proof. now destruct w. Qed.

Lemma imread_entry (d n : string) (l : list (string * file)) (f : ndarray)
    (rest : list ndarray) (w : world) :
  dirs w !! d = Some l -> entry n l = Some (ImageFile (f :: rest)) ->
  imageio.imread d n w = (Ok f, w).
Proof.
  intros Hd He. unfold imageio.imread, bind, open_entry. now rewrite Hd, He.
Qed.

Lemma for_each_imread (d : string) (l : list (string * file)) (names : list string)
    (frames : list ndarray) (w : world) :
  dirs w !! d = Some l ->
  Forall2 (fun n f => exists rest, entry n l = Some (ImageFile (f :: rest))) names frames ->
  for_each (imageio.imread d) names w = (Ok frames, w).
Proof.
  intros Hd. induction 1 as [|n f names frames [rest He] _ IH]; [reflexivity|].
  simpl. erewrite bind_Ok by (eapply imread_entry; eassumption).
  now erewrite bind_Ok by exact IH.
Qed.

(** The loader: the files that match, sorted by name, read in that
    order. *)
Lemma read_image_files_ok (d ext : string) (l : list (string * file))
    (frames : list ndarray) (w : world) :
  dirs w !! d = Some l ->
  Forall2 (fun n f => exists rest, entry n l = Some (ImageFile (f :: rest)))
          (py.sorted (List.filter (re.search ext) (map fst l))) frames ->
  read_image_files d ext w
  = (Ok (py.sorted (List.filter (re.search ext) (map fst l)), frames),
     with_stdout w (stdout w ++
       [[Text ("There are " +:+ py.str (len frames) +:+ " frames.")]])).
Proof.
  intros Hd HF. unfold read_image_files.
  erewrite bind_Ok by (unfold os.listdir; rewrite Hd; reflexivity).
  erewrite bind_Ok by reflexivity.
  erewrite bind_Ok by (eapply for_each_imread; [exact Hd|exact HF]).
  unfold ret, len. now rewrite (List.Forall2_length HF).
Qed.

Lemma for_enumerate_save (d ext : string) (frames : list ndarray) (i : Z)
    (content : list (string * file)) (w : world) :
  dirs w !! d = Some content ->
  for_enumerate (fun i j => PIL.save j d (k_file_tag i ext)) i frames w
  = (Ok tt, with_dirs w (<[d := exported ext frames i content]> (dirs w))).
Proof.
  revert i content w. induction frames as [|f frames IH]; intros i content w Hd.
  - simpl. unfold ret, exported. simpl. rewrite insert_id by exact Hd.
    now rewrite with_dirs_same.
  - simpl. erewrite bind_Ok by (unfold PIL.save; rewrite Hd; reflexivity).
    erewrite IH by (simpl; apply lookup_insert_eq).
    rewrite exported_cons. unfold with_dirs. simpl. now rewrite insert_insert_eq.
Qed.

End Running.

(** Runs the steps of a computation that evaluate on their own. *)
Ltac run := repeat (erewrite bind_Ok by reflexivity).

(** * Arrays *)

Section Arrays.

Lemma forallb_same_shape (a : ndarray) (l : list ndarray) :
  forallb (numpy.same_shape a) l = true <-> Forall (fun b => shape b = shape a) l.
Proof.
  rewrite forallb_forall, List.Forall_forall. unfold numpy.same_shape.
  split; intros H b Hb; specialize (H b Hb).
  - apply bool_decide_eq_true in H. congruence.
  - apply bool_decide_eq_true. congruence.
Qed.

Lemma stack_uniform (cast : pixel -> pixel) (frames : list ndarray) (s : list Z) :
  frames <> [] -> Forall (fun b => shape b = s) frames ->
  numpy.stack cast frames = Ok {| shape := len frames :: s; data := flat cast frames |}.
Proof.
  intros Hne Hs. destruct frames as [|a frames]; [congruence|].
  unfold numpy.stack.
  assert (Ha : shape a = s) by (inversion Hs; assumption).
  assert (forallb (numpy.same_shape a) (a :: frames) = true) as ->.
  { apply forallb_same_shape. eapply List.Forall_impl; [|exact Hs]. intros; congruence. }
  now rewrite Ha.
Qed.

(** Frames of different shapes cannot be stacked. *)
Lemma stack_ragged (cast : pixel -> pixel) (frames : list ndarray) (a b : ndarray) :
  In a frames -> In b frames -> shape a <> shape b ->
  numpy.stack cast frames = Raise ValueError.
Proof.
  intros Ha Hb Hne. destruct frames as [|c frames]; [destruct Ha|].
  unfold numpy.stack.
  destruct (forallb (numpy.same_shape c) (c :: frames)) eqn:E; [|reflexivity].
  apply forallb_same_shape in E. rewrite List.Forall_forall in E.
  exfalso. apply Hne. rewrite (E a Ha), (E b Hb). reflexivity.
Qed.

Lemma flat_length (cast : pixel -> pixel) (frames : list ndarray) (k : Z) :
  Forall (fun b => len (data b) = k) frames ->
  len (flat cast frames) = len frames * k.
Proof.
  unfold flat, len. induction 1 as [|b frames Hb _ IH]; simpl; [reflexivity|].
  rewrite length_app, length_map, Nat2Z.inj_add, IH, Hb. lia.
Qed.

Lemma chunks_flat (cast : pixel -> pixel) (frames : list ndarray) (k : nat) :
  Forall (fun b => length (data b) = k) frames ->
  numpy.chunks (length frames) k (flat cast frames)
  = map (fun b => map cast (data b)) frames.
Proof.
  unfold flat. induction 1 as [|b frames Hb _ IH]; simpl; [reflexivity|].
  rewrite firstn_app, skipn_app, length_map, Hb, Nat.sub_diag. simpl.
  rewrite firstn_all2 by (rewrite length_map; lia).
  rewrite skipn_all2 by (rewrite length_map; lia).
  rewrite app_nil_r. simpl. rewrite skipn_O. now rewrite IH.
Qed.

Lemma reshape_exact (a : ndarray) (dims : list Z) :
  Forall (fun d => 0 <= d) dims -> numpy.prod dims = len (data a) ->
  numpy.reshape a dims = Ok {| shape := dims; data := data a |}.
Proof.
  intros Hpos Hsize. unfold numpy.reshape, numpy.fix_unknown_dimension.
  assert (List.filter (fun d => 0 <=? d) dims = dims) as ->.
  { clear Hsize. induction Hpos as [|d dims Hd _ IH]; simpl; [reflexivity|].
    apply Z.leb_le in Hd. now rewrite Hd, IH. }
  rewrite Nat.sub_diag. apply Z.eqb_eq in Hsize. now rewrite Hsize.
Qed.

Lemma int_of_float_div (a b : Z) :
  b <> 0 -> py.int_of_float (Qdiv (inject_Z a) (inject_Z b)) = Z.quot a b.
Proof.
  intros Hb. unfold py.int_of_float, Qdiv, Qinv, inject_Z, Qmult. simpl Qnum.
  destruct b as [|p|p]; [congruence| |]; simpl.
  - now rewrite Z.mul_1_r.
  - rewrite <- (Z.quot_opp_opp a (Zneg p)) by lia.
    f_equal; lia.
Qed.

Lemma chunks_length (n k : nat) (l : list pixel) : length (numpy.chunks n k l) = n.
Proof. revert l. induction n as [|n IH]; intros l; simpl; [|rewrite IH]; reflexivity. Qed.

Lemma flat_id (frames : list ndarray) :
  flat (fun p => p) frames = concat (map data frames).
Proof.
  unfold flat. f_equal. apply map_ext. intros b. apply map_id.
Qed.

Lemma frame_of_spec (H W : Z) (frames : list ndarray) :
  forallb (frame_of H W) frames = true ->
  Forall (fun b => shape b = [H; W] /\ len (data b) = H * W) frames.
Proof.
  rewrite forallb_forall, List.Forall_forall. intros Hall b Hb.
  specialize (Hall b Hb). unfold frame_of in Hall.
  apply andb_prop in Hall as [H1 H2].
  apply bool_decide_eq_true in H1. apply Z.eqb_eq in H2. auto.
Qed.

Lemma uniform_pages_spec (s : list Z) (pages : list ndarray) :
  uniform_pages s pages = true ->
  Forall (fun p => shape p = s /\ len (data p) = numpy.prod s) pages.
Proof.
  unfold uniform_pages. rewrite forallb_forall, List.Forall_forall.
  intros Hall p Hp. specialize (Hall p Hp).
  apply andb_prop in Hall as [H1 H2].
  apply bool_decide_eq_true in H1. apply Z.eqb_eq in H2. auto.
Qed.

Lemma array_equal_astype (b : ndarray) :
  float32_frame b = true -> numpy.array_equal (numpy.astype_float32 b) b = true.
Proof.
  unfold float32_frame, numpy.array_equal, numpy.astype_float32. cbn [shape data].
  intros Hb. rewrite length_map.
  rewrite !bool_decide_eq_true_2 by reflexivity. cbn [andb].
  induction (data b) as [|p l IH]; [reflexivity|].
  simpl in Hb |- *. apply andb_prop in Hb as [Hp Hl]. now rewrite Hp, IH.
Qed.

Lemma flat_cast_float32 (frames : list ndarray) :
  Forall (fun p => exists f, p = PF32 f) (flat cast_float32 frames).
Proof.
  unfold flat. apply List.Forall_forall. intros p Hp.
  apply in_concat in Hp as [d [Hd Hp]].
  apply in_map_iff in Hd as [b [<- _]].
  apply in_map_iff in Hp as [q [<- _]].
  destruct q as [v|f]; simpl; eauto.
Qed.

Lemma subarrays_stacked (frames : list ndarray) (s : list Z) :
  Forall (fun p => shape p = s /\ len (data p) = numpy.prod s) frames ->
  numpy.subarrays {| shape := len frames :: s; data := concat (map data frames) |}
  = Ok frames.
Proof.
  intros Hall. unfold numpy.subarrays. cbn [shape data]. f_equal.
  unfold len. rewrite Nat2Z.id, <- flat_id, chunks_flat.
  - rewrite map_map. rewrite <- (map_id frames) at 2. apply map_ext_in.
    intros b Hb. rewrite List.Forall_forall in Hall. destruct (Hall b Hb) as [Hs _].
    rewrite map_id. destruct b; cbn in *. now rewrite Hs.
  - eapply List.Forall_impl; [|exact Hall]. intros b [_ Hb]. cbn beta in *.
    unfold len in Hb. lia.
Qed.

Lemma pages_asarray_many (l : list ndarray) (s : list Z) :
  (2 <= length l)%nat -> Forall (fun p => shape p = s) l ->
  tifffile.pages_asarray l
  = Ok {| shape := len l :: s; data := concat (map data l) |}.
Proof.
  intros Hl Hs. destruct l as [|a [|b rest]]; cbn [length] in Hl; try lia.
  unfold tifffile.pages_asarray, numpy.asarray.
  rewrite (stack_uniform _ _ s) by (discriminate || exact Hs).
  now rewrite flat_id.
Qed.

End Arrays.

(** * The two directions of the conversion *)

Section Conversions.

Lemma last_bound_In {A : Type} (l : list A) :
  l <> [] -> exists x, last_bound l = Some x /\ In x l.
Proof.
  induction l as [|x l IH]; [congruence|]. intros _.
  destruct l as [|y l]; [exists x; simpl; auto|].
  destruct IH as [z [Hz Hin]]; [congruence|].
  exists z. split; [exact Hz|now right].
Qed.

Lemma convert_images_to_tdms_ok (w : world) (imagepath template_file ext target : string)
    (efr et bfs z af : py.value) (frames : list ndarray) (H W : Z) (template : tdms) :
  holds_frames w imagepath ext frames ->
  frames <> [] ->
  Forall (fun b => shape b = [H; W] /\ len (data b) = H * W) frames ->
  0 <= H -> 0 <= W ->
  files w !! template_file = Some (TdmsFile template) ->
  dirs w !! target = None ->
  convert_images_to_tdms imagepath template_file efr et bfs z af ext target w
  = (Ok (converted_channel frames H W efr et bfs z af,
         converted_data frames H W, converted_images frames H W),
     {| files := <[target := converted_file template frames H W efr et bfs z af]> (files w);
        dirs := dirs w;
        stdout := stdout w ++ converted_output template frames H W target;
        stdin := stdin w |}).
Proof.
  intros [_ [l [Hd HF]]] Hne Hall HH HW Ht Htarget.
  unfold convert_images_to_tdms.
  erewrite bind_Ok by (eapply read_image_files_ok; eassumption).
  cbv beta iota.
  assert (Hshape : Forall (fun b => shape b = [H; W]) frames)
    by (eapply List.Forall_impl; [|exact Hall]; intros b [Hb _]; exact Hb).
  assert (Hlen : Forall (fun b => len (data b) = H * W) frames)
    by (eapply List.Forall_impl; [|exact Hall]; intros b [_ Hb]; exact Hb).
  unfold numpy.array_float32. rewrite (stack_uniform _ _ _ Hne Hshape).
  erewrite bind_Ok by reflexivity.
  destruct (last_bound_In frames Hne) as [im [Him Hin]]. rewrite Him.
  erewrite bind_Ok by reflexivity.
  rewrite List.Forall_forall in Hshape. pose proof (Hshape im Hin) as Him_shape.
  unfold numpy.shape_at. rewrite Him_shape. cbn [lookup list_lookup].
  run.
  assert (len (py.sorted (List.filter (re.search ext) (map fst l))) = len frames) as ->
    by (unfold len; now rewrite (List.Forall2_length HF)).
  rewrite reshape_exact; cycle 1.
  { repeat constructor. unfold len. nia. }
  { cbn [data numpy.prod fold_right]. rewrite (flat_length _ _ _ Hlen). unfold len. ring. }
  erewrite bind_Ok by reflexivity.
  erewrite bind_Ok
    by (unfold nptdms.TdmsFile_read, open_file, bind; cbn [files with_stdout];
        rewrite Ht; reflexivity).
  run.
  erewrite bind_Ok
    by (unfold nptdms.TdmsWriter_enter; cbn [dirs with_stdout]; rewrite Htarget;
        reflexivity).
  run.
  unfold ret. f_equal.
  unfold with_files, with_stdout, converted_file, converted_output. cbn.
  rewrite insert_insert_eq, <- !app_assoc. reflexivity.
Qed.

Lemma channel_properties_size1 (efr et bfs z af : py.value) (x y : Q) :
  channel_properties efr et bfs x z af y !! "Image size"%string = Some (py.VFloat x).
Proof. unfold channel_properties. by simplify_map_eq. Qed.

Lemma channel_properties_size2 (efr et bfs z af : py.value) (x y : Q) :
  channel_properties efr et bfs x z af y !! "Image size 2"%string = Some (py.VFloat y).
Proof. unfold channel_properties. by simplify_map_eq. Qed.

Lemma int_float (z : Z) : py.int (py.VFloat (py.float z)) = Ok z.
Proof. unfold py.int, py.int_of_float, py.float. simpl. now rewrite Z.quot_1_r. Qed.

Lemma read_tdms_images_zero (w : world) (path : string) (raw : list pixel) (H W : Z) :
  declares w path raw H W -> H * W = 0 ->
  read_tdms_images path w = (Raise ZeroDivisionError, w).
Proof.
  intros (t & ch & v1 & v2 & Hf & Hc & Hraw & H1 & Hi1 & H2 & Hi2) Hz.
  unfold read_tdms_images.
  erewrite bind_Ok by (unfold nptdms.TdmsFile_read, open_file, bind; rewrite Hf; reflexivity).
  unfold nptdms.channel_data. rewrite Hc, bind_lift.
  unfold nptdms.object_properties. rewrite Hc, bind_lift.
  unfold nptdms.getitem. rewrite H1, bind_lift, Hi1, bind_lift.
  rewrite H2, bind_lift, Hi2, bind_lift.
  unfold py.truediv. rewrite Hz. reflexivity.
Qed.

Lemma read_tdms_images_eval (w : world) (path : string) (raw : list pixel) (H W : Z) :
  declares w path raw H W -> H * W <> 0 ->
  read_tdms_images path w
  = (numpy.reshape {| shape := [len raw]; data := raw |}
       [Z.quot (len raw) (H * W); H; W],
     with_stdout w (stdout w ++ [found_frames (Z.quot (len raw) (H * W))])).
Proof.
  intros (t & ch & v1 & v2 & Hf & Hc & Hraw & H1 & Hi1 & H2 & Hi2) Hz.
  unfold read_tdms_images.
  erewrite bind_Ok by (unfold nptdms.TdmsFile_read, open_file, bind; rewrite Hf; reflexivity).
  unfold nptdms.channel_data. rewrite Hc, bind_lift.
  unfold nptdms.object_properties. rewrite Hc, bind_lift.
  unfold nptdms.getitem. rewrite H1, bind_lift, Hi1, bind_lift.
  rewrite H2, bind_lift, Hi2, bind_lift.
  unfold py.truediv. cbn [data]. rewrite Hraw.
  apply Z.eqb_neq in Hz. rewrite Hz, bind_lift.
  apply Z.eqb_neq in Hz. rewrite int_of_float_div by exact Hz.
  erewrite bind_Ok by reflexivity.
  reflexivity.
Qed.

Lemma read_tdms_images_ok (w : world) (path : string) (raw : list pixel) (N H W : Z) :
  declares w path raw H W -> 0 < H -> 0 < W -> 0 <= N -> len raw = N * (H * W) ->
  read_tdms_images path w
  = (Ok {| shape := [N; H; W]; data := raw |},
     with_stdout w (stdout w ++ [found_frames N])).
Proof.
  intros Hdecl HH HW HN Hlen.
  rewrite (read_tdms_images_eval _ _ _ _ _ Hdecl) by nia.
  rewrite Hlen, Z.quot_mul by nia.
  rewrite reshape_exact; [reflexivity| |].
  - repeat constructor; lia.
  - cbn [data numpy.prod fold_right]. rewrite Hlen. ring.
Qed.

(** Truncated division by a negative number of a non-negative one. *)
Lemma quot_nonpos (a b : Z) : 0 <= a -> b < 0 -> Z.quot a b <= 0.
Proof.
  intros Ha Hb. replace b with (- (- b)) by lia.
  rewrite Z.quot_opp_r by lia.
  pose proof (Z.quot_pos a (- b) Ha ltac:(lia)). lia.
Qed.

(** A length that is no multiple of the frame size cannot be folded. *)
Lemma reshape_mismatch (a : ndarray) (h w : Z) :
  h * w <> 0 -> ~ (h * w | len (data a)) ->
  numpy.reshape a [Z.quot (len (data a)) (h * w); h; w] = Raise ValueError.
Proof.
  intros Hz Hndiv.
  set (size := len (data a)) in *.
  assert (Hsize : 0 <= size) by (unfold size, len; lia).
  set (n := Z.quot size (h * w)).
  unfold numpy.reshape, numpy.fix_unknown_dimension. fold size.
  destruct (0 <=? n) eqn:En, (0 <=? h) eqn:Eh, (0 <=? w) eqn:Ew;
    cbn [List.filter length Nat.sub]; rewrite ?En, ?Eh, ?Ew;
    cbn [List.filter length Nat.sub rbind]; try reflexivity.
  - (* no dimension to infer: the sizes differ *)
    destruct (numpy.prod [n; h; w] =? size) eqn:E; [|reflexivity].
    exfalso. apply Hndiv. exists n. apply Z.eqb_eq in E.
    cbn [numpy.prod fold_right] in E. lia.
  - (* the columns are to be inferred: no frame fits *)
    assert (n = 0) as ->; [|reflexivity].
    apply Z.leb_le in En, Eh. apply Z.leb_gt in Ew.
    pose proof (quot_nonpos size (h * w) Hsize ltac:(nia)) as Hq. fold n in Hq. lia.
  - (* the rows are to be inferred: no frame fits *)
    assert (n = 0) as ->; [|reflexivity].
    apply Z.leb_le in En, Ew. apply Z.leb_gt in Eh.
    pose proof (quot_nonpos size (h * w) Hsize ltac:(nia)) as Hq. fold n in Hq. lia.
  - (* a negative count of frames does not arise from positive sizes *)
    exfalso. apply Z.leb_gt in En. apply Z.leb_le in Eh, Ew.
    pose proof (Z.quot_pos size (h * w) Hsize ltac:(nia)) as Hq. fold n in Hq. lia.
Qed.

Lemma subarrays_converted (frames : list ndarray) (H W : Z) :
  0 <= H -> 0 <= W ->
  Forall (fun b => shape b = [H; W] /\ len (data b) = H * W) frames ->
  numpy.subarrays (converted_images frames H W) = Ok (map numpy.astype_float32 frames).
Proof.
  intros HH HW Hall. unfold numpy.subarrays, converted_images. cbn [shape data].
  f_equal. unfold len. rewrite Nat2Z.id.
  rewrite chunks_flat.
  - rewrite map_map. apply map_ext_in. intros b Hb.
    rewrite List.Forall_forall in Hall. destruct (Hall b Hb) as [Hs _].
    unfold numpy.astype_float32. now rewrite Hs.
  - eapply List.Forall_impl; [|exact Hall]. intros b [_ Hb]. cbn beta in *.
    unfold len in Hb. cbn [numpy.prod fold_right]. lia.
Qed.

Lemma declares_converted (w : world) (target : string) (template : tdms)
    (frames : list ndarray) (H W : Z) (efr et bfs z af : py.value) :
  files w !! target = Some (converted_file template frames H W efr et bfs z af) ->
  declares w target (flat cast_float32 frames) H W.
Proof.
  intros Hf. unfold declares, converted_file in *.
  eexists _, _, _, _. split; [exact Hf|]. cbn [tdms_channels].
  split; [apply lookup_singleton_eq|]. cbn [ch_data ch_properties].
  split; [reflexivity|].
  split; [apply channel_properties_size1|]. split; [apply int_float|].
  split; [apply channel_properties_size2|apply int_float].
Qed.

Lemma tdms_to_images_unsaved (w : world) (path destination ext : string)
    (raw : list pixel) (N H W : Z) :
  declares w path raw H W -> 0 < H -> 0 < W -> 0 <= N -> len raw = N * (H * W) ->
  tdms_to_images path destination false ext w
  = (Ok {| shape := [N; H; W]; data := raw |},
     with_stdout w (stdout w ++ [found_frames N])).
Proof.
  intros Hd HH HW HN Hlen. unfold tdms_to_images.
  erewrite bind_Ok by (apply read_tdms_images_ok; eassumption).
  reflexivity.
Qed.

Lemma search_app (pat s t : string) :
  re.search pat t = true -> re.search pat (s +:+ t) = true.
Proof.
  intros Ht. induction s as [|c s IH]; [exact Ht|].
  simpl. rewrite IH. apply orb_true_r.
Qed.

Lemma search_k_file_tag (pat ext : string) (i : Z) :
  re.search pat ext = true -> re.search pat (k_file_tag i ext) = true.
Proof. intros He. unfold k_file_tag. now do 2 apply search_app. Qed.

Lemma filter_all {A : Type} (f : A -> bool) (l : list A) :
  Forall (fun x => f x = true) l -> List.filter f l = l.
Proof. induction 1 as [|x l Hx _ IH]; simpl; [|rewrite Hx, IH]; reflexivity. Qed.

Lemma save_images_unasked (w : world) (arr : ndarray) (frames : list ndarray)
    (destination ext : string) :
  fresh_directory w destination ->
  numpy.subarrays arr = Ok frames ->
  save_images arr destination ext w
  = (Ok tt, with_dirs w (<[destination := exported ext frames 0 []]> (dirs w))).
Proof.
  intros Hfresh Hsub. unfold save_images, os.path_isdir.
  destruct Hfresh as [[Hd Hf]|Hd].
  - erewrite bind_Ok by reflexivity. rewrite Hd.
    rewrite bool_decide_eq_false_2 by (intros [x Hx]; discriminate).
    erewrite bind_Ok; cycle 1.
    { erewrite bind_Ok by (unfold os.mkdir; rewrite Hd, Hf; reflexivity). reflexivity. }
    cbn [String.eqb Ascii.eqb Bool.eqb]. rewrite Hsub, bind_lift.
    erewrite for_enumerate_save by (cbn [dirs with_dirs]; apply lookup_insert_eq).
    unfold with_dirs. cbn [files dirs stdout stdin].
    now rewrite insert_insert_eq.
  - erewrite bind_Ok by reflexivity. rewrite Hd.
    rewrite bool_decide_eq_true_2 by eauto.
    erewrite bind_Ok; cycle 1.
    { erewrite bind_Ok by (unfold os.listdir; rewrite Hd; reflexivity). reflexivity. }
    cbn [String.eqb Ascii.eqb Bool.eqb]. rewrite Hsub, bind_lift.
    now erewrite for_enumerate_save by exact Hd.
Qed.

Lemma save_images_fresh (w : world) (arr : ndarray) (frames : list ndarray)
    (destination ext : string) :
  fresh_directory w destination ->
  numpy.subarrays arr = Ok frames -> len frames <= 100000 ->
  save_images arr destination ext w
  = (Ok tt, with_dirs w (<[destination := frame_files ext frames 0]> (dirs w))).
Proof.
  intros Hfresh Hsub Hn.
  rewrite (save_images_unasked w arr frames) by assumption.
  rewrite exported_fresh; [reflexivity|lia|lia|reflexivity].
Qed.

(** In a directory that holds something, the console decides. *)
Lemma save_images_asked (w : world) (arr : ndarray) (frames : list ndarray)
    (destination ext : string) (content : list (string * file)) :
  dirs w !! destination = Some content -> content <> [] ->
  numpy.subarrays arr = Ok frames ->
  let asked := with_stdout w (stdout w ++ [[Text overwrite_prompt]]) in
  save_images arr destination ext w
  = match stdin w with
    | [] => (Raise EOFError, asked)
    | answer :: rest =>
        (Ok tt,
         if String.eqb answer "y"
         then with_dirs (with_stdin asked rest)
                (<[destination := exported ext frames 0 content]> (dirs w))
         else with_stdout (with_stdin asked rest)
                (stdout asked ++
                 [[Text ("The contents of " +:+ destination +:+ " were not overwritten.")]]))
    end.
Proof.
  intros Hd Hne Hsub asked. unfold save_images, os.path_isdir.
  erewrite bind_Ok by reflexivity. rewrite Hd.
  rewrite bool_decide_eq_true_2 by eauto.
  assert (Hlen : negb (len (map fst content) =? 0) = true).
  { destruct content; [congruence|]. reflexivity. }
  destruct (stdin w) as [|answer rest] eqn:Hin.
  - erewrite bind_Raise; [reflexivity|].
    erewrite bind_Ok by (unfold os.listdir; rewrite Hd; reflexivity).
    rewrite Hlen. unfold input. now rewrite Hin.
  - erewrite bind_Ok; cycle 1.
    { erewrite bind_Ok by (unfold os.listdir; rewrite Hd; reflexivity).
      rewrite Hlen. unfold input. rewrite Hin. reflexivity. }
    destruct (String.eqb answer "y").
    + rewrite Hsub, bind_lift.
      now erewrite for_enumerate_save by exact Hd.
    + reflexivity.
Qed.

(** A sequence of one-page TIFF files: [tiff_to_mp] stacks the files and
    then keeps the element 0 of the stack, the first file's frame. *)
Lemma tiff_to_mp_sequence (w : world) (d mp_file core : string)
    (l : list (string * file)) (f0 : ndarray) (frames : list ndarray) (s : list Z) :
  dirs w !! d = Some l ->
  dirs w !! mp_file = None ->
  Forall2 (fun n f => entry n l = Some (ImageFile [f]))
          (natural.sorted (List.filter (glob.matches core ".tif") (map fst l)))
          (f0 :: frames) ->
  uniform_pages s (f0 :: frames) = true ->
  tiff_to_mp d mp_file false (Some core) w
  = (Ok f0, with_files w (<[mp_file := H5File {[ "frame"%string := f0 ]}]> (files w))).
Proof.
  intros Hd Hmp HF Hu. apply uniform_pages_spec in Hu.
  unfold tiff_to_mp.
  set (found := natural.sorted (List.filter (glob.matches core ".tif") (map fst l))) in *.
  assert (Hreads : for_each (tifffile.imread d) found w = (Ok (f0 :: frames), w)).
  { clear Hu. induction HF as [|n f names fs Hn _ IH]; [reflexivity|].
    simpl. erewrite bind_Ok; cycle 1.
    { unfold tifffile.imread, open_entry, bind. rewrite Hd, Hn.
      unfold tifffile.series0, numpy.same_shape. cbn [List.filter].
      rewrite bool_decide_eq_true_2 by reflexivity. reflexivity. }
    now erewrite bind_Ok by exact IH. }
  assert (Hseq : tifffile.TiffSequence d core ".tif" w = (Ok found, w)).
  { unfold tifffile.TiffSequence.
    erewrite bind_Ok by (unfold os.listdir; rewrite Hd; reflexivity).
    fold found. destruct found; [inversion HF|reflexivity]. }
  erewrite bind_Ok; cycle 1.
  { erewrite bind_Ok by exact Hseq.
    erewrite bind_Ok; cycle 1.
    { unfold tifffile.sequence_asarray. erewrite bind_Ok by exact Hreads.
      unfold numpy.asarray.
      rewrite (stack_uniform _ (f0 :: frames) s);
        [reflexivity|discriminate|].
      eapply List.Forall_impl; [|exact Hu]. now intros p [Hp _]. }
    unfold numpy.first. cbn [shape]. rewrite flat_id.
    rewrite (subarrays_stacked (f0 :: frames) s Hu). reflexivity. }
  erewrite bind_Ok by (unfold h5py.write_dataset; rewrite Hmp; reflexivity).
  reflexivity.
Qed.

(** The sibling path: [png_to_mp] writes the whole stack. *)
Lemma png_to_mp_sequence (w : world) (d mp_file ext : string)
    (l : list (string * file)) (f0 : ndarray) (frames : list ndarray) (s : list Z) :
  dirs w !! d = Some l ->
  dirs w !! mp_file = None ->
  Forall2 (fun n f => exists rest, entry n l = Some (ImageFile (f :: rest)))
          (natural.sorted (List.filter (glob.matches "frame" ext) (map fst l)))
          (f0 :: frames) ->
  uniform_pages s (f0 :: frames) = true ->
  let arr := {| shape := len (f0 :: frames) :: s;
                data := concat (map data (f0 :: frames)) |} in
  png_to_mp d mp_file ext w
  = (Ok arr, with_files w (<[mp_file := H5File {[ "frame"%string := arr ]}]> (files w)))
  /\ numpy.subarrays arr = Ok (f0 :: frames).
Proof.
  intros Hd Hmp HF Hu arr. apply uniform_pages_spec in Hu.
  split; [|now apply subarrays_stacked].
  unfold png_to_mp, load_images.
  erewrite bind_Ok; cycle 1.
  { unfold pims.ImageSequence.
    erewrite bind_Ok by (unfold os.listdir; rewrite Hd; reflexivity).
    set (found := natural.sorted _) in *.
    assert (for_each (imageio.imread d) found w = (Ok (f0 :: frames), w)) as Hr
      by (eapply for_each_imread; eassumption).
    destruct found; [inversion HF|exact Hr]. }
  unfold numpy.asarray.
  rewrite (stack_uniform _ (f0 :: frames) s);
    [|discriminate|eapply List.Forall_impl; [|exact Hu]; now intros p [Hp _]].
  rewrite bind_lift.
  erewrite bind_Ok by (unfold h5py.write_dataset; rewrite Hmp; reflexivity).
  unfold arr. now rewrite flat_id.
Qed.

End Conversions.

(** * Claims *)

(** Discharges [holds_frames] on a concrete world by evaluation. *)
Ltac holds_by_computation :=
  split; [reflexivity|];
  eexists; split; [reflexivity|];
  vm_compute; repeat (constructor; [eexists; reflexivity|]); constructor.

Section Claims.

(** C1 (as amended): for every directory whose image files, in the
    loader's order, are [N >= 1] frames of one shape with [H >= 1] rows
    and [W >= 1] columns, and whose pixel values all are numbers that
    float32 holds, flattening with [convert_images_to_tdms] and
    unflattening the written file with [tdms_to_images] gives the frames
    back: same count and order, same shape each, elements in the same
    row-major order, and every pixel equal to the original.  The two
    dimension properties recorded are [H] and [W]. *)
Theorem C1_round_trip_of_float32_frames
    (w : world) (imagepath template_file ext target : string)
    (efr et bfs z af : py.value) (frames : list ndarray) (H W : Z) (template : tdms) :
  holds_frames w imagepath ext frames ->
  frames <> [] ->
  forallb (frame_of H W) frames = true ->
  0 < H -> 0 < W ->
  files w !! template_file = Some (TdmsFile template) ->
  dirs w !! target = None ->
  forallb float32_frame frames = true ->
  exists w',
    round_trip imagepath template_file efr et bfs z af ext target w
    = (Ok (map numpy.astype_float32 frames), w') /\
    files w' !! target = Some (converted_file template frames H W efr et bfs z af) /\
    Forall2 (fun r f => shape r = shape f /\ numpy.array_equal r f = true)
            (map numpy.astype_float32 frames) frames.
Proof.
  intros Hhold Hne Hshape HH HW Ht Htarget Hexact.
  apply frame_of_spec in Hshape.
  pose proof (convert_images_to_tdms_ok w imagepath template_file ext target
                efr et bfs z af frames H W template Hhold Hne Hshape
                ltac:(lia) ltac:(lia) Ht Htarget) as Hconv.
  unfold round_trip. erewrite bind_Ok by exact Hconv.
  set (w1 := {| files := _; dirs := _; stdout := _; stdin := _ |}).
  assert (Hfile : files w1 !! target
                  = Some (converted_file template frames H W efr et bfs z af))
    by apply lookup_insert_eq.
  erewrite bind_Ok; cycle 1.
  { apply (tdms_to_images_unsaved w1 target "" "" (flat cast_float32 frames) (len frames) H W).
    - eapply declares_converted. exact Hfile.
    - exact HH.
    - exact HW.
    - unfold len. lia.
    - apply flat_length. eapply List.Forall_impl; [|exact Hshape]. now intros b [_ Hb]. }
  change {| shape := [len frames; H; W]; data := flat cast_float32 frames |}
    with (converted_images frames H W).
  rewrite subarrays_converted by (assumption || lia).
  eexists. split; [reflexivity|]. split; [exact Hfile|].
  clear -Hexact. induction frames as [|b frames IH]; simpl; constructor.
  - simpl in Hexact. apply andb_prop in Hexact as [Hb _].
    split; [reflexivity|now apply array_equal_astype].
  - apply IH. simpl in Hexact. now apply andb_prop in Hexact as [_ Hr].
Qed.

Lemma C1_round_trip_of_float32_frames_witness :
  exists w',
    round_trip_example movie_world = (Ok (map numpy.astype_float32 [frame_a; frame_b]), w') /\
    files w' !! "event00.tdms"%string
    = Some (converted_file template_tdms [frame_a; frame_b] 2 3
              (py.VFloat (201 # 2)) (py.VFloat (201 # 2)) (py.VInt 4)
              (py.VFloat (3 # 2)) (py.VInt 300)) /\
    Forall2 (fun r f => shape r = shape f /\ numpy.array_equal r f = true)
            (map numpy.astype_float32 [frame_a; frame_b]) [frame_a; frame_b].
Proof.
  apply (C1_round_trip_of_float32_frames movie_world "movie" "template.tdms" ".tif"
           "event00.tdms" _ _ _ _ _ [frame_a; frame_b] 2 3 template_tdms).
  - holds_by_computation.
  - discriminate.
  - vm_compute. reflexivity.
  - lia.
  - lia.
  - vm_compute. reflexivity.
  - vm_compute. reflexivity.
  - vm_compute. reflexivity.
Defined.

(** C1 as stated fails: one frame of one pixel of value 2^24 + 1 comes
    back from the round trip with the value 2^24. *)
Lemma C1_counterexample :
  holds_frames big_world "movie" ".tif" [big_frame] /\
  fst (round_trip_example big_world) = Ok [big_frame_back] /\
  numpy.array_equal big_frame_back big_frame = false.
Proof.
  split; [|split].
  - holds_by_computation.
  - vm_compute. reflexivity.
  - vm_compute. reflexivity.
Qed.

(** C2 on the code: on a directory of three one-frame TIFF files
    [frame0.tif], [frame1.tif], [frame2.tif] of solid values 0, 128, 255,
    [tiff_to_mp] with [single_stack = False] returns, and writes as the
    dataset [frame], the frame 0 alone, of shape (2, 2); the stack of
    shape (3, 2, 2) that the claim describes is what [png_to_mp] writes
    for the same frames as PNG files. *)
Theorem C2_tiff_sequence_writes_first_frame_only :
  let stacked := {| shape := [3; 2; 2];
                    data := concat (map data [solid 0; solid 128; solid 255]) |} in
  tiff_to_mp "tifs" "movie.mp" false (Some "frame"%string) solid_world
  = (Ok (solid 0),
     with_files solid_world
       (<["movie.mp"%string := H5File {[ "frame"%string := solid 0 ]}]>
          (files solid_world))) /\
  shape (solid 0) = [2; 2] /\
  numpy.array_equal (solid 0) stacked = false /\
  png_to_mp "pngs" "movie.mp" ".png" solid_world
  = (Ok stacked,
     with_files solid_world
       (<["movie.mp"%string := H5File {[ "frame"%string := stacked ]}]>
          (files solid_world))) /\
  numpy.subarrays stacked = Ok [solid 0; solid 128; solid 255].
Proof.
  intros stacked. split; [|split; [reflexivity|split; [vm_compute; reflexivity|]]].
  - eapply (tiff_to_mp_sequence solid_world "tifs" "movie.mp" "frame" _
              (solid 0) [solid 128; solid 255] [2; 2]).
    + reflexivity.
    + reflexivity.
    + vm_compute. repeat (constructor; [reflexivity|]). constructor.
    + vm_compute. reflexivity.
  - eapply (png_to_mp_sequence solid_world "pngs" "movie.mp" ".png" _
              (solid 0) [solid 128; solid 255] [2; 2]).
    + reflexivity.
    + reflexivity.
    + vm_compute. repeat (constructor; [eexists; reflexivity|]). constructor.
    + vm_compute. reflexivity.
Qed.

(** C3: [tdms_to_images] with [save = True] names the file of frame [i]
    ['frame' + str(i).zfill(5) + extension], and the loader of
    [convert_images_to_tdms] sorts the matching names before it reads the
    files.  So for every sequence of fewer than 100000 frames exported
    into a fresh directory, in whatever order the file system then
    enumerates the directory, the loader finds the names in ascending
    index order and reads the frames in the order of the sequence.  (The
    loader's extension must occur in the exporter's, as ['.tif'] does in
    ['.tiff'].) *)
Theorem C3_export_then_load_keeps_order
    (w : world) (path destination ext ext' : string)
    (raw : list pixel) (N H W : Z) :
  declares w path raw H W ->
  0 < H -> 0 < W -> 0 <= N < 100000 -> len raw = N * (H * W) ->
  fresh_directory w destination ->
  re.plain ext' = true -> re.search ext' ext = true ->
  exists arr frames w1,
    tdms_to_images path destination true ext w = (Ok arr, w1) /\
    numpy.subarrays arr = Ok frames /\
    len frames = N /\
    dirs w1 !! destination = Some (frame_files ext frames 0) /\
    forall listing',
      Permutation (frame_files ext frames 0) listing' ->
      fst (read_image_files destination ext'
             (with_dirs w1 (<[destination := listing']> (dirs w1))))
      = Ok (map fst (frame_files ext frames 0), frames).
Proof.
  intros Hdecl HH HW HN Hlen Hfresh _ Hext.
  set (arr := {| shape := [N; H; W]; data := raw |}).
  set (frames := map (fun d => {| shape := [H; W]; data := d |})
                     (numpy.chunks (Z.to_nat N) (Z.to_nat (numpy.prod [H; W])) raw)).
  assert (Hsub : numpy.subarrays arr = Ok frames) by reflexivity.
  assert (Hcount : len frames = N).
  { unfold frames, len. rewrite length_map, chunks_length. lia. }
  set (w0 := with_stdout w (stdout w ++ [found_frames N])).
  assert (Hrun : tdms_to_images path destination true ext w
                 = (Ok arr, with_dirs w0 (<[destination := frame_files ext frames 0]> (dirs w0)))).
  { unfold tdms_to_images.
    erewrite bind_Ok
      by (apply (read_tdms_images_ok w path raw N H W); (assumption || lia)).
    erewrite bind_Ok; [reflexivity|].
    apply save_images_fresh; [exact Hfresh|exact Hsub|lia]. }
  exists arr, frames, (with_dirs w0 (<[destination := frame_files ext frames 0]> (dirs w0))).
  split; [exact Hrun|]. split; [exact Hsub|]. split; [exact Hcount|].
  split; [cbn [dirs with_dirs]; apply lookup_insert_eq|].
  intros listing' HP.
  set (w2 := with_dirs _ _).
  assert (Hd2 : dirs w2 !! destination = Some listing')
    by (cbn [dirs with_dirs]; apply lookup_insert_eq).
  assert (Hnames : Permutation (map fst listing') (map fst (frame_files ext frames 0)))
    by (apply Permutation_map; symmetry; exact HP).
  assert (Hfilter : List.filter (re.search ext') (map fst listing') = map fst listing').
  { apply filter_all. eapply Permutation_Forall; [symmetry; exact Hnames|].
    apply List.Forall_forall. intros n Hn.
    apply in_map_iff in Hn as [[n' g] [<- Hn]].
    apply in_map_iff in Hn as [[k x] [E _]]. injection E as E1 E2.
    cbn [fst]. rewrite <- E1. now apply search_k_file_tag. }
  assert (Hsorted : py.sorted (map fst listing') = map fst (frame_files ext frames 0)).
  { apply sorted_of_perm; [|exact Hnames].
    apply slt_sorted_sle, frame_files_sorted; lia. }
  erewrite read_image_files_ok; [|exact Hd2|].
  - cbn [fst]. now rewrite Hfilter, Hsorted.
  - rewrite Hfilter, Hsorted. apply frame_files_entry; [lia|lia|exact HP].
Qed.

Lemma C3_export_then_load_keeps_order_witness :
  exists arr frames w1,
    tdms_to_images "full.tdms" "frames" true ".tiff" export_world = (Ok arr, w1) /\
    numpy.subarrays arr = Ok frames /\
    len frames = 2 /\
    dirs w1 !! "frames"%string = Some (frame_files ".tiff" frames 0) /\
    forall listing',
      Permutation (frame_files ".tiff" frames 0) listing' ->
      fst (read_image_files "frames" ".tif"
             (with_dirs w1 (<["frames"%string := listing']> (dirs w1))))
      = Ok (map fst (frame_files ".tiff" frames 0), frames).
Proof.
  apply (C3_export_then_load_keeps_order export_world "full.tdms" "frames" ".tiff" ".tif"
           (map PInt [1; 2; 3; 4; 5; 6; 7; 8; 9; 10; 11; 12]) 2 2 3).
  - exists full_tdms. eexists _, _, _. repeat split; vm_compute; reflexivity.
  - lia.
  - lia.
  - lia.
  - reflexivity.
  - left. split; reflexivity.
  - reflexivity.
  - reflexivity.
Defined.

(** C4: when the length of the channel is no multiple of the frame size
    that the properties [Image size] and [Image size 2] declare,
    [tdms_to_images] raises and returns no frames: [ValueError] from the
    reshape, whose sizes disagree ([ZeroDivisionError] when the declared
    frame size is zero).  It writes no file and no directory, whatever
    [save] is. *)
Theorem C4_length_mismatch_rejected
    (w : world) (path destination ext : string) (save : bool)
    (raw : list pixel) (H W : Z) :
  declares w path raw H W ->
  ~ (H * W | len raw) ->
  exists w',
    tdms_to_images path destination save ext w
    = (Raise (if H * W =? 0 then ZeroDivisionError else ValueError), w') /\
    files w' = files w /\ dirs w' = dirs w.
Proof.
  intros Hdecl Hndiv. unfold tdms_to_images.
  destruct (Z.eq_dec (H * W) 0) as [Hz|Hz].
  - rewrite Hz. cbn [Z.eqb]. exists w.
    erewrite bind_Raise by (eapply read_tdms_images_zero; eassumption). auto.
  - pose proof Hz as Hz'. apply Z.eqb_neq in Hz'. rewrite Hz'.
    eexists. erewrite bind_Raise; [split; [reflexivity|]|].
    2:{ rewrite (read_tdms_images_eval _ _ _ _ _ Hdecl Hz).
        pose proof (reshape_mismatch {| shape := [len raw]; data := raw |} H W Hz Hndiv) as Hr.
        cbn [data] in Hr. rewrite Hr. reflexivity. }
    split; reflexivity.
Qed.

Lemma C4_length_mismatch_rejected_witness :
  exists w',
    tdms_to_images "short.tdms" "frames" true ".tiff" short_world
    = (Raise (if 2 * 3 =? 0 then ZeroDivisionError else ValueError), w') /\
    files w' = files short_world /\ dirs w' = dirs short_world.
Proof.
  apply (C4_length_mismatch_rejected short_world "short.tdms" "frames" ".tiff" true
           (map PInt [1; 2; 3; 4; 5; 6; 7]) 2 3).
  - exists short_tdms. eexists _, _, _.
    repeat split; vm_compute; reflexivity.
  - intros [k Hk]. change (len (map PInt [1; 2; 3; 4; 5; 6; 7])) with 7 in Hk. lia.
Defined.

(** C5 on the code: asked to write [out.tdms], a name without [event],
    [convert_images_to_tdms] writes exactly that path and prints its five
    lines: the count of frames, the image size, the template's
    properties and the path.  It changes no name, raises nothing and
    prints no warning. *)
Theorem C5_target_name_written_unchecked :
  re.search "event" "out.tdms" = false /\
  convert_example "out.tdms" movie_world
  = (Ok (converted_channel [frame_a; frame_b] 2 3
           (py.VFloat (201 # 2)) (py.VFloat (201 # 2)) (py.VInt 4)
           (py.VFloat (3 # 2)) (py.VInt 300),
         converted_data [frame_a; frame_b] 2 3,
         converted_images [frame_a; frame_b] 2 3),
     {| files :=
          <["out.tdms"%string :=
              converted_file template_tdms [frame_a; frame_b] 2 3
                (py.VFloat (201 # 2)) (py.VFloat (201 # 2)) (py.VInt 4)
                (py.VFloat (3 # 2)) (py.VInt 300)]> (files movie_world);
        dirs := dirs movie_world;
        stdout :=
          [ [Text "There are 2 frames."];
            [Text "Each image is "; FloatRepr (py.float 2); Text " by ";
             FloatRepr (py.float 3); Text " pixels."];
            [Text "The properties of the template file: "];
            [PropsRepr (tdms_properties template_tdms)];
            [Text "out.tdms"] ];
        stdin := [] |}).
Proof.
  split; [reflexivity|].
  apply (convert_images_to_tdms_ok movie_world "movie" "template.tdms" ".tif" "out.tdms").
  - holds_by_computation.
  - discriminate.
  - repeat constructor.
  - lia.
  - lia.
  - reflexivity.
  - reflexivity.
Qed.

(** C6: when no file of the directory matches the extension,
    [convert_images_to_tdms] raises ([UnboundLocalError]: no image was
    ever bound) after printing the count of frames; it opens no template
    and writes no file. *)
Theorem C6_empty_input_rejected
    (w : world) (imagepath template_file ext target : string)
    (efr et bfs z af : py.value) (l : list (string * file)) :
  dirs w !! imagepath = Some l ->
  re.plain ext = true ->
  List.filter (re.search ext) (map fst l) = [] ->
  convert_images_to_tdms imagepath template_file efr et bfs z af ext target w
  = (Raise UnboundLocalError,
     with_stdout w (stdout w ++ [[Text "There are 0 frames."]])).
Proof.
  intros Hd _ Hnone. unfold convert_images_to_tdms.
  erewrite bind_Ok; cycle 1.
  { apply (read_image_files_ok imagepath ext l [] w Hd). rewrite Hnone. constructor. }
  rewrite Hnone. reflexivity.
Qed.

Lemma C6_empty_input_rejected_witness :
  convert_example "event00.tdms" empty_world
  = (Raise UnboundLocalError,
     with_stdout empty_world (stdout empty_world ++ [[Text "There are 0 frames."]])).
Proof.
  apply (C6_empty_input_rejected empty_world "movie" "template.tdms" ".tif"
           "event00.tdms" _ _ _ _ _ [("notes.txt"%string, OtherFile)]).
  - reflexivity.
  - reflexivity.
  - reflexivity.
Defined.

(** C7: when two of the loaded frames differ in shape,
    [convert_images_to_tdms] raises ([ValueError]: the frames cannot be
    stacked into one array) after printing the count of frames; it
    writes no container, truncates nothing and pads nothing. *)
Theorem C7_shape_mismatch_rejected
    (w : world) (imagepath template_file ext target : string)
    (efr et bfs z af : py.value) (frames : list ndarray) (a b : ndarray) :
  holds_frames w imagepath ext frames ->
  In a frames -> In b frames -> shape a <> shape b ->
  convert_images_to_tdms imagepath template_file efr et bfs z af ext target w
  = (Raise ValueError,
     with_stdout w (stdout w ++
       [[Text ("There are " +:+ py.str (len frames) +:+ " frames.")]])).
Proof.
  intros [_ [l [Hd HF]]] Ha Hb Hne. unfold convert_images_to_tdms.
  erewrite bind_Ok by (eapply read_image_files_ok; eassumption).
  cbv beta iota. unfold numpy.array_float32.
  rewrite (stack_ragged _ frames a b Ha Hb Hne). reflexivity.
Qed.

Lemma C7_shape_mismatch_rejected_witness :
  convert_example "event00.tdms" ragged_world
  = (Raise ValueError,
     with_stdout ragged_world (stdout ragged_world ++
       [[Text ("There are " +:+ py.str (len [frame_a; frame_c]) +:+ " frames.")]])).
Proof.
  apply (C7_shape_mismatch_rejected ragged_world "movie" "template.tdms" ".tif"
           "event00.tdms" _ _ _ _ _ [frame_a; frame_c] frame_a frame_c).
  - holds_by_computation.
  - simpl. auto.
  - simpl. auto.
  - vm_compute. discriminate.
Defined.

(** C8 (as amended): [tdms_to_images] has no overwrite-policy parameter.
    With [save = True] and a destination directory that exists and holds
    something, it asks at the console and takes one line of input: it
    fails with [EOFError] when there is none, saves the frames over the
    directory when the line is exactly [y], and otherwise saves nothing
    and prints that nothing was overwritten.  With [save = False], or a
    destination that is absent or empty, it takes no console input. *)
Theorem C8_overwrite_decided_at_console
    (w : world) (path destination ext : string) (raw : list pixel) (N H W : Z) :
  declares w path raw H W ->
  0 < H -> 0 < W -> 0 <= N -> len raw = N * (H * W) ->
  let arr := {| shape := [N; H; W]; data := raw |} in
  let w0 := with_stdout w (stdout w ++ [found_frames N]) in
  let asked := with_stdout w0 (stdout w0 ++ [[Text overwrite_prompt]]) in
  (forall save : bool,
     save = false \/ fresh_directory w destination ->
     exists w',
       tdms_to_images path destination save ext w = (Ok arr, w') /\
       stdin w' = stdin w /\ stdout w' = stdout w0) /\
  (forall content frames,
     dirs w !! destination = Some content -> content <> [] ->
     numpy.subarrays arr = Ok frames ->
     tdms_to_images path destination true ext w
     = match stdin w with
       | [] => (Raise EOFError, asked)
       | answer :: rest =>
           (Ok arr,
            if String.eqb answer "y"
            then with_dirs (with_stdin asked rest)
                   (<[destination := exported ext frames 0 content]> (dirs w))
            else with_stdout (with_stdin asked rest)
                   (stdout asked ++
                    [[Text ("The contents of " +:+ destination +:+
                            " were not overwritten.")]]))
       end).
Proof.
  intros Hdecl HH HW HN Hlen arr w0 asked.
  assert (Hread : read_tdms_images path w = (Ok arr, w0))
    by (apply read_tdms_images_ok; assumption).
  split.
  - intros save [->|Hfresh].
    + exists w0. unfold tdms_to_images. erewrite bind_Ok by exact Hread. auto.
    + destruct save.
      * destruct (numpy.subarrays arr) as [frames|e] eqn:Hsub; [|discriminate].
        eexists. unfold tdms_to_images. erewrite bind_Ok by exact Hread.
        erewrite bind_Ok by (apply (save_images_unasked w0 arr frames); assumption).
        split; [reflexivity|]. split; reflexivity.
      * exists w0. unfold tdms_to_images. erewrite bind_Ok by exact Hread. auto.
  - intros content frames Hd Hne Hsub. unfold tdms_to_images.
    erewrite bind_Ok by exact Hread.
    pose proof (save_images_asked w0 arr frames destination ext content Hd Hne Hsub) as Hs.
    cbv zeta in Hs. cbn [stdin with_stdout w0] in Hs.
    destruct (stdin w) as [|answer rest].
    + now erewrite bind_Raise by exact Hs.
    + now erewrite bind_Ok by exact Hs.
Qed.

Lemma C8_overwrite_decided_at_console_witness :
  tdms_to_images "full.tdms" "frames" true ".tiff" (occupied_world "n")
  = (Ok {| shape := [2; 2; 3];
           data := map PInt [1; 2; 3; 4; 5; 6; 7; 8; 9; 10; 11; 12] |},
     {| files := files (occupied_world "n");
        dirs := dirs (occupied_world "n");
        stdout := [found_frames 2; [Text overwrite_prompt];
                   [Text "The contents of frames were not overwritten."]];
        stdin := [] |}).
Proof.
  destruct (C8_overwrite_decided_at_console (occupied_world "n") "full.tdms" "frames"
              ".tiff" (map PInt [1; 2; 3; 4; 5; 6; 7; 8; 9; 10; 11; 12]) 2 2 3)
    as [_ Hasked].
  - exists full_tdms. eexists _, _, _. repeat split; vm_compute; reflexivity.
  - lia.
  - lia.
  - lia.
  - reflexivity.
  - exact (Hasked [("old.txt"%string, OtherFile)] _ eq_refl ltac:(discriminate) eq_refl).
Defined.

(** C8 as stated fails: with the destination occupied, the call takes the
    line waiting at the console, and the same call with the same
    arguments saves the frames or not according to that line. *)
Lemma C8_counterexample :
  let run := tdms_to_images "full.tdms" "frames" true ".tiff" in
  stdin (occupied_world "n") = ["n"%string] /\
  stdin (snd (run (occupied_world "n"))) = [] /\
  map fst <$> dirs (snd (run (occupied_world "n"))) !! "frames"%string
  = Some ["old.txt"%string] /\
  map fst <$> dirs (snd (run (occupied_world "y"))) !! "frames"%string
  = Some ["old.txt"; "frame00000.tiff"; "frame00001.tiff"]%string.
Proof. repeat split; vm_compute; reflexivity. Qed.

(** C9: whatever the pixels of the loaded frames are,
    [convert_images_to_tdms] returns and writes their casts to float32,
    frame after frame in row-major order.  The cast keeps every integer
    of magnitude up to 2^24, and 2^24 is the largest such bound: below any
    larger bound lies an integer that the cast changes, 2^24 + 1, which
    becomes 2^24. *)
Theorem C9_pixels_cast_to_float32
    (w : world) (imagepath template_file ext target : string)
    (efr et bfs z af : py.value) (frames : list ndarray) (H W : Z) (template : tdms) :
  holds_frames w imagepath ext frames ->
  frames <> [] ->
  forallb (frame_of H W) frames = true ->
  0 <= H -> 0 <= W ->
  files w !! template_file = Some (TdmsFile template) ->
  dirs w !! target = None ->
  (exists ch images w' t c,
     convert_images_to_tdms imagepath template_file efr et bfs z af ext target w
     = (Ok (ch, {| shape := [H * W * len frames];
                   data := concat (map (fun b => map cast_float32 (data b)) frames) |},
            images), w') /\
     files w' !! target = Some (TdmsFile t) /\
     tdms_channels t !! ("img"%string, "cam1"%string) = Some c /\
     ch_data c = concat (map (fun b => map cast_float32 (data b)) frames) /\
     Forall (fun p => exists f, p = PF32 f) (ch_data c)) /\
  (forall v : Z, Z.abs v <= 2 ^ 24 -> float32_exact v = true) /\
  (forall bound : Z, 2 ^ 24 < bound ->
     exists v : Z, Z.abs v <= bound /\ float32_exact v = false) /\
  cast_float32 (PInt (2 ^ 24 + 1)) = cast_float32 (PInt (2 ^ 24)).
Proof.
  intros Hhold Hne Hshape HH HW Ht Htarget.
  apply frame_of_spec in Hshape.
  split; [|split; [exact float32_exact_upto|split; [|vm_compute; reflexivity]]].
  2:{ intros bound Hb. exists (2 ^ 24 + 1). split; [lia|vm_compute; reflexivity]. }
  eexists _, _, _, _, _. split.
  - apply convert_images_to_tdms_ok; eassumption.
  - cbn [files]. split; [apply lookup_insert_eq|]. cbn [tdms_channels].
    split; [apply lookup_singleton_eq|]. cbn [ch_data].
    split; [reflexivity|apply flat_cast_float32].
Qed.

Lemma C9_pixels_cast_to_float32_witness :
  (exists ch images w' t c,
     convert_example "event00.tdms" movie_world
     = (Ok (ch, {| shape := [2 * 3 * len [frame_a; frame_b]];
                   data := concat (map (fun b => map cast_float32 (data b))
                                       [frame_a; frame_b]) |},
            images), w') /\
     files w' !! "event00.tdms"%string = Some (TdmsFile t) /\
     tdms_channels t !! ("img"%string, "cam1"%string) = Some c /\
     ch_data c = concat (map (fun b => map cast_float32 (data b)) [frame_a; frame_b]) /\
     Forall (fun p => exists f, p = PF32 f) (ch_data c)) /\
  (forall v : Z, Z.abs v <= 2 ^ 24 -> float32_exact v = true) /\
  (forall bound : Z, 2 ^ 24 < bound ->
     exists v : Z, Z.abs v <= bound /\ float32_exact v = false) /\
  cast_float32 (PInt (2 ^ 24 + 1)) = cast_float32 (PInt (2 ^ 24)).
Proof.
  apply (C9_pixels_cast_to_float32 movie_world "movie" "template.tdms" ".tif"
           "event00.tdms" _ _ _ _ _ [frame_a; frame_b] 2 3 template_tdms).
  - holds_by_computation.
  - discriminate.
  - vm_compute. reflexivity.
  - lia.
  - lia.
  - vm_compute. reflexivity.
  - vm_compute. reflexivity.
Defined.

(** C10: in single-stack mode [tiff_to_mp] takes the pages
    [0 .. 100000 - 1] of the file.  For every stack of more than 100000
    pages (of one shape) it returns, and writes as the dataset [frame],
    the array of the first 100000 pages only; it raises nothing. *)
Theorem C10_single_stack_keeps_100000_frames
    (w : world) (tiff_location mp_file : string) (filename_core : option string)
    (pages : list ndarray) (s : list Z) :
  files w !! tiff_location = Some (ImageFile pages) ->
  dirs w !! mp_file = None ->
  uniform_pages s pages = true ->
  100000 < len pages ->
  let kept := firstn (Z.to_nat 100000) pages in
  let arr := {| shape := 100000 :: s; data := concat (map data kept) |} in
  tiff_to_mp tiff_location mp_file true filename_core w
  = (Ok arr, with_files w (<[mp_file := H5File {[ "frame"%string := arr ]}]> (files w))) /\
  numpy.subarrays arr = Ok kept /\
  len kept = 100000 /\
  len kept < len pages.
Proof.
  intros Hf Hd Hu Hlong kept arr.
  apply uniform_pages_spec in Hu.
  assert (Hkept : length kept = Z.to_nat 100000).
  { unfold kept. apply firstn_length_le. unfold len in Hlong. lia. }
  assert (Hlen : len kept = 100000) by (unfold len; rewrite Hkept; lia).
  assert (Hku : Forall (fun p => shape p = s /\ len (data p) = numpy.prod s) kept).
  { apply List.Forall_forall. intros p Hp. rewrite List.Forall_forall in Hu.
    apply Hu. rewrite <- (firstn_skipn (Z.to_nat 100000) pages).
    apply in_or_app. left. exact Hp. }
  assert (Harr : tifffile.asarray_slice pages 0 100000 = Ok arr).
  { unfold tifffile.asarray_slice. change (Z.to_nat 0) with 0%nat.
    rewrite Nat.sub_0_r, skipn_O. fold kept.
    rewrite (pages_asarray_many kept s).
    - unfold arr. now rewrite Hlen.
    - rewrite Hkept. lia.
    - eapply List.Forall_impl; [|exact Hku]. now intros p [Hp _]. }
  split; [|split; [|split]].
  - unfold tiff_to_mp.
    erewrite bind_Ok; cycle 1.
    { erewrite bind_Ok
        by (unfold tifffile.TiffFile, open_file, bind; rewrite Hf; reflexivity).
      rewrite Harr. reflexivity. }
    erewrite bind_Ok by (unfold h5py.write_dataset; rewrite Hd; reflexivity).
    reflexivity.
  - unfold arr. rewrite <- Hlen. now apply subarrays_stacked.
  - exact Hlen.
  - lia.
Qed.

Lemma C10_single_stack_keeps_100000_frames_witness :
  let kept := firstn (Z.to_nat 100000) long_stack in
  let arr := {| shape := 100000 :: [1; 1]; data := concat (map data kept) |} in
  tiff_to_mp "stack.tif" "movie.mp" true None stack_world
  = (Ok arr, with_files stack_world
               (<["movie.mp"%string := H5File {[ "frame"%string := arr ]}]>
                  (files stack_world))) /\
  numpy.subarrays arr = Ok kept /\
  len kept = 100000 /\
  len kept < len long_stack.
Proof.
  apply (C10_single_stack_keeps_100000_frames stack_world "stack.tif" "movie.mp" None
           long_stack [1; 1]).
  - reflexivity.
  - reflexivity.
  - vm_compute. reflexivity.
  - vm_compute. reflexivity.
Defined.

End Claims.

(** * What the conversions leave alone *)

(** Discharges [declares] on a concrete file by evaluation. *)
Ltac declares_by_computation t :=
  exists t; eexists _, _, _; repeat split; vm_compute; reflexivity.

#[global] Instance unchanged_preorder : PreOrder unchanged.
Proof. split; [intros w; reflexivity|intros a b c H1 H2; unfold unchanged in *; congruence]. Qed.

#[global] Instance same_files_preorder : PreOrder same_files.
Proof. split; [intros w; reflexivity|intros a b c H1 H2; unfold same_files in *; congruence]. Qed.

#[global] Instance same_dirs_preorder : PreOrder same_dirs.
Proof. split; [intros w; reflexivity|intros a b c H1 H2; unfold same_dirs in *; congruence]. Qed.

#[global] Instance same_stdin_preorder : PreOrder same_stdin.
Proof. split; [intros w; reflexivity|intros a b c H1 H2; unfold same_stdin in *; congruence]. Qed.

#[global] Instance same_files_but_preorder (p : string) : PreOrder (same_files_but p).
Proof.
  split; [intros w p' _; reflexivity|].
  intros a b c H1 H2 p' Hp. rewrite (H2 p' Hp). exact (H1 p' Hp).
Qed.

#[global] Instance same_dirs_but_preorder (d : string) : PreOrder (same_dirs_but d).
Proof.
  split; [intros w d' _; reflexivity|].
  intros a b c H1 H2 d' Hd. rewrite (H2 d' Hd). exact (H1 d' Hd).
Qed.

Section Frames.

Context {R : world -> world -> Prop} `{!PreOrder R}.

Lemma preserves_ret {A : Type} (a : A) : preserves R (ret a).
Proof. intros w. reflexivity. Qed.

Lemma preserves_raise {A : Type} (e : exn) : preserves R (@raise A e).
Proof. intros w. reflexivity. Qed.

Lemma preserves_lift {A : Type} (r : result A) : preserves R (lift r).
Proof. intros w. reflexivity. Qed.

Lemma preserves_bind {A B : Type} (c : M A) (k : A -> M B) :
  preserves R c -> (forall a, preserves R (k a)) -> preserves R (bind c k).
Proof.
  intros Hc Hk w. unfold bind. specialize (Hc w).
  destruct (c w) as [[a|e] w1]; cbn [snd] in *; [|exact Hc].
  etransitivity; [exact Hc|apply Hk].
Qed.

Lemma preserves_for_each {A B : Type} (f : A -> M B) (l : list A) :
  (forall x, preserves R (f x)) -> preserves R (for_each f l).
Proof.
  intros Hf. induction l as [|x l IH]; simpl; [apply preserves_ret|].
  apply preserves_bind; [apply Hf|]. intros y.
  apply preserves_bind; [exact IH|]. intros ys. apply preserves_ret.
Qed.

Lemma preserves_for_enumerate {A : Type} (body : Z -> A -> M unit) (i : Z) (l : list A) :
  (forall i x, preserves R (body i x)) -> preserves R (for_enumerate body i l).
Proof.
  intros Hb. revert i. induction l as [|x l IH]; intros i; simpl; [apply preserves_ret|].
  apply preserves_bind; [apply Hb|]. intros _. apply IH.
Qed.

Lemma fails_within_ret {A : Type} (a : A) : fails_within R (ret a).
Proof. intros w e w' H. discriminate. Qed.

Lemma fails_within_raise {A : Type} (e : exn) : fails_within R (@raise A e).
Proof. intros w e' w' H. injection H as _ <-. reflexivity. Qed.

Lemma fails_within_lift {A : Type} (r : result A) : fails_within R (lift r).
Proof. intros w e w' H. injection H as _ <-. reflexivity. Qed.


End Frames.

(** One step through a computation, for [preserves]. *)
Ltac frame_step :=
  match goal with
  | |- preserves _ (bind _ _) => apply preserves_bind; [|intros ?]
  | |- preserves _ (ret _) => apply preserves_ret
  | |- preserves _ (raise _) => apply preserves_raise
  | |- preserves _ (lift _) => apply preserves_lift
  | |- preserves _ (for_each _ _) => apply preserves_for_each; intros ?
  | |- preserves _ (for_enumerate _ _ _) => apply preserves_for_enumerate; intros ? ?
  | |- preserves _ (match ?x with _ => _ end) => destruct x
  end.

(** The calls that touch the world directly. *)
Ltac frame_prim :=
  let w := fresh "w" in
  intros w;
  unfold print, input, os.listdir, os.path_isdir, os.mkdir, open_entry, open_file,
    PIL.save, h5py.write_dataset, nptdms.TdmsWriter_enter, nptdms.write_segment;
  repeat case_match; cbn;
  first [ reflexivity
        | let p := fresh "p" in let Hp := fresh "Hp" in
          intros p Hp; cbn;
          first [reflexivity | rewrite lookup_insert_ne by congruence; reflexivity] ].

Ltac frame := repeat frame_step; try frame_prim.

Section FrameLemmas.

Lemma tdms_to_images_same_files (tdms_filename destination ext : string) (save : bool) :
  preserves same_files (tdms_to_images tdms_filename destination save ext).
Proof.
  unfold tdms_to_images, read_tdms_images, save_images, nptdms.TdmsFile_read.
  frame.
Qed.

Lemma tdms_to_images_same_dirs_but (tdms_filename destination ext : string) (save : bool) :
  preserves (same_dirs_but destination) (tdms_to_images tdms_filename destination save ext).
Proof.
  unfold tdms_to_images, read_tdms_images, save_images, nptdms.TdmsFile_read.
  frame.
Qed.

Lemma tdms_to_images_unsaved_same_dirs (tdms_filename destination ext : string) :
  preserves same_dirs (tdms_to_images tdms_filename destination false ext).
Proof. unfold tdms_to_images, read_tdms_images, nptdms.TdmsFile_read. frame. Qed.

Lemma tdms_to_images_unsaved_same_stdin (tdms_filename destination ext : string) :
  preserves same_stdin (tdms_to_images tdms_filename destination false ext).
Proof. unfold tdms_to_images, read_tdms_images, nptdms.TdmsFile_read. frame. Qed.

(** X1: whatever its arguments and the world, [tdms_to_images] changes no
    container file and no directory but [destination]; with [save = False]
    it changes no directory at all and takes no console input. *)
Theorem tdms_to_images_touches_destination_only
    (tdms_filename destination ext : string) (save : bool) (w : world) :
  let w' := snd (tdms_to_images tdms_filename destination save ext w) in
  files w' = files w /\
  (forall d, d <> destination -> dirs w' !! d = dirs w !! d) /\
  (save = false -> dirs w' = dirs w /\ stdin w' = stdin w).
Proof.
  intros w'. split; [|split].
  - apply tdms_to_images_same_files.
  - apply tdms_to_images_same_dirs_but.
  - intros ->. split.
    + apply tdms_to_images_unsaved_same_dirs.
    + apply tdms_to_images_unsaved_same_stdin.
Qed.

Lemma read_image_files_preserves (R : world -> world -> Prop) `{!PreOrder R}
    (imagepath ext : string) :
  (forall l, preserves R (print l)) ->
  preserves R (read_image_files imagepath ext).
Proof.
  intros Hprint. unfold read_image_files, imageio.imread.
  repeat frame_step; try apply Hprint; frame_prim.
Qed.

Lemma print_prints_only (l : list atom) :
  preserves same_files (print l) /\ preserves same_dirs (print l) /\
  preserves same_stdin (print l).
Proof. repeat split. Qed.












End FrameLemmas.

Section Numerals.

Lemma all_digits_uint (d : Decimal.uint) :
  py.all_digits (NilEmpty.string_of_uint d) = true.
Proof. induction d; simpl; auto. Qed.

Lemma digits_value_uint_acc (d : Decimal.uint) (acc : positive) :
  py.digits_value (Zpos acc) (NilEmpty.string_of_uint d) = Zpos (Pos.of_uint_acc d acc).
Proof.
  revert acc.
  induction d; intros acc; cbn [NilEmpty.string_of_uint py.digits_value Pos.of_uint_acc];
    [reflexivity|..];
    rewrite <- IHd; f_equal;
    match goal with
    | |- context [Z.of_nat (nat_of_ascii ?c)] =>
        let v := eval vm_compute in (Z.of_nat (nat_of_ascii c)) in
        change (Z.of_nat (nat_of_ascii c)) with v
    end; lia.
Qed.

Lemma digits_value_uint (d : Decimal.uint) :
  py.digits_value 0 (NilEmpty.string_of_uint d) = Z.of_N (Pos.of_uint d).
Proof.
  induction d; cbn [NilEmpty.string_of_uint py.digits_value Pos.of_uint];
    [reflexivity|exact IHd|..]; apply digits_value_uint_acc.
Qed.

Lemma str_numeral (i : Z) : 0 <= i -> numeral i (py.str i).
Proof.
  intros Hi. unfold numeral, py.str.
  pose proof (DecimalZ.of_to i) as Hof.
  destruct i as [|p|p]; [repeat split; discriminate| |lia].
  cbn [Z.to_int NilZero.string_of_int] in *.
  assert (Hs : NilZero.string_of_uint (Pos.to_uint p) = NilEmpty.string_of_uint (Pos.to_uint p)).
  { unfold NilZero.string_of_uint. destruct (Pos.to_uint p) eqn:E; try reflexivity.
    exfalso. exact (DecimalPos.Unsigned.to_uint_nonnil p E). }
  rewrite Hs. split; [apply all_digits_uint|]. split.
  - pose proof (DecimalPos.Unsigned.to_uint_nonnil p) as Hnn.
    destruct (Pos.to_uint p); first [discriminate | congruence].
  - rewrite digits_value_uint. exact Hof.
Qed.

Lemma all_digits_app (s t : string) :
  py.all_digits (s +:+ t) = (py.all_digits s && py.all_digits t)%bool.
Proof. induction s as [|c s IH]; simpl; [reflexivity|]. now rewrite IH, andb_assoc. Qed.

Lemma digits_value_app (acc : Z) (s t : string) :
  py.digits_value acc (s +:+ t) = py.digits_value (py.digits_value acc s) t.
Proof. revert acc. induction s as [|c s IH]; intros acc; simpl; [reflexivity|apply IH]. Qed.

Lemma all_digits_zeros (n : nat) : py.all_digits (py.zeros n) = true.
Proof. induction n as [|n IH]; simpl; [reflexivity|exact IH]. Qed.

Lemma digits_value_zeros (n : nat) : py.digits_value 0 (py.zeros n) = 0.
Proof. induction n as [|n IH]; simpl; [reflexivity|exact IH]. Qed.

(** Zeros on the left do not change the number. *)
Lemma numeral_zeros (i : Z) (s : string) (n : nat) :
  numeral i s -> numeral i (py.zeros n +:+ s).
Proof.
  intros (Hd & Hne & Hv). repeat split.
  - now rewrite all_digits_app, all_digits_zeros, Hd.
  - destruct n; simpl; [exact Hne|discriminate].
  - now rewrite digits_value_app, digits_value_zeros.
Qed.

Lemma zfill_numeral (i : Z) (s : string) (width : nat) :
  numeral i s -> numeral i (py.zfill width s).
Proof.
  intros Hn. pose proof Hn as (Hd & Hne & _). unfold py.zfill.
  destruct s as [|c r]; [congruence|].
  simpl in Hd. apply andb_prop in Hd as [Hc _].
  assert ((Ascii.eqb c "+" || Ascii.eqb c "-")%bool = false) as ->.
  { destruct (Ascii.eqb_spec c "+") as [->|_]; [discriminate|].
    destruct (Ascii.eqb_spec c "-") as [->|_]; [discriminate|reflexivity]. }
  now apply numeral_zeros.
Qed.

Lemma padded_numeral (i : Z) : 0 <= i -> numeral i (padded i).
Proof. intros Hi. apply zfill_numeral, str_numeral, Hi. Qed.

Lemma append_length (s t : string) :
  String.length (s +:+ t) = (String.length s + String.length t)%nat.
Proof. induction s as [|c s IH]; simpl; [reflexivity|now rewrite IH]. Qed.

Lemma append_inj_l (s t e : string) : s +:+ e = t +:+ e -> s = t.
Proof.
  intros H.
  assert (Hlen : String.length s = String.length t).
  { apply (f_equal String.length) in H. rewrite !append_length in H. lia. }
  revert t H Hlen. induction s as [|c s IH]; intros [|d t] H Hlen; try discriminate.
  - reflexivity.
  - simpl in H. injection H as -> H. f_equal. apply IH; [exact H|]. simpl in Hlen. lia.
Qed.

Lemma numeral_inj (i j : Z) (s : string) : numeral i s -> numeral j s -> i = j.
Proof. intros (_ & _ & <-) (_ & _ & <-). reflexivity. Qed.

(** Exported names differ whenever the indices do. *)
Lemma k_file_tag_inj_any (ext : string) (i j : Z) :
  0 <= i -> 0 <= j -> k_file_tag i ext = k_file_tag j ext -> i = j.
Proof.
  intros Hi Hj E. unfold k_file_tag in E.
  change (String "f" (String "r" (String "a" (String "m" (String "e" (padded i +:+ ext)))))
          = String "f" (String "r" (String "a" (String "m" (String "e" (padded j +:+ ext))))))
    in E.
  injection E as E. apply append_inj_l in E.
  apply (numeral_inj i j (padded i)); [now apply padded_numeral|].
  rewrite E. now apply padded_numeral.
Qed.

End Numerals.

(** * The natural order of numbered names *)

Section NaturalOrder.

Lemma str_app_cons (c : ascii) (s t : string) : String c s +:+ t = String c (s +:+ t).
Proof. reflexivity. Qed.

Lemma str_app_nil_r (s : string) : s +:+ EmptyString = s.
Proof. induction s as [|c s IH]; [reflexivity|]. now rewrite str_app_cons, IH. Qed.

Lemma str_app_assoc (s t u : string) : (s +:+ t) +:+ u = s +:+ t +:+ u.
Proof. induction s as [|c s IH]; [reflexivity|]. now rewrite !str_app_cons, IH. Qed.

(** Text before the number is gathered into the first element of the
    key. *)
Lemma split_key_text (pre txt s : string) :
  no_digit pre = true ->
  natural.split_key txt None (pre +:+ s) = natural.split_key (txt +:+ pre) None s.
Proof.
  revert txt. induction pre as [|c pre IH]; intros txt Hpre.
  - now rewrite str_app_nil_r.
  - simpl in Hpre. apply andb_prop in Hpre as [Hc Hpre].
    apply negb_true_iff in Hc.
    rewrite str_app_cons. cbn [natural.split_key]. rewrite Hc, IH by exact Hpre.
    now rewrite str_app_assoc.
Qed.

(** A run of digits is read as its number. *)
Lemma split_key_digits (n : Z) (s rest : string) :
  py.all_digits s = true ->
  natural.split_key EmptyString (Some n) (s +:+ rest)
  = natural.split_key EmptyString (Some (py.digits_value n s)) rest.
Proof.
  revert n. induction s as [|c s IH]; intros n Hs; [reflexivity|].
  simpl in Hs. apply andb_prop in Hs as [Hc Hs].
  rewrite str_app_cons. cbn [natural.split_key py.digits_value]. rewrite Hc. now apply IH.
Qed.

Lemma split_key_number (txt s rest : string) (i : Z) :
  numeral i s ->
  natural.split_key txt None (s +:+ rest)
  = inl txt :: natural.split_key EmptyString (Some i) rest.
Proof.
  intros (Hd & Hne & Hv). destruct s as [|c s]; [congruence|].
  simpl in Hd. apply andb_prop in Hd as [Hc Hs].
  rewrite str_app_cons. cbn [natural.split_key]. rewrite Hc.
  rewrite split_key_digits by exact Hs. rewrite <- Hv. reflexivity.
Qed.

Lemma split_key_after (n : Z) (ext : string) :
  text_first ext = true ->
  natural.split_key EmptyString (Some n) ext = inr n :: tail_key ext.
Proof.
  destruct ext as [|c r]; simpl; [reflexivity|].
  intros Hc. apply negb_true_iff in Hc. now rewrite Hc.
Qed.

(** The key of a numbered name: the text before the number, the number,
    and what the extension gives. *)
Lemma key_numbered (pre s ext : string) (i : Z) :
  no_digit pre = true -> numeral i s -> text_first ext = true ->
  natural.key (pre +:+ s +:+ ext) = inl pre :: inr i :: tail_key ext.
Proof.
  intros Hpre Hs Hext. unfold natural.key.
  rewrite split_key_text by exact Hpre.
  change (EmptyString +:+ pre) with pre.
  rewrite (split_key_number _ _ _ i Hs).
  now rewrite split_key_after.
Qed.

Lemma compare_refl (s : string) : String.compare s s = Eq.
Proof.
  pose proof (String.compare_antisym s s) as H.
  destruct (String.compare s s); [reflexivity|discriminate..].
Qed.

Lemma key_compare_refl (k : list (string + Z)) : natural.key_compare k k = Eq.
Proof.
  induction k as [|[s|n] k IH]; simpl; [reflexivity| |].
  - rewrite compare_refl. exact IH.
  - rewrite Z.compare_refl. exact IH.
Qed.

(** Numbered names compare as their numbers do. *)
Lemma leb_numbered (pre s t ext : string) (i j : Z) :
  no_digit pre = true -> text_first ext = true ->
  numeral i s -> numeral j t ->
  natural.leb (pre +:+ s +:+ ext) (pre +:+ t +:+ ext) = (i <=? j).
Proof.
  intros Hpre Hext Hs Ht. unfold natural.leb.
  rewrite (key_numbered pre s ext i), (key_numbered pre t ext j) by assumption.
  cbn [natural.key_compare].
  rewrite compare_refl.
  destruct (Z.compare_spec i j) as [->|Hlt|Hgt].
  - rewrite key_compare_refl. symmetry. apply Z.leb_le. lia.
  - symmetry. apply Z.leb_le. lia.
  - symmetry. apply Z.leb_gt. lia.
Qed.

Lemma k_file_tag_leb (ext : string) (i j : Z) :
  text_first ext = true -> 0 <= i -> 0 <= j ->
  natural.leb (k_file_tag i ext) (k_file_tag j ext) = (i <=? j).
Proof.
  intros Hext Hi Hj.
  apply (leb_numbered "frame" (padded i) (padded j));
    [reflexivity|exact Hext|now apply padded_numeral..].
Qed.

Lemma plain_file_tag_leb (ext : string) (i j : Z) :
  text_first ext = true -> 0 <= i -> 0 <= j ->
  natural.leb (plain_file_tag i ext) (plain_file_tag j ext) = (i <=? j).
Proof.
  intros Hext Hi Hj.
  apply (leb_numbered "frame" (py.str i) (py.str j));
    [reflexivity|exact Hext|now apply str_numeral..].
Qed.

End NaturalOrder.

(** * Sorting numbered names in natural order *)

Section NaturalSorting.

(** Two sorted arrangements of the same elements are the same list. *)
Lemma sorted_unique_by {A : Type} (R : A -> A -> Prop) (l1 l2 : list A) :
  (forall a b, R a b -> R b a -> a = b) ->
  StronglySorted R l1 -> StronglySorted R l2 -> Permutation l1 l2 -> l1 = l2.
Proof.
  intros Hanti H1. revert l2. induction H1 as [|a l1 Hl1 IH Ha]; intros l2 H2 HP.
  - apply Permutation_nil in HP. now subst.
  - destruct H2 as [|b l2 Hl2 Hb].
    + symmetry in HP. apply Permutation_nil in HP. discriminate.
    + assert (a = b) as ->.
      { assert (Hin1 : In a (b :: l2)) by (eapply Permutation_in; [exact HP|now left]).
        assert (Hin2 : In b (a :: l1)) by (eapply Permutation_in; [symmetry; exact HP|now left]).
        destruct Hin1 as [->|Hin1]; [reflexivity|].
        destruct Hin2 as [->|Hin2]; [reflexivity|].
        rewrite List.Forall_forall in Ha, Hb.
        apply Hanti; [apply Ha, Hin2|apply Hb, Hin1]. }
      f_equal. apply IH; [exact Hl2|]. eapply Permutation_cons_inv; exact HP.
Qed.

Variable name : Z -> string.
Hypothesis name_leb :
  forall i j, 0 <= i -> 0 <= j -> natural.leb (name i) (name j) = (i <=? j).

Lemma name_inj (i j : Z) : 0 <= i -> 0 <= j -> name i = name j -> i = j.
Proof.
  intros Hi Hj E.
  pose proof (name_leb i j Hi Hj) as H1. pose proof (name_leb j i Hj Hi) as H2.
  rewrite E in H1, H2. rewrite (name_leb j j Hj Hj) in H1, H2.
  assert ((j <=? j) = true) as Hjj by (apply Z.leb_le; lia).
  rewrite Hjj in *. symmetry in H1, H2. apply Z.leb_le in H1, H2. lia.
Qed.

Lemma in_index_order_trans (a b c : string) :
  in_index_order name a b -> in_index_order name b c -> in_index_order name a c.
Proof.
  intros (i & j & Hij & -> & ->) (j' & k & Hjk & E & ->).
  apply name_inj in E; [|lia..]. subst j'.
  exists i, k. repeat split; lia.
Qed.

Lemma in_index_order_antisym (a b : string) :
  in_index_order name a b -> in_index_order name b a -> a = b.
Proof.
  intros (i & j & Hij & -> & ->) (j' & i' & Hji & Ej & Ei).
  apply name_inj in Ej; [|lia..]. apply name_inj in Ei; [|lia..].
  f_equal. lia.
Qed.

Lemma natural_insert_perm (x : string) (l : list string) :
  Permutation (natural.insert_sorted x l) (x :: l).
Proof.
  induction l as [|y l IH]; simpl; [reflexivity|].
  destruct (natural.leb x y); [reflexivity|].
  rewrite IH. apply perm_swap.
Qed.

Lemma natural_sorted_perm (l : list string) : Permutation (natural.sorted l) l.
Proof.
  induction l as [|x l IH]; simpl; [reflexivity|].
  rewrite natural_insert_perm. now constructor.
Qed.

Lemma natural_insert_sorted (x : string) (l : list string) :
  (exists i, 0 <= i /\ x = name i) ->
  StronglySorted (in_index_order name) l ->
  Forall (fun y => exists j, 0 <= j /\ y = name j) l ->
  StronglySorted (in_index_order name) (natural.insert_sorted x l).
Proof.
  intros (i & Hi & ->) Hs Hall.
  induction Hs as [|y l Hl IH Hy]; simpl.
  - repeat constructor.
  - inversion Hall as [|? ? (j & Hj & ->) Hall']; subst.
    rewrite name_leb by assumption.
    destruct (i <=? j) eqn:E.
    + apply Z.leb_le in E. constructor; [now constructor|].
      constructor; [exists i, j; repeat split; lia|].
      eapply List.Forall_impl; [|exact Hy]. intros z Hz.
      apply (in_index_order_trans _ (name j)); [exists i, j; repeat split; lia|exact Hz].
    + apply Z.leb_gt in E. constructor; [now apply IH|].
      eapply Permutation_Forall; [symmetry; apply natural_insert_perm|].
      constructor; [exists j, i; repeat split; lia|exact Hy].
Qed.

Lemma natural_sorted_sorted (l : list string) :
  Forall (fun y => exists j, 0 <= j /\ y = name j) l ->
  StronglySorted (in_index_order name) (natural.sorted l).
Proof.
  induction 1 as [|x l Hx Hl IH]; simpl; [constructor|].
  apply natural_insert_sorted; [exact Hx|exact IH|].
  eapply Permutation_Forall; [symmetry; apply natural_sorted_perm|exact Hl].
Qed.

Lemma numbered_files_names (frames : list ndarray) (i : Z) :
  0 <= i ->
  StronglySorted (in_index_order name) (map fst (numbered_files name frames i)) /\
  Forall (fun y => exists j, 0 <= j /\ y = name j) (map fst (numbered_files name frames i)).
Proof.
  revert i. induction frames as [|f frames IH]; intros i Hi; simpl; [split; constructor|].
  destruct (IH (i + 1) ltac:(lia)) as [IHs IHa].
  split; constructor; try assumption; [|exists i; split; [lia|reflexivity]].
  apply List.Forall_forall. intros n Hin.
  apply in_map_iff in Hin as [[n' g] [<- Hin]].
  apply in_map_iff in Hin as [[k x] [E Hin]]. inversion E; subst. simpl.
  apply enumerate_In in Hin. exists i, k. repeat split; lia.
Qed.

(** Sorted in natural order, any arrangement of the names of a numbered
    sequence is the sequence of names in index order. *)
Lemma natural_sorted_numbered (frames : list ndarray) (l : list string) :
  Permutation l (map fst (numbered_files name frames 0)) ->
  natural.sorted l = map fst (numbered_files name frames 0).
Proof.
  intros HP. destruct (numbered_files_names frames 0 ltac:(lia)) as [Hs Ha].
  apply (sorted_unique_by (in_index_order name)).
  - apply in_index_order_antisym.
  - apply natural_sorted_sorted. eapply Permutation_Forall; [symmetry; exact HP|exact Ha].
  - exact Hs.
  - rewrite natural_sorted_perm. exact HP.
Qed.

Lemma numbered_files_NoDup (frames : list ndarray) (i : Z) :
  0 <= i -> List.NoDup (map fst (numbered_files name frames i)).
Proof.
  revert i. induction frames as [|f frames IH]; intros i Hi; simpl; constructor.
  - intros Hin. apply in_map_iff in Hin as [[n' g] [E Hin]].
    apply in_map_iff in Hin as [[k x] [E' Hin]]. inversion E'; subst. simpl in E.
    apply enumerate_In in Hin. apply name_inj in E; lia.
  - apply IH. lia.
Qed.

(** Each name of the sequence leads to its frame, however the directory
    is arranged. *)
Lemma numbered_files_entry (frames : list ndarray) (i : Z) (l : list (string * file)) :
  0 <= i ->
  Permutation (numbered_files name frames i) l ->
  Forall2 (fun n f => exists rest, entry n l = Some (ImageFile (f :: rest)))
          (map fst (numbered_files name frames i)) frames.
Proof.
  intros Hi HP.
  assert (Hnd : List.NoDup (map fst l)).
  { eapply Permutation_NoDup; [apply Permutation_map; exact HP|].
    now apply numbered_files_NoDup. }
  assert (Hall : forall n f, In (n, ImageFile [f]) (numbered_files name frames i) ->
                             entry n l = Some (ImageFile [f])).
  { intros n f Hin. apply entry_In; [exact Hnd|].
    eapply Permutation_in; [exact HP|exact Hin]. }
  clear HP Hnd Hi. revert i Hall.
  induction frames as [|f frames IH]; intros i Hall; simpl; constructor.
  - exists []. apply Hall. now left.
  - apply (IH (i + 1)). intros n g Hin. apply Hall. now right.
Qed.

End NaturalSorting.

(** * Folding a channel into frames *)

Section Folding.

Lemma chunks_concat (n k : nat) (l : list pixel) :
  length l = (n * k)%nat -> concat (numpy.chunks n k l) = l.
Proof.
  revert l. induction n as [|n IH]; intros l Hl; simpl.
  - destruct l; [reflexivity|discriminate].
  - rewrite IH by (rewrite length_skipn; lia). apply firstn_skipn.
Qed.

Lemma chunks_lengths (n k : nat) (l : list pixel) :
  length l = (n * k)%nat -> Forall (fun c => length c = k) (numpy.chunks n k l).
Proof.
  revert l. induction n as [|n IH]; intros l Hl; simpl; constructor.
  - rewrite length_firstn. lia.
  - apply IH. rewrite length_skipn. lia.
Qed.

(** The array [tdms_to_images] returns is made of the folded frames. *)
Lemma folded_spec (raw : list pixel) (N H W : Z) :
  0 < H -> 0 < W -> 0 <= N -> len raw = N * (H * W) ->
  numpy.subarrays {| shape := [N; H; W]; data := raw |} = Ok (folded raw N H W) /\
  len (folded raw N H W) = N /\
  Forall (fun b => shape b = [H; W] /\ len (data b) = H * W) (folded raw N H W) /\
  concat (map data (folded raw N H W)) = raw.
Proof.
  intros HH HW HN Hlen. unfold folded.
  assert (Hk : numpy.prod [H; W] = H * W) by (cbn; lia).
  assert (Hl : length raw = (Z.to_nat N * Z.to_nat (numpy.prod [H; W]))%nat).
  { rewrite Hk. unfold len in Hlen. nia. }
  split; [reflexivity|]. split; [|split].
  - unfold len. rewrite length_map, chunks_length. lia.
  - apply Forall_map. eapply List.Forall_impl; [|apply chunks_lengths; exact Hl].
    intros c Hc. cbn [shape data]. split; [reflexivity|].
    unfold len. rewrite Hc, Hk. lia.
  - rewrite map_map. cbn [data]. rewrite map_id. now apply chunks_concat.
Qed.

Lemma flat_map_concat (cast : pixel -> pixel) (frames : list ndarray) :
  flat cast frames = map cast (concat (map data frames)).
Proof.
  unfold flat. induction frames as [|b frames IH]; simpl; [reflexivity|].
  now rewrite map_app, IH.
Qed.

End Folding.

(** * Exported directories *)

Section Exported.

Lemma frame_files_numbered (ext : string) (frames : list ndarray) (i : Z) :
  frame_files ext frames i = numbered_files (fun k => k_file_tag k ext) frames i.
Proof. reflexivity. Qed.

(** Saving frames does not touch an entry of another name. *)
Lemma exported_head (ext : string) (frames : list ndarray) (i : Z)
    (x : string * file) (content : list (string * file)) :
  (forall k, i <= k < i + len frames -> fst x <> k_file_tag k ext) ->
  exported ext frames i (x :: content) = x :: exported ext frames i content.
Proof.
  revert i content. induction frames as [|f frames IH]; intros i content Hx; [reflexivity|].
  unfold len in *. simpl length in Hx. rewrite !exported_cons.
  destruct x as [n g]. cbn [write_entry].
  assert (String.eqb n (k_file_tag i ext) = false) as ->.
  { apply String.eqb_neq. apply (Hx i). lia. }
  apply IH. intros k Hk. apply Hx. lia.
Qed.

Lemma exported_fresh_any (ext : string) (frames : list ndarray) (i : Z)
    (content : list (string * file)) :
  0 <= i ->
  (forall k, i <= k < i + len frames -> entry (k_file_tag k ext) content = None) ->
  exported ext frames i content = content ++ frame_files ext frames i.
Proof.
  revert i content. induction frames as [|f frames IH]; intros i content Hi Hfresh.
  - unfold exported, frame_files. simpl. now rewrite app_nil_r.
  - unfold len in *. simpl length in *. rewrite exported_cons.
    rewrite write_entry_fresh by (apply Hfresh; lia).
    rewrite IH; [|lia|].
    + unfold frame_files. simpl. now rewrite <- app_assoc.
    + intros k Hk. rewrite entry_app, Hfresh by lia.
      cbn [entry].
      destruct (String.eqb (k_file_tag i ext) (k_file_tag k ext)) eqn:E; [|reflexivity].
      apply String.eqb_eq, k_file_tag_inj_any in E; lia.
Qed.

(** Saved over the frames of an earlier export, the new frames replace
    the first files and the later files stay. *)
Lemma exported_over (ext : string) (frames old : list ndarray) (i : Z) :
  0 <= i -> (length frames <= length old)%nat ->
  exported ext frames i (frame_files ext old i)
  = frame_files ext (frames ++ skipn (length frames) old) i.
Proof.
  revert old i. induction frames as [|f frames IH]; intros old i Hi Hlen; [reflexivity|].
  destruct old as [|o old]; [simpl in Hlen; lia|].
  rewrite exported_cons. unfold frame_files at 1. cbn [enumerate map fst snd write_entry].
  rewrite String.eqb_refl.
  change (map _ (enumerate (i + 1) old)) with (frame_files ext old (i + 1)).
  rewrite exported_head.
  - rewrite IH by (simpl in Hlen; lia). reflexivity.
  - intros k Hk E. cbn [fst] in E. apply k_file_tag_inj_any in E; lia.
Qed.

Lemma save_images_fresh_any (w : world) (arr : ndarray) (frames : list ndarray)
    (destination ext : string) :
  fresh_directory w destination ->
  numpy.subarrays arr = Ok frames ->
  save_images arr destination ext w
  = (Ok tt, with_dirs w (<[destination := frame_files ext frames 0]> (dirs w))).
Proof.
  intros Hfresh Hsub.
  rewrite (save_images_unasked w arr frames) by assumption.
  rewrite exported_fresh_any; [reflexivity|lia|reflexivity].
Qed.

(** The export of a channel into a fresh directory, whatever the number
    of frames. *)
Lemma tdms_to_images_fresh (w : world) (path destination ext : string)
    (raw : list pixel) (N H W : Z) :
  declares w path raw H W ->
  0 < H -> 0 < W -> 0 <= N -> len raw = N * (H * W) ->
  fresh_directory w destination ->
  let w0 := with_stdout w (stdout w ++ [found_frames N]) in
  tdms_to_images path destination true ext w
  = (Ok {| shape := [N; H; W]; data := raw |},
     with_dirs w0 (<[destination := frame_files ext (folded raw N H W) 0]> (dirs w0))).
Proof.
  intros Hdecl HH HW HN Hlen Hfresh w0. unfold tdms_to_images.
  erewrite bind_Ok by (apply (read_tdms_images_ok w path raw N H W); assumption).
  erewrite bind_Ok; [reflexivity|].
  apply save_images_fresh_any; [exact Hfresh|].
  now apply folded_spec.
Qed.

Lemma is_suffix_refl (s : string) : glob.is_suffix s s = true.
Proof. destruct s; cbn [glob.is_suffix]; rewrite String.eqb_refl; reflexivity. Qed.

Lemma is_suffix_app (pre ext : string) : glob.is_suffix ext (pre +:+ ext) = true.
Proof.
  induction pre as [|c pre IH]; [apply is_suffix_refl|].
  rewrite str_app_cons. cbn [glob.is_suffix]. rewrite IH. apply orb_true_r.
Qed.

Lemma prefix_frame (x : string) :
  String.prefix "frame"
    (String "f" (String "r" (String "a" (String "m" (String "e" x))))) = true.
Proof. destruct x; reflexivity. Qed.

(** The names of exported frames match the pattern [frame*ext]. *)
Lemma matches_k_file_tag (ext : string) (i : Z) :
  glob.matches "frame" ext (k_file_tag i ext) = true.
Proof.
  unfold glob.matches, k_file_tag.
  change ("frame" +:+ py.zfill 5 (py.str i) +:+ ext)
    with (String "f" (String "r" (String "a" (String "m" (String "e"
            (py.zfill 5 (py.str i) +:+ ext)))))).
  cbn [String.length glob.drop glob.hidden].
  rewrite is_suffix_app, prefix_frame. reflexivity.
Qed.

Lemma matches_plain_file_tag (ext : string) (i : Z) :
  glob.matches "frame" ext (plain_file_tag i ext) = true.
Proof.
  unfold glob.matches, plain_file_tag.
  change ("frame" +:+ py.str i +:+ ext)
    with (String "f" (String "r" (String "a" (String "m" (String "e"
            (py.str i +:+ ext)))))).
  cbn [String.length glob.drop glob.hidden].
  rewrite is_suffix_app, prefix_frame. reflexivity.
Qed.

End Exported.

(** * Loading a numbered sequence in natural order *)

Section NaturalLoading.

Variable name : Z -> string.
Variable core ext : string.
Hypothesis name_leb :
  forall i j, 0 <= i -> 0 <= j -> natural.leb (name i) (name j) = (i <=? j).
Hypothesis name_matches : forall i, glob.matches core ext (name i) = true.

Lemma found_numbered (frames : list ndarray) (l : list (string * file)) :
  Permutation (numbered_files name frames 0) l ->
  natural.sorted (List.filter (glob.matches core ext) (map fst l))
  = map fst (numbered_files name frames 0).
Proof.
  intros HP.
  assert (Hnames : Permutation (map fst l) (map fst (numbered_files name frames 0)))
    by (apply Permutation_map; symmetry; exact HP).
  rewrite filter_all.
  - now apply natural_sorted_numbered.
  - eapply Permutation_Forall; [symmetry; exact Hnames|].
    apply List.Forall_forall. intros n Hn.
    apply in_map_iff in Hn as [[n' g] [<- Hn]].
    apply in_map_iff in Hn as [[k x] [E _]]. injection E as <- _. apply name_matches.
Qed.

(** [load_images] reads a numbered sequence in the order of its numbers,
    however the directory is arranged. *)
Lemma load_images_numbered (w : world) (d : string) (frames : list ndarray)
    (l : list (string * file)) :
  dirs w !! d = Some l ->
  Permutation (numbered_files name frames 0) l ->
  frames <> [] ->
  load_images d core ext w = (Ok frames, w).
Proof.
  intros Hd HP Hne. unfold load_images, pims.ImageSequence.
  erewrite bind_Ok by (unfold os.listdir; rewrite Hd; reflexivity).
  rewrite (found_numbered frames l HP).
  destruct frames as [|f frames]; [congruence|].
  cbn [numbered_files enumerate map fst].
  eapply for_each_imread; [exact Hd|].
  exact (numbered_files_entry name name_leb (f :: frames) 0 l ltac:(lia) HP).
Qed.

End NaturalLoading.

(** * Loading a numbered sequence in the order of [sorted] *)

Section LexicalLoading.

Variable name : Z -> string.
Variable bound : Z.
Variable ext' : string.
Hypothesis ascending : forall i j, 0 <= i -> i < j -> j < bound -> slt (name i) (name j).
Hypothesis wraps : 0 < bound /\ slt (name bound) (name (bound - 1)).
Hypothesis name_found : forall i, re.search ext' (name i) = true.

Lemma enumerate_app {A : Type} (l1 l2 : list A) (i : Z) :
  enumerate i (l1 ++ l2) = enumerate i l1 ++ enumerate (i + len l1) l2.
Proof.
  revert i. induction l1 as [|x l1 IH]; intros i; simpl.
  - unfold len. simpl. now rewrite Z.add_0_r.
  - rewrite IH. do 3 f_equal. unfold len. simpl length. lia.
Qed.

Lemma numbered_sorted (frames : list ndarray) (i : Z) :
  0 <= i -> i + len frames <= bound ->
  StronglySorted slt (map fst (numbered_files name frames i)).
Proof.
  revert i. induction frames as [|f frames IH]; intros i Hi Hn; simpl; [constructor|].
  unfold len in *. simpl length in Hn.
  constructor; [apply IH; lia|].
  apply List.Forall_forall. intros n Hin.
  apply in_map_iff in Hin as [[n' g] [<- Hin]].
  apply in_map_iff in Hin as [[k x] [E Hin]]. inversion E; subst. simpl.
  apply enumerate_In in Hin. unfold len in Hin. apply ascending; lia.
Qed.

Lemma StronglySorted_app_r {A : Type} (R : A -> A -> Prop) (l1 l2 : list A) :
  StronglySorted R (l1 ++ l2) -> StronglySorted R l2.
Proof.
  induction l1 as [|x l1 IH]; simpl; [auto|].
  intros H. inversion H; subst. now apply IH.
Qed.

(** Past the bound the names no longer ascend. *)
Lemma numbered_unsorted (frames : list ndarray) :
  bound < len frames -> ~ StronglySorted sle (map fst (numbered_files name frames 0)).
Proof.
  intros Hlong Hs. destruct wraps as [Hb Hw].
  set (k := Z.to_nat (bound - 1)).
  assert (Hk : (S k < length frames)%nat) by (unfold len in Hlong; lia).
  rewrite <- (firstn_skipn k frames) in Hs.
  unfold numbered_files in Hs. rewrite enumerate_app, !map_app in Hs.
  apply StronglySorted_app_r in Hs.
  assert (Hlen1 : len (firstn k frames) = bound - 1).
  { unfold len. rewrite length_firstn. lia. }
  rewrite Hlen1 in Hs.
  destruct (skipn k frames) as [|a [|b rest]] eqn:E.
  - apply (f_equal (@length _)) in E. rewrite length_skipn in E. simpl in E. lia.
  - apply (f_equal (@length _)) in E. rewrite length_skipn in E. simpl in E. lia.
  - simpl in Hs. inversion Hs as [|? ? _ Hall]; subst.
    inversion Hall as [|? ? Hle _]; subst. cbn [fst] in Hle.
    replace (0 + (bound - 1) + 1) with bound in Hle by lia.
    replace (0 + (bound - 1)) with (bound - 1) in Hle by lia.
    apply sle_cases in Hle as [Heq|Hlt].
    + rewrite Heq in Hw. exact (slt_irrefl _ Hw).
    + exact (slt_irrefl _ (slt_trans _ _ _ Hlt Hw)).
Qed.

(** What the loader returns when it returns: the sorted matching names. *)
Lemma read_image_files_names (d ext : string) (w w' : world)
    (names : list string) (images : list ndarray) (l : list (string * file)) :
  dirs w !! d = Some l ->
  read_image_files d ext w = (Ok (names, images), w') ->
  names = py.sorted (List.filter (re.search ext) (map fst l)).
Proof.
  intros Hd. unfold read_image_files.
  erewrite bind_Ok by (unfold os.listdir; rewrite Hd; reflexivity).
  erewrite bind_Ok by reflexivity.
  unfold bind at 1.
  destruct (for_each _ _ _) as [[ims|e] w1]; [|discriminate].
  unfold ret. intros H. now injection H as <- _ _.
Qed.

(** The loader of [convert_images_to_tdms] reads a numbered sequence in
    the order of its numbers exactly when the sequence stays within the
    bound. *)
Lemma read_numbered_iff (w : world) (d : string) (frames : list ndarray)
    (l : list (string * file)) :
  dirs w !! d = Some l ->
  Permutation (numbered_files name frames 0) l ->
  fst (read_image_files d ext' w) = Ok (map fst (numbered_files name frames 0), frames)
  <-> len frames <= bound.
Proof.
  intros Hd HP.
  assert (Hnames : Permutation (map fst l) (map fst (numbered_files name frames 0)))
    by (apply Permutation_map; symmetry; exact HP).
  assert (Hfilter : List.filter (re.search ext') (map fst l) = map fst l).
  { apply filter_all. eapply Permutation_Forall; [symmetry; exact Hnames|].
    apply List.Forall_forall. intros n Hn.
    apply in_map_iff in Hn as [[n' g] [<- Hn]].
    apply in_map_iff in Hn as [[k x] [E _]]. injection E as <- _. apply name_found. }
  split.
  - intros Hrun. destruct (Z_le_gt_dec (len frames) bound) as [|Hlong]; [assumption|].
    exfalso. apply (numbered_unsorted frames); [lia|].
    destruct (read_image_files d ext' w) as [[[names images]|e] w'] eqn:E; [|discriminate].
    cbn [fst] in Hrun. injection Hrun as Hn _.
    apply (read_image_files_names d ext' w w' names images l Hd) in E.
    rewrite <- Hn, E. apply sorted_sorted.
  - intros Hn.
    assert (Hsorted : StronglySorted slt (map fst (numbered_files name frames 0)))
      by (apply numbered_sorted; lia).
    assert (Hs : py.sorted (map fst l) = map fst (numbered_files name frames 0))
      by (apply sorted_of_perm; [now apply slt_sorted_sle|exact Hnames]).
    erewrite read_image_files_ok; [|exact Hd|].
    + cbn [fst]. now rewrite Hfilter, Hs.
    + rewrite Hfilter, Hs.
      assert (Hnd : List.NoDup (map fst l)).
      { eapply Permutation_NoDup; [symmetry; exact Hnames|].
        now apply slt_sorted_NoDup. }
      assert (Hall : forall n f, In (n, ImageFile [f]) (numbered_files name frames 0) ->
                                 entry n l = Some (ImageFile [f])).
      { intros n f Hin. apply entry_In; [exact Hnd|].
        eapply Permutation_in; [exact HP|exact Hin]. }
      clear -Hall. revert Hall. generalize 0.
      induction frames as [|f frames IH]; intros i Hall; simpl; constructor.
      * exists []. apply Hall. now left.
      * apply (IH (i + 1)). intros n g Hin. apply Hall. now right.
Qed.

End LexicalLoading.

Section LexicalNames.

Lemma plain_file_tag_lt (ext : string) (i j : Z) :
  0 <= i -> i < j -> j < 10 -> slt (plain_file_tag i ext) (plain_file_tag j ext).
Proof.
  intros Hi Hij Hj.
  assert (Ci : i = 0 \/ i = 1 \/ i = 2 \/ i = 3 \/ i = 4 \/ i = 5 \/ i = 6 \/ i = 7
               \/ i = 8 \/ i = 9) by lia.
  assert (Cj : j = 0 \/ j = 1 \/ j = 2 \/ j = 3 \/ j = 4 \/ j = 5 \/ j = 6 \/ j = 7
               \/ j = 8 \/ j = 9) by lia.
  repeat destruct Ci as [Ci|Ci]; repeat destruct Cj as [Cj|Cj]; subst;
    first [lia | reflexivity].
Qed.

Lemma plain_file_tag_wraps (ext : string) :
  0 < 10 /\ slt (plain_file_tag 10 ext) (plain_file_tag (10 - 1) ext).
Proof. split; [lia|reflexivity]. Qed.

Lemma k_file_tag_wraps (ext : string) :
  0 < 100000 /\ slt (k_file_tag 100000 ext) (k_file_tag (100000 - 1) ext).
Proof. split; [lia|reflexivity]. Qed.

Lemma search_plain_file_tag (pat ext : string) (i : Z) :
  re.search pat ext = true -> re.search pat (plain_file_tag i ext) = true.
Proof. intros He. unfold plain_file_tag. now do 2 apply search_app. Qed.

End LexicalNames.

Section Orders.

(** X4: the names [tdms_to_images] gives its files sort into index order
    exactly up to 100000 frames.  For a directory that holds the exported
    files of a sequence, in any enumeration order, the loader of
    [convert_images_to_tdms] returns the names in index order and the frames
    in sequence order if and only if the sequence has at most 100000 frames:
    from frame 100000 on the index takes six characters, and [frame100000]
    sorts before [frame99999]. *)
Theorem exported_frames_reload_in_order_iff
    (w : world) (d ext ext' : string) (frames : list ndarray) (l : list (string * file)) :
  dirs w !! d = Some l ->
  Permutation (frame_files ext frames 0) l ->
  re.plain ext' = true -> re.search ext' ext = true ->
  fst (read_image_files d ext' w) = Ok (map fst (frame_files ext frames 0), frames)
  <-> len frames <= 100000.
Proof.
  intros Hd HP _ Hext.
  apply (read_numbered_iff (fun k => k_file_tag k ext) 100000 ext') with (l := l);
    try assumption.
  - intros i j Hi Hij Hj. now apply k_file_tag_lt.
  - apply k_file_tag_wraps.
  - intros i. now apply search_k_file_tag.
Qed.

Lemma exported_frames_reload_in_order_iff_witness :
  fst (read_image_files "movie" ".tif" reloaded_world)
  = Ok (map fst (frame_files ".tiff" [frame_a; frame_b] 0), [frame_a; frame_b])
  <-> len [frame_a; frame_b] <= 100000.
Proof.
  apply (exported_frames_reload_in_order_iff reloaded_world "movie" ".tiff" ".tif"
           [frame_a; frame_b] (rev (frame_files ".tiff" [frame_a; frame_b] 0))).
  - reflexivity.
  - apply Permutation_rev.
  - reflexivity.
  - reflexivity.
Defined.

(** X5: for files named ['frame' + str(i) + extension], without padding,
    [load_images] returns the frames in index order whatever their number,
    while the loader of [convert_images_to_tdms], which sorts the names as
    strings, returns them in index order if and only if there are at most 10
    of them ([frame10] sorts before [frame9]). *)
Theorem unpadded_names_load_in_order
    (w : world) (d ext ext' : string) (frames : list ndarray) (l : list (string * file)) :
  dirs w !! d = Some l ->
  Permutation (numbered_files (fun i => plain_file_tag i ext) frames 0) l ->
  frames <> [] ->
  glob.plain ext = true -> text_first ext = true ->
  re.plain ext' = true -> re.search ext' ext = true ->
  load_images d "frame" ext w = (Ok frames, w) /\
  (fst (read_image_files d ext' w)
   = Ok (map fst (numbered_files (fun i => plain_file_tag i ext) frames 0), frames)
   <-> len frames <= 10).
Proof.
  intros Hd HP Hne _ Htext _ Hext. split.
  - apply (load_images_numbered (fun i => plain_file_tag i ext) "frame" ext) with (l := l);
      try assumption.
    + intros i j Hi Hj. now apply plain_file_tag_leb.
    + intros i. apply matches_plain_file_tag.
  - apply (read_numbered_iff (fun i => plain_file_tag i ext) 10 ext') with (l := l);
      try assumption.
    + intros i j Hi Hij Hj. now apply plain_file_tag_lt.
    + apply plain_file_tag_wraps.
    + intros i. now apply search_plain_file_tag.
Qed.

Lemma unpadded_names_load_in_order_witness :
  load_images "movie" "frame" ".png" unpadded_world = (Ok [frame_a; frame_b], unpadded_world) /\
  (fst (read_image_files "movie" ".png" unpadded_world)
   = Ok (map fst (numbered_files (fun i => plain_file_tag i ".png") [frame_a; frame_b] 0),
         [frame_a; frame_b])
   <-> len [frame_a; frame_b] <= 10).
Proof.
  apply (unpadded_names_load_in_order unpadded_world "movie" ".png" ".png"
           [frame_a; frame_b]
           (rev (numbered_files (fun i => plain_file_tag i ".png") [frame_a; frame_b] 0))).
  - reflexivity.
  - apply Permutation_rev.
  - discriminate.
  - reflexivity.
  - reflexivity.
  - reflexivity.
  - reflexivity.
Defined.

End Orders.

(** * Unflattening, and loading or flattening again *)

Section Pipelines.

(** X6: [load_images] orders names naturally (runs of digits compare as
    numbers), so it reads back the frames that [tdms_to_images] exported
    into a fresh directory in sequence order, whatever their number and
    whatever the order the directory is enumerated in. *)
Theorem export_then_load_images_any_count
    (w : world) (path destination ext : string) (raw : list pixel) (N H W : Z) :
  declares w path raw H W ->
  0 < H -> 0 < W -> 0 < N -> len raw = N * (H * W) ->
  fresh_directory w destination ->
  glob.plain ext = true -> text_first ext = true ->
  exists arr frames w1,
    tdms_to_images path destination true ext w = (Ok arr, w1) /\
    numpy.subarrays arr = Ok frames /\
    len frames = N /\
    dirs w1 !! destination = Some (frame_files ext frames 0) /\
    forall listing',
      Permutation (frame_files ext frames 0) listing' ->
      fst (load_images destination "frame" ext
             (with_dirs w1 (<[destination := listing']> (dirs w1))))
      = Ok frames.
Proof.
  intros Hdecl HH HW HN Hlen Hfresh _ Hext.
  destruct (folded_spec raw N H W HH HW ltac:(lia) Hlen) as (Hsub & Hcount & _ & _).
  eexists _, (folded raw N H W), _.
  split; [apply (tdms_to_images_fresh w path destination ext raw N H W); (assumption || lia)|].
  split; [exact Hsub|]. split; [exact Hcount|].
  split; [cbn [dirs with_dirs]; apply lookup_insert_eq|].
  intros listing' HP.
  erewrite (load_images_numbered (fun k => k_file_tag k ext) "frame" ext);
    [reflexivity| | |cbn [dirs with_dirs]; apply lookup_insert_eq|exact HP|].
  - intros i j Hi Hj. now apply k_file_tag_leb.
  - intros i. apply matches_k_file_tag.
  - intros E. rewrite E in Hcount. unfold len in Hcount. simpl in Hcount. lia.
Qed.

Lemma export_then_load_images_any_count_witness :
  exists arr frames w1,
    tdms_to_images "full.tdms" "frames" true ".tiff" export_world = (Ok arr, w1) /\
    numpy.subarrays arr = Ok frames /\
    len frames = 2 /\
    dirs w1 !! "frames"%string = Some (frame_files ".tiff" frames 0) /\
    forall listing',
      Permutation (frame_files ".tiff" frames 0) listing' ->
      fst (load_images "frames" "frame" ".tiff"
             (with_dirs w1 (<["frames"%string := listing']> (dirs w1))))
      = Ok frames.
Proof.
  apply (export_then_load_images_any_count export_world "full.tdms" "frames" ".tiff"
           (map PInt [1; 2; 3; 4; 5; 6; 7; 8; 9; 10; 11; 12]) 2 2 3).
  - declares_by_computation full_tdms.
  - lia.
  - lia.
  - lia.
  - reflexivity.
  - left. split; reflexivity.
  - reflexivity.
  - reflexivity.
Defined.



(** X8: saving over the frames of an earlier, longer export (the console
    answers [y]) replaces the first [N] files and deletes nothing: the files
    of the earlier frames from index [N] on stay, so the directory then
    holds the new frames followed by the tail of the old ones. *)
Theorem overwrite_keeps_later_frames
    (w : world) (path destination ext : string) (raw : list pixel) (N H W : Z)
    (old : list ndarray) (typed : list string) :
  declares w path raw H W ->
  0 < H -> 0 < W -> 0 <= N -> len raw = N * (H * W) ->
  dirs w !! destination = Some (frame_files ext old 0) ->
  old <> [] -> N <= len old ->
  stdin w = "y"%string :: typed ->
  exists arr w',
    tdms_to_images path destination true ext w = (Ok arr, w') /\
    numpy.subarrays arr = Ok (folded raw N H W) /\
    dirs w' !! destination
    = Some (frame_files ext (folded raw N H W ++ skipn (Z.to_nat N) old) 0) /\
    stdin w' = typed.
Proof.
  intros Hdecl HH HW HN Hlen Hd Hne Hold Hin.
  destruct (folded_spec raw N H W HH HW HN Hlen) as (Hsub & Hcount & _ & _).
  set (arr := {| shape := [N; H; W]; data := raw |}) in *.
  set (w0 := with_stdout w (stdout w ++ [found_frames N])).
  assert (Hread : read_tdms_images path w = (Ok arr, w0))
    by (apply read_tdms_images_ok; assumption).
  assert (Hcontent : frame_files ext old 0 <> []).
  { destruct old; [congruence|discriminate]. }
  pose proof (save_images_asked w0 arr (folded raw N H W) destination ext
                (frame_files ext old 0) Hd Hcontent Hsub) as Hs.
  cbv zeta in Hs. cbn [stdin with_stdout w0] in Hs. rewrite Hin in Hs.
  cbn [String.eqb Ascii.eqb Bool.eqb] in Hs.
  eexists arr, _. split.
  { unfold tdms_to_images. erewrite bind_Ok by exact Hread.
    erewrite bind_Ok by exact Hs. reflexivity. }
  split; [exact Hsub|]. split; [|reflexivity].
  cbn [dirs with_dirs]. rewrite lookup_insert_eq. f_equal.
  rewrite exported_over; [|lia|unfold len in *; lia].
  do 3 f_equal. unfold len in Hcount. lia.
Qed.

Lemma overwrite_keeps_later_frames_witness :
  exists arr w',
    tdms_to_images "full.tdms" "frames" true ".tiff" stale_world = (Ok arr, w') /\
    numpy.subarrays arr
    = Ok (folded (map PInt [1; 2; 3; 4; 5; 6; 7; 8; 9; 10; 11; 12]) 2 2 3) /\
    dirs w' !! "frames"%string
    = Some (frame_files ".tiff"
              (folded (map PInt [1; 2; 3; 4; 5; 6; 7; 8; 9; 10; 11; 12]) 2 2 3
               ++ skipn (Z.to_nat 2) [frame_c; frame_c; frame_c]) 0) /\
    stdin w' = [].
Proof.
  apply (overwrite_keeps_later_frames stale_world "full.tdms" "frames" ".tiff"
           (map PInt [1; 2; 3; 4; 5; 6; 7; 8; 9; 10; 11; 12]) 2 2 3
           [frame_c; frame_c; frame_c] []).
  - declares_by_computation full_tdms.
  - lia.
  - lia.
  - lia.
  - reflexivity.
  - reflexivity.
  - discriminate.
  - vm_compute. discriminate.
  - reflexivity.
Defined.

(** X9: flattening after unflattening gives the channel back.  Exporting the
    frames of a TDMS file (one at least, 100000 at most) into a fresh
    directory with [tdms_to_images] and converting that directory with
    [convert_images_to_tdms] writes a TDMS file whose channel [img/cam1]
    declares the same two sizes and holds the float32 casts of the same
    elements in the same order: the very same elements when they are float32
    values already. *)
Theorem tdms_survives_export_and_convert
    (w : world) (path destination ext template_file : string)
    (efr et bfs z af : py.value) (ext' target : string)
    (raw : list pixel) (N H W : Z) (template : tdms) :
  declares w path raw H W ->
  0 < H -> 0 < W -> 0 < N <= 100000 -> len raw = N * (H * W) ->
  fresh_directory w destination ->
  re.plain ext' = true -> re.search ext' ext = true ->
  files w !! template_file = Some (TdmsFile template) ->
  dirs w !! target = None -> target <> destination ->
  exists out w2,
    export_and_convert path destination ext template_file efr et bfs z af ext' target w
    = (Ok out, w2) /\
    declares w2 target (map cast_float32 raw) H W /\
    (Forall (fun p => exists f, p = PF32 f) raw -> declares w2 target raw H W).
Proof.
  intros Hdecl HH HW HN Hlen Hfresh Hplain Hext Ht Htarget Hne.
  destruct (folded_spec raw N H W HH HW ltac:(lia) Hlen) as (Hsub & Hcount & Hall & Hcat).
  set (frames := folded raw N H W) in *.
  unfold export_and_convert.
  erewrite bind_Ok
    by (apply (tdms_to_images_fresh w path destination ext raw N H W); (assumption || lia)).
  set (w0 := with_stdout w (stdout w ++ [found_frames N])).
  set (w1 := with_dirs w0 _).
  assert (Hd1 : dirs w1 !! destination = Some (frame_files ext frames 0))
    by (cbn [dirs with_dirs w1]; apply lookup_insert_eq).
  assert (Hholds : holds_frames w1 destination ext' frames).
  { split; [exact Hplain|]. exists (frame_files ext frames 0). split; [exact Hd1|].
    assert (Hfilter : List.filter (re.search ext') (map fst (frame_files ext frames 0))
                      = map fst (frame_files ext frames 0)).
    { apply filter_all. apply List.Forall_forall. intros n Hn.
      apply in_map_iff in Hn as [[n' g] [<- Hn]].
      apply in_map_iff in Hn as [[k x] [E _]]. injection E as E1 E2.
      cbn [fst]. rewrite <- E1. now apply search_k_file_tag. }
    rewrite Hfilter.
    rewrite (sorted_of_perm _ (map fst (frame_files ext frames 0)));
      [|apply slt_sorted_sle, frame_files_sorted; lia|reflexivity].
    apply frame_files_entry; [lia|lia|reflexivity]. }
  assert (Hframes : frames <> []).
  { intros E. rewrite E in Hcount. unfold len in Hcount. simpl in Hcount. lia. }
  erewrite convert_images_to_tdms_ok;
    [|exact Hholds|exact Hframes|exact Hall|lia|lia|exact Ht|].
  2:{ cbn [dirs with_dirs with_stdout w1 w0]. now rewrite lookup_insert_ne by congruence. }
  assert (Hdata : flat cast_float32 frames = map cast_float32 raw)
    by now rewrite flat_map_concat, Hcat.
  assert (Hdecl2 : forall w2,
            files w2 !! target = Some (converted_file template frames H W efr et bfs z af) ->
            declares w2 target (map cast_float32 raw) H W).
  { intros w2 Hf. rewrite <- Hdata. eapply declares_converted. exact Hf. }
  eexists _, _. split; [reflexivity|].
  match goal with |- declares ?x _ _ _ _ /\ _ => set (w2 := x) end.
  assert (Hfile : files w2 !! target
                  = Some (converted_file template frames H W efr et bfs z af))
    by (cbn [files w2]; apply lookup_insert_eq).
  clearbody w2. split; [now apply Hdecl2|].
  intros Hf32.
  assert (map cast_float32 raw = raw) as Hid.
  { clear -Hf32. induction Hf32 as [|p l [f ->] _ IH]; simpl; [reflexivity|now rewrite IH]. }
  specialize (Hdecl2 w2 Hfile). now rewrite Hid in Hdecl2.
Qed.

Lemma tdms_survives_export_and_convert_witness :
  exists out w2,
    export_and_convert "float.tdms" "frames" ".tiff" "template.tdms"
      (py.VFloat (201 # 2)) (py.VFloat (201 # 2)) (py.VInt 4) (py.VFloat (3 # 2))
      (py.VInt 300) ".tif" "event00.tdms" pipeline_world
    = (Ok out, w2) /\
    declares w2 "event00.tdms" (map cast_float32 float_values) 2 3 /\
    (Forall (fun p => exists f, p = PF32 f) float_values ->
     declares w2 "event00.tdms" float_values 2 3).
Proof.
  apply (tdms_survives_export_and_convert pipeline_world "float.tdms" "frames" ".tiff"
           "template.tdms" _ _ _ _ _ ".tif" "event00.tdms" float_values 2 2 3
           template_tdms).
  - declares_by_computation float_tdms.
  - lia.
  - lia.
  - lia.
  - reflexivity.
  - left. split; reflexivity.
  - reflexivity.
  - reflexivity.
  - reflexivity.
  - reflexivity.
  - discriminate.
Defined.

End Pipelines.

(** * Sizes, stacks and rejected inputs *)

Section Sizes.




End Sizes.

Section Stacks.

(** X11: in single-stack mode a file of at most 100000 pages (of one shape)
    is kept whole: [tiff_to_mp] returns and writes the array of all its
    pages, whose elements along the first axis are the pages in order.  A
    file of one page gives the page itself, without a first axis of length
    one. *)
Theorem short_stack_kept_whole
    (w : world) (tiff_location mp_file : string) (filename_core : option string)
    (pages : list ndarray) (s : list Z) :
  files w !! tiff_location = Some (ImageFile pages) ->
  dirs w !! mp_file = None ->
  uniform_pages s pages = true ->
  0 < len pages <= 100000 ->
  let arr := match pages with
             | [p] => p
             | _ => {| shape := len pages :: s; data := concat (map data pages) |}
             end in
  tiff_to_mp tiff_location mp_file true filename_core w
  = (Ok arr, with_files w (<[mp_file := H5File {[ "frame"%string := arr ]}]> (files w))) /\
  (1 < len pages -> numpy.subarrays arr = Ok pages) /\
  (len pages = 1 -> shape arr = s).
Proof.
  intros Hf Hd Hu Hlen arr.
  apply uniform_pages_spec in Hu.
  assert (Harr : tifffile.asarray_slice pages 0 100000 = Ok arr).
  { unfold tifffile.asarray_slice. change (Z.to_nat 0) with 0%nat.
    rewrite Nat.sub_0_r, skipn_O.
    rewrite firstn_all2 by (unfold len in Hlen; lia).
    destruct pages as [|p [|q rest]].
    - unfold len in Hlen. simpl in Hlen. lia.
    - reflexivity.
    - unfold arr. apply pages_asarray_many; [simpl; lia|].
      eapply List.Forall_impl; [|exact Hu]. now intros x [Hx _]. }
  split; [|split].
  - unfold tiff_to_mp.
    erewrite bind_Ok; cycle 1.
    { erewrite bind_Ok
        by (unfold tifffile.TiffFile, open_file, bind; rewrite Hf; reflexivity).
      rewrite Harr. reflexivity. }
    erewrite bind_Ok by (unfold h5py.write_dataset; rewrite Hd; reflexivity).
    reflexivity.
  - intros Hmany. destruct pages as [|p [|q rest]];
      [unfold len in Hmany; simpl in Hmany; lia..|].
    unfold arr. now apply subarrays_stacked.
  - intros Hone. destruct pages as [|p [|q rest]];
      [unfold len in Hone; simpl in Hone; lia| |unfold len in Hone; simpl in Hone; lia].
    unfold arr. inversion Hu as [|? ? [Hp _] _]. exact Hp.
Qed.

Lemma short_stack_kept_whole_witness :
  let arr := {| shape := len [frame_a; frame_b] :: [2; 3];
                data := concat (map data [frame_a; frame_b]) |} in
  tiff_to_mp "pair.tif" "movie.mp" true None pair_world
  = (Ok arr, with_files pair_world
               (<["movie.mp"%string := H5File {[ "frame"%string := arr ]}]>
                  (files pair_world))) /\
  (1 < len [frame_a; frame_b] -> numpy.subarrays arr = Ok [frame_a; frame_b]) /\
  (len [frame_a; frame_b] = 1 -> shape arr = [2; 3]).
Proof.
  apply (short_stack_kept_whole pair_world "pair.tif" "movie.mp" None
           [frame_a; frame_b] [2; 3]).
  - reflexivity.
  - reflexivity.
  - vm_compute. reflexivity.
  - unfold len. simpl. lia.
Defined.

(** X12: of an image file with several pages [convert_images_to_tdms] takes
    the first page and drops the others without a word: a directory that
    holds one stack file is converted into a channel of one frame, the
    float32 cast of the first page. *)
Theorem later_pages_of_a_file_are_dropped
    (w : world) (imagepath template_file ext target name : string)
    (efr et bfs z af : py.value) (p0 : ndarray) (rest : list ndarray) (H W : Z)
    (template : tdms) :
  dirs w !! imagepath = Some [(name, ImageFile (p0 :: rest))] ->
  re.plain ext = true -> re.search ext name = true ->
  shape p0 = [H; W] -> len (data p0) = H * W -> 0 < H -> 0 < W ->
  files w !! template_file = Some (TdmsFile template) ->
  dirs w !! target = None ->
  exists out w',
    convert_images_to_tdms imagepath template_file efr et bfs z af ext target w
    = (Ok out, w') /\
    snd (fst out) = {| shape := [H * W * 1]; data := map cast_float32 (data p0) |} /\
    declares w' target (map cast_float32 (data p0)) H W.
Proof.
  intros Hd Hplain Hname Hshape Hlen HH HW Ht Htarget.
  assert (Hholds : holds_frames w imagepath ext [p0]).
  { split; [exact Hplain|]. eexists. split; [exact Hd|].
    cbn [map fst List.filter]. rewrite Hname. cbn [py.sorted py.insert_sorted].
    constructor; [|constructor]. exists rest. cbn [entry]. now rewrite String.eqb_refl. }
  rewrite (convert_images_to_tdms_ok w imagepath template_file ext target
             efr et bfs z af [p0] H W template Hholds ltac:(discriminate)
             ltac:(constructor; [split; assumption|constructor])
             ltac:(lia) ltac:(lia) Ht Htarget).
  eexists _, _. split; [reflexivity|]. cbn [fst snd].
  assert (Hflat : flat cast_float32 [p0] = map cast_float32 (data p0))
    by (unfold flat; cbn [map concat]; apply app_nil_r).
  split.
  - unfold converted_data. now rewrite Hflat.
  - rewrite <- Hflat. eapply declares_converted. cbn [files]. apply lookup_insert_eq.
Qed.

Lemma later_pages_of_a_file_are_dropped_witness :
  exists out w',
    convert_example "event00.tdms" stack_directory_world = (Ok out, w') /\
    snd (fst out) = {| shape := [2 * 3 * 1]; data := map cast_float32 (data frame_a) |} /\
    declares w' "event00.tdms" (map cast_float32 (data frame_a)) 2 3.
Proof.
  apply (later_pages_of_a_file_are_dropped stack_directory_world "movie" "template.tdms"
           ".tif" "event00.tdms" "stack.tif" _ _ _ _ _ frame_a [frame_b] 2 3 template_tdms).
  - reflexivity.
  - reflexivity.
  - reflexivity.
  - reflexivity.
  - reflexivity.
  - lia.
  - lia.
  - reflexivity.
  - reflexivity.
Defined.

End Stacks.

Section Rejections.

(** X13: frames with a third axis of more than one entry (colour images, of
    shape (H, W, 3)) are rejected.  [convert_images_to_tdms] prints the
    count of frames and the image size and then raises [ValueError], because
    it reshapes the stacked images to [H * W * N] elements; it writes
    nothing. *)
Theorem frames_with_a_third_axis_rejected
    (w : world) (imagepath template_file ext target : string)
    (efr et bfs z af : py.value) (frames : list ndarray) (H W : Z) (rest : list Z) :
  holds_frames w imagepath ext frames ->
  frames <> [] ->
  Forall (fun b => shape b = H :: W :: rest /\ len (data b) = H * W * numpy.prod rest)
         frames ->
  0 < H -> 0 < W -> 1 < numpy.prod rest ->
  convert_images_to_tdms imagepath template_file efr et bfs z af ext target w
  = (Raise ValueError,
     with_stdout w (stdout w ++
       [ [Text ("There are " +:+ py.str (len frames) +:+ " frames.")];
         [Text "Each image is "; FloatRepr (py.float H); Text " by ";
          FloatRepr (py.float W); Text " pixels."] ])).
Proof.
  intros [_ [l [Hd HF]]] Hne Hall HH HW Hrest.
  unfold convert_images_to_tdms.
  erewrite bind_Ok by (eapply read_image_files_ok; eassumption).
  cbv beta iota.
  assert (Hshape : Forall (fun b => shape b = H :: W :: rest) frames)
    by (eapply List.Forall_impl; [|exact Hall]; intros b [Hb _]; exact Hb).
  assert (Hlen : Forall (fun b => len (data b) = H * W * numpy.prod rest) frames)
    by (eapply List.Forall_impl; [|exact Hall]; intros b [_ Hb]; exact Hb).
  unfold numpy.array_float32. rewrite (stack_uniform _ _ _ Hne Hshape).
  erewrite bind_Ok by reflexivity.
  destruct (last_bound_In frames Hne) as [im [Him Hin]]. rewrite Him.
  erewrite bind_Ok by reflexivity.
  rewrite List.Forall_forall in Hshape. pose proof (Hshape im Hin) as Him_shape.
  unfold numpy.shape_at. rewrite Him_shape. cbn [lookup list_lookup].
  run.
  assert (len (py.sorted (List.filter (re.search ext) (map fst l))) = len frames) as ->
    by (unfold len; now rewrite (List.Forall2_length HF)).
  assert (Hn : 0 < len frames).
  { destruct frames; [congruence|]. unfold len. simpl. lia. }
  unfold numpy.reshape, numpy.fix_unknown_dimension.
  cbn [data List.filter].
  assert ((0 <=? H * W * len frames) = true) as -> by (apply Z.leb_le; nia).
  cbn [length Nat.sub numpy.prod fold_right].
  rewrite (flat_length _ _ _ Hlen).
  assert ((H * W * len frames * 1 =? len frames * (H * W * numpy.prod rest)) = false) as ->
    by (apply Z.eqb_neq; nia).
  unfold with_stdout. cbn. rewrite <- app_assoc. reflexivity.
Qed.

Lemma frames_with_a_third_axis_rejected_witness :
  convert_example "event00.tdms" colour_world
  = (Raise ValueError,
     with_stdout colour_world (stdout colour_world ++
       [ [Text ("There are " +:+ py.str (len [rgb 1 2 [1; 2; 3; 4; 5; 6]]) +:+ " frames.")];
         [Text "Each image is "; FloatRepr (py.float 1); Text " by ";
          FloatRepr (py.float 2); Text " pixels."] ])).
Proof.
  apply (frames_with_a_third_axis_rejected colour_world "movie" "template.tdms" ".tif"
           "event00.tdms" _ _ _ _ _ [rgb 1 2 [1; 2; 3; 4; 5; 6]] 1 2 [3]).
  - holds_by_computation.
  - discriminate.
  - repeat constructor.
  - lia.
  - lia.
  - vm_compute. reflexivity.
Defined.

Lemma match_here_self (pat post : string) : re.match_here pat (pat +:+ post) = true.
Proof.
  induction pat as [|c pat IH]; [reflexivity|].
  rewrite str_app_cons. cbn [re.match_here]. rewrite IH, andb_true_r.
  unfold re.match_char. destruct (Ascii.eqb_spec c ".") as [->|_]; [reflexivity|].
  apply Ascii.eqb_refl.
Qed.

(** A name that holds the pattern's own text is found, wherever the text
    stands in it. *)
Lemma search_inside (pat pre post : string) : re.search pat (pre +:+ pat +:+ post) = true.
Proof.
  apply search_app.
  destruct (pat +:+ post) eqn:E; cbn [re.search]; rewrite <- E, match_here_self; reflexivity.
Qed.

Lemma entry_name_In (n : string) (f : file) (l : list (string * file)) :
  entry n l = Some f -> In n (map fst l).
Proof.
  induction l as [|[m g] l IH]; simpl; [discriminate|].
  destruct (String.eqb_spec m n) as [->|_]; [now left|]. intros H. right. now apply IH.
Qed.

(** One unreadable file among those to read makes the whole reading
    fail. *)
Lemma for_each_imread_fails (d : string) (names : list string) (n : string) (w : world) :
  In n names ->
  (exists e, imageio.imread d n w = (Raise e, w)) ->
  exists e, for_each (imageio.imread d) names w = (Raise e, w).
Proof.
  intros Hin Hn. induction names as [|x names IH]; [destruct Hin|].
  cbn [for_each].
  assert (Hx : preserves unchanged (imageio.imread d x))
    by (unfold imageio.imread; frame).
  specialize (Hx w). unfold unchanged in Hx.
  destruct (imageio.imread d x w) as [[a|e] w1] eqn:E; cbn [snd] in Hx; subst w1.
  - destruct Hin as [->|Hin].
    + destruct Hn as [e He]. congruence.
    + destruct (IH Hin) as [e He]. exists e.
      erewrite bind_Ok by exact E. now erewrite bind_Raise by exact He.
  - exists e. now erewrite bind_Raise by exact E.
Qed.

(** X14: the extension is searched for anywhere in a name, so a file that is
    no image but holds the extension in its name ([a.tif.txt]) is taken for
    a frame; [convert_images_to_tdms] then raises when it reads it, and
    writes no file. *)
Theorem stray_match_aborts_conversion
    (w : world) (imagepath template_file ext target : string)
    (efr et bfs z af : py.value) (l : list (string * file)) (pre post : string) :
  dirs w !! imagepath = Some l ->
  re.plain ext = true ->
  entry (pre +:+ ext +:+ post) l = Some OtherFile ->
  re.search ext (pre +:+ ext +:+ post) = true /\
  exists e w',
    convert_images_to_tdms imagepath template_file efr et bfs z af ext target w
    = (Raise e, w') /\
    files w' = files w /\ dirs w' = dirs w.
Proof.
  intros Hd _ Hentry. split; [apply search_inside|].
  set (n := pre +:+ ext +:+ post) in *.
  assert (Hin : In n (py.sorted (List.filter (re.search ext) (map fst l)))).
  { eapply Permutation_in; [symmetry; apply sorted_perm|].
    apply List.filter_In. split; [eapply entry_name_In; exact Hentry|apply search_inside]. }
  assert (Hn : exists e, imageio.imread imagepath n w = (Raise e, w)).
  { exists ValueError. unfold imageio.imread, bind, open_entry. now rewrite Hd, Hentry. }
  set (w0 := with_stdout w (stdout w ++
    [[Text ("There are " +:+
            py.str (len (py.sorted (List.filter (re.search ext) (map fst l)))) +:+
            " frames.")]])).
  assert (Hn0 : exists e, imageio.imread imagepath n w0 = (Raise e, w0)).
  { exists ValueError. unfold imageio.imread, bind, open_entry.
    cbn [dirs with_stdout w0]. now rewrite Hd, Hentry. }
  destruct (for_each_imread_fails imagepath _ n w0 Hin Hn0) as [e He].
  exists e, w0. split; [|split; reflexivity].
  unfold convert_images_to_tdms. erewrite bind_Raise; [reflexivity|].
  unfold read_image_files.
  erewrite bind_Ok by (unfold os.listdir; rewrite Hd; reflexivity).
  erewrite bind_Ok by reflexivity.
  now erewrite bind_Raise by exact He.
Qed.

Lemma stray_match_aborts_conversion_witness :
  re.search ".tif" ("a" +:+ ".tif" +:+ ".txt") = true /\
  exists e w',
    convert_example "event00.tdms" stray_world = (Raise e, w') /\
    files w' = files stray_world /\ dirs w' = dirs stray_world.
Proof.
  apply (stray_match_aborts_conversion stray_world "movie" "template.tdms" ".tif"
           "event00.tdms" _ _ _ _ _
           [("a.tif"%string, ImageFile [frame_a]); ("a.tif.txt"%string, OtherFile)]
           "a" ".txt").
  - reflexivity.
  - reflexivity.
  - reflexivity.
Defined.

(** X15: when the TDMS file has no channel [img/cam1], or the channel lacks
    the property [Image size], or has it (as a number) and lacks [Image size
    2], [tdms_to_images] raises [KeyError] and leaves the world as it was:
    nothing is printed, asked, created or saved. *)
Theorem missing_channel_or_size_is_KeyError
    (w : world) (path destination ext : string) (save : bool) (t : tdms) :
  files w !! path = Some (TdmsFile t) ->
  match tdms_channels t !! ("img"%string, "cam1"%string) with
  | None => True
  | Some ch =>
      ch_properties ch !! "Image size"%string = None \/
      exists v h, ch_properties ch !! "Image size"%string = Some v /\ py.int v = Ok h /\
                  ch_properties ch !! "Image size 2"%string = None
  end ->
  tdms_to_images path destination save ext w = (Raise KeyError, w).
Proof.
  intros Hf Hmiss. unfold tdms_to_images.
  erewrite bind_Raise; [reflexivity|].
  unfold read_tdms_images.
  erewrite bind_Ok by (unfold nptdms.TdmsFile_read, open_file, bind; rewrite Hf; reflexivity).
  unfold nptdms.channel_data, nptdms.object_properties.
  destruct (tdms_channels t !! ("img"%string, "cam1"%string)) as [ch|]; [|reflexivity].
  rewrite !bind_lift. unfold nptdms.getitem.
  destruct Hmiss as [H1|(v & h & H1 & Hv & H2)].
  - now rewrite H1.
  - now rewrite H1, bind_lift, Hv, bind_lift, H2.
Qed.

Lemma missing_channel_or_size_is_KeyError_witness :
  tdms_to_images "unsized.tdms" "frames" true ".tiff" unsized_world
  = (Raise KeyError, unsized_world).
Proof.
  apply (missing_channel_or_size_is_KeyError unsized_world "unsized.tdms" "frames" ".tiff"
           true unsized_tdms).
  - reflexivity.
  - vm_compute. right. exists (py.VFloat (py.float 2)), 2. repeat split.
Defined.

(** X16: an empty movie does not come back.  From a channel without elements
    [tdms_to_images] returns an array of shape (0, H, W) and creates the
    destination directory without any file in it; [convert_images_to_tdms]
    on that directory raises [UnboundLocalError]. *)
Theorem empty_movie_cannot_come_back
    (w : world) (path destination ext template_file : string)
    (efr et bfs z af : py.value) (ext' target : string) (H W : Z) :
  declares w path [] H W ->
  0 < H -> 0 < W ->
  dirs w !! destination = None -> files w !! destination = None ->
  re.plain ext' = true ->
  exists w1,
    tdms_to_images path destination true ext w
    = (Ok {| shape := [0; H; W]; data := [] |}, w1) /\
    dirs w1 !! destination = Some [] /\
    fst (convert_images_to_tdms destination template_file efr et bfs z af ext' target w1)
    = Raise UnboundLocalError.
Proof.
  intros Hdecl HH HW Hd Hf _.
  eexists. split.
  { apply (tdms_to_images_fresh w path destination ext [] 0 H W);
      [assumption..|lia|reflexivity|left; split; assumption]. }
  cbn [dirs with_dirs]. split; [apply lookup_insert_eq|].
  unfold convert_images_to_tdms.
  erewrite bind_Ok; cycle 1.
  { apply (read_image_files_ok destination ext' [] []);
      [cbn [dirs with_dirs]; apply lookup_insert_eq|constructor]. }
  reflexivity.
Qed.

Lemma empty_movie_cannot_come_back_witness :
  exists w1,
    tdms_to_images "empty.tdms" "frames" true ".tiff" empty_movie_world
    = (Ok {| shape := [0; 2; 3]; data := [] |}, w1) /\
    dirs w1 !! "frames"%string = Some [] /\
    fst (convert_images_to_tdms "frames" "template.tdms"
           (py.VFloat (201 # 2)) (py.VFloat (201 # 2)) (py.VInt 4) (py.VFloat (3 # 2))
           (py.VInt 300) ".tif" "event00.tdms" w1)
    = Raise UnboundLocalError.
Proof.
  apply (empty_movie_cannot_come_back empty_movie_world "empty.tdms" "frames" ".tiff"
           "template.tdms" _ _ _ _ _ ".tif" "event00.tdms" 2 3).
  - declares_by_computation empty_tdms.
  - lia.
  - lia.
  - reflexivity.
  - reflexivity.
  - reflexivity.
Defined.

End Rejections.

Section ReadingProperties.

Context {G C : Type}.
Variable groups_of : tdms -> list G.
Variable group_channels : tdms -> G -> result (list C).
Variable group_str : G -> string.

(** The loop appends the channels of each group to the one list and
    stores the list under each group's key. *)
Lemma read_groups_ok (t : tdms) (r : nat) (groups : list G) (chs : list (list C))
    (d : gmap string (dict_value G)) (st : gmap nat (list (list C)))
    (before : list (list C)) :
  st !! r = Some before ->
  Forall2 (fun g c => group_channels t g = Ok c) groups chs ->
  exists d',
    read_groups G C group_channels group_str t r groups d st
    = Ok (d', <[r := before ++ chs]> st) /\
    (forall k, In k (map group_str groups) -> d' !! k = Some (DRef r)) /\
    (forall k, ~ In k (map group_str groups) -> d' !! k = d !! k).
Proof.
  intros Hst HF. revert d st before Hst.
  induction HF as [|g c groups chs Hg _ IH]; intros d st before Hst.
  - exists d. cbn [read_groups]. rewrite app_nil_r, insert_id by exact Hst.
    split; [reflexivity|]. split; [intros k []|reflexivity].
  - cbn [read_groups]. rewrite Hg. cbn [rbind].
    unfold list_append at 1. rewrite Hst.
    destruct (IH (<[group_str g := DRef r]> d) (<[r := before ++ [c]]> st) (before ++ [c]))
      as (d' & Hrun & Hkeys & Hother); [apply lookup_insert_eq|].
    exists d'. split; [|split].
    + rewrite Hrun, insert_insert_eq, <- app_assoc. reflexivity.
    + intros k Hk.
      destruct (in_dec String.string_dec k (map group_str groups)) as [Hin|Hnot];
        [now apply Hkeys|].
      rewrite Hother by exact Hnot.
      destruct Hk as [<-|Hk]; [apply lookup_insert_eq|contradiction].
    + intros k Hk. rewrite Hother by (intros Hin; apply Hk; now right).
      apply lookup_insert_ne. intros E. apply Hk. now left.
Qed.

(** X17: [read_tdms_properties] stores one and the same list under the key
    of every group.  When the loop is over that list holds the channel lists
    of all the groups, in the order of the groups, and every group's entry
    refers to it (not to the channels of that group alone).  The entry
    [groups] holds the list of groups, unless a group's key is [groups] too.
    *)
Theorem read_tdms_properties_shares_one_list
    (filename : string) (w : world) (t : tdms) (chs : list (list C)) :
  files w !! filename = Some (TdmsFile t) ->
  Forall2 (fun g c => group_channels t g = Ok c) (groups_of t) chs ->
  exists d st r,
    read_tdms_properties G C groups_of group_channels group_str filename w
    = (Ok (tdms_properties t, d, st), w) /\
    st !! r = Some chs /\
    (forall g, In g (groups_of t) -> d !! group_str g = Some (DRef r)) /\
    (~ In "groups"%string (map group_str (groups_of t)) ->
     d !! "groups"%string = Some (DGroups (groups_of t))).
Proof.
  intros Hf HF.
  destruct (read_groups_ok t 0%nat (groups_of t) chs
              (<["groups"%string := DGroups (groups_of t)]> ∅) {[ 0%nat := [] ]} []
              (lookup_singleton_eq _ _) HF) as (d & Hrun & Hkeys & Hother).
  exists d, (<[0%nat := [] ++ chs]> {[ 0%nat := [] ]}), 0%nat.
  split; [|split; [apply lookup_insert_eq|split]].
  - unfold read_tdms_properties.
    erewrite bind_Ok
      by (unfold nptdms.TdmsFile_read, open_file, bind; rewrite Hf; reflexivity).
    cbv zeta. rewrite Hrun, bind_lift. reflexivity.
  - intros g Hg. apply Hkeys. now apply in_map.
  - intros Hnot. rewrite (Hother _ Hnot). apply lookup_insert_eq.
Qed.

End ReadingProperties.

Lemma read_tdms_properties_shares_one_list_witness :
  exists d st r,
    read_tdms_properties string string tdms_groups named_channels (fun g => g)
      "take1.tdms" groups_world
    = (Ok (tdms_properties two_groups_tdms, d, st), groups_world) /\
    st !! r = Some [["cam1"]; ["t"; "z"]]%string /\
    (forall g, In g (tdms_groups two_groups_tdms) -> d !! g = Some (DRef r)) /\
    (~ In "groups"%string (map (fun g => g) (tdms_groups two_groups_tdms)) ->
     d !! "groups"%string = Some (DGroups (tdms_groups two_groups_tdms))).
Proof.
  apply (read_tdms_properties_shares_one_list tdms_groups named_channels (fun g => g)
           "take1.tdms" groups_world two_groups_tdms [["cam1"]; ["t"; "z"]]%string).
  - reflexivity.
  - repeat constructor.
Defined.

Section Sequences.

(** X18: in sequence mode [tiff_to_mp] returns and writes the frame of the
    first file (in the natural order of the names) only, for every directory
    of one-page files of one shape: the dataset has the shape of one frame,
    and it is not the stack of the frames as soon as there is a second file.
    *)
Theorem tiff_sequence_keeps_first_file_only
    (w : world) (d mp_file core : string) (l : list (string * file))
    (f0 : ndarray) (frames : list ndarray) (s : list Z) :
  dirs w !! d = Some l ->
  dirs w !! mp_file = None ->
  glob.plain core = true ->
  Forall2 (fun n f => entry n l = Some (ImageFile [f]))
          (natural.sorted (List.filter (glob.matches core ".tif") (map fst l)))
          (f0 :: frames) ->
  uniform_pages s (f0 :: frames) = true ->
  exists w',
    tiff_to_mp d mp_file false (Some core) w = (Ok f0, w') /\
    files w' !! mp_file = Some (H5File {[ "frame"%string := f0 ]}) /\
    shape f0 = s /\
    (frames <> [] ->
     numpy.asarray (f0 :: frames)
     <> Ok f0).
Proof.
  intros Hd Hmp _ HF Hu.
  eexists. split; [eapply tiff_to_mp_sequence; eassumption|].
  split; [cbn [files with_files]; apply lookup_insert_eq|].
  apply uniform_pages_spec in Hu.
  assert (Hs : shape f0 = s) by (inversion Hu as [|? ? [H0 _] _]; exact H0).
  split; [exact Hs|].
  intros Hne. unfold numpy.asarray.
  rewrite (stack_uniform _ (f0 :: frames) s);
    [|discriminate|eapply List.Forall_impl; [|exact Hu]; now intros p [Hp _]].
  intros E. injection E as E. apply (f_equal shape) in E. cbn [shape] in E.
  rewrite Hs in E. apply (f_equal (@length Z)) in E. simpl in E. lia.
Qed.

Lemma tiff_sequence_keeps_first_file_only_witness :
  exists w',
    tiff_to_mp "tifs" "movie.mp" false (Some "frame"%string) solid_world
    = (Ok (solid 0), w') /\
    files w' !! "movie.mp"%string = Some (H5File {[ "frame"%string := solid 0 ]}) /\
    shape (solid 0) = [2; 2] /\
    ([solid 128; solid 255] <> [] ->
     numpy.asarray (solid 0 :: [solid 128; solid 255]) <> Ok (solid 0)).
Proof.
  apply (tiff_sequence_keeps_first_file_only solid_world "tifs" "movie.mp" "frame"
           [("frame2.tif"%string, ImageFile [solid 255]);
            ("frame0.tif"%string, ImageFile [solid 0]);
            ("frame1.tif"%string, ImageFile [solid 128])]
           (solid 0) [solid 128; solid 255] [2; 2]).
  - reflexivity.
  - reflexivity.
  - reflexivity.
  - vm_compute. repeat (constructor; [reflexivity|]). constructor.
  - vm_compute. reflexivity.
Defined.

(** X19: when no file of the directory matches the pattern, [tiff_to_mp] in
    sequence mode raises [ValueError] and [png_to_mp] raises [OSError];
    neither writes a file or changes the world. *)
Theorem no_matching_file_rejected
    (w : world) (d mp_file core ext : string) (l : list (string * file)) :
  dirs w !! d = Some l ->
  glob.plain core = true -> glob.plain ext = true ->
  (List.filter (glob.matches core ".tif") (map fst l) = [] ->
   tiff_to_mp d mp_file false (Some core) w = (Raise ValueError, w)) /\
  (List.filter (glob.matches "frame" ext) (map fst l) = [] ->
   png_to_mp d mp_file ext w = (Raise OSError, w)).
Proof.
  intros Hd _ _. split; intros Hnone.
  - unfold tiff_to_mp. erewrite bind_Raise; [reflexivity|].
    erewrite bind_Raise; [reflexivity|].
    unfold tifffile.TiffSequence.
    erewrite bind_Ok by (unfold os.listdir; rewrite Hd; reflexivity).
    rewrite Hnone. reflexivity.
  - unfold png_to_mp. erewrite bind_Raise; [reflexivity|].
    unfold load_images, pims.ImageSequence.
    erewrite bind_Ok by (unfold os.listdir; rewrite Hd; reflexivity).
    rewrite Hnone. reflexivity.
Qed.

Lemma no_matching_file_rejected_witness :
  (List.filter (glob.matches "frame" ".tif") (map fst [("notes.txt"%string, OtherFile)]) = [] ->
   tiff_to_mp "movie" "movie.mp" false (Some "frame"%string) empty_world
   = (Raise ValueError, empty_world)) /\
  (List.filter (glob.matches "frame" ".png") (map fst [("notes.txt"%string, OtherFile)]) = [] ->
   png_to_mp "movie" "movie.mp" ".png" empty_world = (Raise OSError, empty_world)).
Proof.
  apply (no_matching_file_rejected empty_world "movie" "movie.mp" "frame" ".png"
           [("notes.txt"%string, OtherFile)]).
  - reflexivity.
  - reflexivity.
  - reflexivity.
Defined.

End Sequences.
